(** * Ecosystem prediction service: a verified model of [backend/ml_service.py]

    The development follows the Python module function by function, at two
    levels of numeric detail.

    Exact level (the first part of the definitions).
    - Population values ([plants], [herbivores], [carnivores]) are exact
      rationals [Q], and arithmetic on them is exact: neither rounding nor
      the overflow of a conversion from [int] to [float] is represented.
      This level is used for what does not depend on the representation of
      numbers: the sizes and thresholds of the training set, the collapse
      label, what training, loading and the routes do to the predictor, the
      shape of a forecast, and which snapshots each function reads.
    - The heuristic risk score is a sum of float literals only; it is
      computed in IEEE 754 binary64 ([SpecFloat], precision 53, emax 1024),
      so that the values are the ones Python reports.

    Machine level (the module [Machine]).
    - A population value is a Python [int] (unbounded) or a [float]
      (binary64); mixed arithmetic converts the [int] and raises
      [OverflowError] when it does not fit, [int / int] is rounded once,
      comparisons between [int] and [float] are exact; the scalars of an
      integer [DataFrame] are 64-bit and wrap around.
    - This level is used for what depends on rounding, on overflow and on
      the exceptions of the arithmetic: feature extraction, the heuristic
      estimator, the fallback of inference, the [/predict/collapse] route
      and the forecast confidence.
    - [0.9 ** steps] goes through the C library's [pow], which IEEE 754 does
      not pin down bit for bit: it is a parameter ([Libm]).

    Both levels.
    - Python exceptions are values of type [exn]; a fallible computation has
      type [M A = exn + A], and one that also acts on a state [S] (the
      predictor, the random generator) has type
      [SE S A = S -> S * (exn + A)].
    - numpy, scikit-learn and joblib are libraries, not code of this
      repository: their operations are fields of the records [Numpy],
      [Sklearn], [ModelStore], [NumpyStd], [Classifier] and [Libm], over
      which the definitions are parametrised. *)

From Stdlib Require Import ZArith QArith Qpower Qround List String Lia SpecFloat.
From Stdlib Require Import Sorted Permutation.
From stdpp Require Import base gmap strings.
Import ListNotations.

Open Scope string_scope.

(** ** Exceptions and the error monad *)

Inductive exn :=
| ValueError (msg : string)
| IndexError (msg : string)
| KeyError (key : string)
| ZeroDivisionError (msg : string)
| OverflowError (msg : string)
| LibraryError (msg : string).

(** [str(e)], as used by the [except Exception as e] handlers. *)
Definition str_exn (e : exn) : string :=
  match e with
  | ValueError msg => msg
  | IndexError msg => msg
  | KeyError key => String.append "'" (String.append key "'")
  | ZeroDivisionError msg => msg
  | OverflowError msg => msg
  | LibraryError msg => msg
  end.

Definition M (A : Type) : Type := (exn + A)%type.

Definition ret {A} (a : A) : M A := inr a.
Definition raise {A} (e : exn) : M A := inl e.
Definition bind {A B} (m : M A) (k : A -> M B) : M B :=
  match m with
  | inl e => inl e
  | inr a => k a
  end.

Notation "x <- m ;; k" := (bind m (fun x => k))
  (at level 100, m at next level, right associativity).

Definition returns {A} (m : M A) : Prop := exists a, m = inr a.

(** ** Python builtins on numbers and lists *)

Definition Qlt_bool (x y : Q) : bool :=
  match (x ?= y)%Q with Lt => true | _ => false end.

(** Two-argument [max(a, b)]: the first argument unless the second is
    strictly larger. *)
Definition py_max2 (a b : Q) : Q := if Qlt_bool a b then b else a.

(** [a / b] on numbers. *)
Definition py_div (a b : Q) : M Q :=
  if Qeq_bool b 0 then raise (ZeroDivisionError "division by zero")
  else ret (a / b)%Q.

(** [sum(l)]: left fold starting from the integer 0. *)
Definition py_sum (l : list Q) : Q := fold_left Qplus l 0%Q.

Fixpoint min_from (m : Q) (l : list Q) : Q :=
  match l with
  | [] => m
  | x :: l' => min_from (if Qlt_bool x m then x else m) l'
  end.

Fixpoint max_from (m : Q) (l : list Q) : Q :=
  match l with
  | [] => m
  | x :: l' => max_from (if Qlt_bool m x then x else m) l'
  end.

(** [min(l)] and [max(l)] on an iterable. *)
Definition py_min (l : list Q) : M Q :=
  match l with
  | [] => raise (ValueError "min() arg is an empty sequence")
  | x :: l' => ret (min_from x l')
  end.

Definition py_max (l : list Q) : M Q :=
  match l with
  | [] => raise (ValueError "max() arg is an empty sequence")
  | x :: l' => ret (max_from x l')
  end.

(** [l[0]] and [l[-1]]. *)
Definition index_first {A} (l : list A) : M A :=
  match l with
  | [] => raise (IndexError "list index out of range")
  | x :: _ => ret x
  end.

Fixpoint index_last {A} (l : list A) : M A :=
  match l with
  | [] => raise (IndexError "list index out of range")
  | [x] => ret x
  | _ :: l' => index_last l'
  end.

(** [l[i]] for a non-negative index. *)
Definition index_at {A} (l : list A) (i : nat) : M A :=
  match nth_error l i with
  | Some x => ret x
  | None => raise (IndexError "single positional indexer is out-of-bounds")
  end.

(** [l[a:b]] for [0 <= a <= b]. *)
Definition slice {A} (l : list A) (a b : nat) : list A :=
  firstn (b - a) (skipn a l).

(** [l[-n:]]: the last [n] elements (all of them when there are fewer). *)
Definition last_n {A} (n : nat) (l : list A) : list A :=
  skipn (length l - n) l.

(** ** numpy *)

Class Numpy := {
  (** [np.sqrt] on a non-negative number *)
  np_sqrt : Q -> Q;
  (** [np.polyfit(x, y, 1)]: the pair (slope, intercept) *)
  np_polyfit : list Q -> list Q -> M (Q * Q);
  (** the global random state and [np.random.normal(loc, scale)] *)
  RNG : Type;
  np_random_normal : Q -> Q -> RNG -> M Q * RNG
}.

Section NumpyStd.
Context `{Numpy}.

Definition np_mean (l : list Q) : Q :=
  (py_sum l / inject_Z (Z.of_nat (length l)))%Q.

(** [np.std(l)] with its default [ddof = 0]: the square root of the mean
    of the squared deviations from the mean (divisor [len(l)]). *)
Definition np_std (l : list Q) : Q :=
  np_sqrt (np_mean (map (fun x => ((x - np_mean l) * (x - np_mean l))%Q) l)).
End NumpyStd.

(** ** Snapshots *)

Record snapshot := Snapshot {
  step : Z;
  plants : Q;
  herbivores : Q;
  carnivores : Q
}.

(** ** Feature extraction *)

Section Features.
Context `{Numpy}.

(** The feature vector built inside [predict_collapse_risk] from
    [lookback = recent_data[-5:]]. *)
Definition infer_features (lookback : list snapshot) : M (list Q) :=
  lst <- index_last lookback ;;
  fst_ <- index_first lookback ;;
  r_ph <- py_div (plants lst) (py_max2 (herbivores lst) 1) ;;
  r_hc <- py_div (herbivores lst) (py_max2 (carnivores lst) 1) ;;
  r_ch <- py_div (carnivores lst) (py_max2 (herbivores lst) 1) ;;
  min_p <- py_min (map plants lookback) ;;
  max_p <- py_max (map plants lookback) ;;
  min_h <- py_min (map herbivores lookback) ;;
  max_h <- py_max (map herbivores lookback) ;;
  min_c <- py_min (map carnivores lookback) ;;
  max_c <- py_max (map carnivores lookback) ;;
  ret [ plants lst; herbivores lst; carnivores lst;
        ((plants lst - plants fst_) / 5)%Q;
        ((herbivores lst - herbivores fst_) / 5)%Q;
        ((carnivores lst - carnivores fst_) / 5)%Q;
        r_ph; r_hc; r_ch;
        py_sum [plants lst; herbivores lst; carnivores lst];
        np_std (map plants lookback);
        np_std (map herbivores lookback);
        np_std (map carnivores lookback);
        min_p; max_p; min_h; max_h; min_c; max_c ].

(** [[lookback.iloc[j][col] for j in range(len(lookback))]] *)
Definition column_by_index (col : snapshot -> Q) (lookback : list snapshot)
  : M (list Q) :=
  fold_right
    (fun j acc => x <- index_at lookback j ;; xs <- acc ;; ret (col x :: xs))
    (ret []) (seq 0 (length lookback)).

(** [feature_row] of [prepare_features], for [lookback = df.iloc[i-5:i]]. *)
Definition feature_row (lookback : list snapshot) : M (list Q) :=
  lst <- index_last lookback ;;
  fst_ <- index_first lookback ;;
  r_ph <- py_div (plants lst) (py_max2 (herbivores lst) 1) ;;
  r_hc <- py_div (herbivores lst) (py_max2 (carnivores lst) 1) ;;
  r_ch <- py_div (carnivores lst) (py_max2 (herbivores lst) 1) ;;
  col_p <- column_by_index plants lookback ;;
  col_h <- column_by_index herbivores lookback ;;
  col_c <- column_by_index carnivores lookback ;;
  min_p <- py_min (map plants lookback) ;;
  max_p <- py_max (map plants lookback) ;;
  min_h <- py_min (map herbivores lookback) ;;
  max_h <- py_max (map herbivores lookback) ;;
  min_c <- py_min (map carnivores lookback) ;;
  max_c <- py_max (map carnivores lookback) ;;
  ret [ plants lst; herbivores lst; carnivores lst;
        ((plants lst - plants fst_) / 5)%Q;
        ((herbivores lst - herbivores fst_) / 5)%Q;
        ((carnivores lst - carnivores fst_) / 5)%Q;
        r_ph; r_hc; r_ch;
        (plants lst + herbivores lst + carnivores lst)%Q;
        np_std col_p; np_std col_h; np_std col_c;
        min_p; max_p; min_h; max_h; min_c; max_c ].

(** The training target computed from [next_step = df.iloc[i]]. *)
Definition collapse (next_step : snapshot) : bool :=
  Qlt_bool (plants next_step) 5
  || Qeq_bool (herbivores next_step) 0
  || Qeq_bool (carnivores next_step) 0.

(** The body of [for i in range(5, len(df))], threaded over the two
    accumulators [features] and [targets]. *)
Fixpoint prepare_loop (df : list snapshot) (idx : list nat)
    (features : list (list Q)) (targets : list Z)
  : M (list (list Q) * list Z) :=
  match idx with
  | [] => ret (features, targets)
  | i :: idx' =>
      row <- feature_row (slice df (i - 5) i) ;;
      next_step <- index_at df i ;;
      prepare_loop df idx' (features ++ [row])
        (targets ++ [if collapse next_step then 1%Z else 0%Z])
  end.

Definition prepare_features (data : list snapshot)
  : M (list (list Q) * list Z) :=
  if (length data <? 10)%nat
  then raise (ValueError
         "Insufficient data for prediction (need at least 10 data points)")
  else prepare_loop data (seq 5 (length data - 5)) [] [].
End Features.

(** ** Binary64 arithmetic of the risk score *)

Definition float64 : Type := spec_float.

Definition f64_of_Z (z : Z) : float64 := binary_normalize 53 1024 z 0 false.

(** The float denoted by the decimal literal [n/d]: the correctly rounded
    quotient of two exactly representable integers. *)
Definition f64_lit (n d : Z) : float64 :=
  SFdiv 53 1024 (f64_of_Z n) (f64_of_Z d).

Definition f64_add (x y : float64) : float64 := SFadd 53 1024 x y.

(** [min(a, b)] and [max(l)] on floats. *)
Definition f64_min2 (a b : float64) : float64 := if SFltb b a then b else a.

Fixpoint f64_max_from (m : float64) (l : list float64) : float64 :=
  match l with
  | [] => m
  | x :: l' => f64_max_from (if SFltb m x then x else m) l'
  end.

Definition f64_max (l : list float64) : M float64 :=
  match l with
  | [] => raise (ValueError "max() arg is an empty sequence")
  | x :: l' => ret (f64_max_from x l')
  end.

(** ** Results *)

Record factor := Factor {
  factor_name : string;
  importance : float64
}.

Inductive risk_response :=
| RiskFailure (error : string)
| RiskResult (risk confidence : float64) (factors : list factor)
    (model_version : string).

Inductive train_report :=
| TrainFailure (error : string)
| TrainOk (model_type : string) (train_accuracy test_accuracy : float64)
    (training_samples features : nat).

Record prediction := Prediction {
  p_step : Z;
  p_plants : Z;
  p_herbivores : Z;
  p_carnivores : Z
}.

Inductive trend := Stable | Increasing | Decreasing.

Record trends := Trends {
  t_plants : trend;
  t_herbivores : trend;
  t_carnivores : trend
}.

Inductive forecast_response :=
| ForecastFailure (error : string)
| ForecastOk (predictions : list prediction) (confidence : Q)
    (trend_labels : trends) (forecast_horizon : Z).

(** ** The heuristic estimator *)

(** The two locals [risk] and [factors], updated together by each rule. *)
Definition score : Type := (float64 * list factor)%type.

Definition add_rule (name : string) (w : float64) (s : score) : score :=
  (f64_add (fst s) w, (snd s ++ [Factor name w])%list).

Definition heuristic_collapse_prediction (recent_data : list snapshot)
  : M risk_response :=
  match recent_data with
  | [] => ret (RiskFailure "No data provided")
  | _ :: _ =>
      latest <- index_last recent_data ;;
      let s0 : score := (f64_of_Z 0, []) in
      let s1 :=
        if Qlt_bool (plants latest) 10
        then add_rule "critically_low_plants" (f64_lit 4 10) s0
        else if Qlt_bool (plants latest) 30
             then add_rule "low_plants" (f64_lit 2 10) s0
             else s0 in
      let s2 :=
        if Qlt_bool (herbivores latest) 3
        then add_rule "critically_low_herbivores" (f64_lit 3 10) s1
        else s1 in
      let s3 :=
        if Qlt_bool (herbivores latest * (15 # 10))%Q (carnivores latest)
        then add_rule "predator_overload" (f64_lit 2 10) s2
        else s2 in
      s4 <- (if (3 <=? length recent_data)%nat
             then
               let recent_trend := last_n 3 recent_data in
               lst <- index_last recent_trend ;;
               fst_ <- index_first recent_trend ;;
               let plant_trend := ((plants lst - plants fst_) / 3)%Q in
               ret (if Qlt_bool plant_trend (-5)
                    then add_rule "declining_plant_trend" (f64_lit 15 100) s3
                    else s3)
             else ret s3) ;;
      ret (RiskResult (f64_min2 (fst s4) (f64_of_Z 1)) (f64_lit 6 10)
             (snd s4) "heuristic")
  end.

(** ** scikit-learn and joblib *)

Class Sklearn := {
  Model : Type;
  Scaler : Type;
  Scaled : Type;
  train_test_split : list (list Q) -> list Z ->
    M (list (list Q) * list (list Q) * list Z * list Z);
  scaler_fit_transform : list (list Q) -> M (Scaler * Scaled);
  scaler_transform : Scaler -> list (list Q) -> M Scaled;
  rf_fit : Scaled -> list Z -> M Model;
  rf_score : Model -> Scaled -> list Z -> M float64;
  predict_proba : Model -> Scaled -> M (list (list float64));
  feature_importances : Model -> M (list float64);
  joblib_dump_model : Model -> string -> M unit;
  joblib_dump_scaler : Scaler -> string -> M unit
}.

(** ** The predictor object *)

Record predictor `{Sklearn} := Predictor {
  models : gmap string Model;
  scalers : gmap string Scaler;
  is_trained : bool;
  model_dir : string
}.

(** Computations that may raise and that act on a state [S]: the state
    reached when an exception is raised is kept, as in Python. *)
Definition SE (S A : Type) : Type := S -> S * M A.

Definition se_ret {S A} (a : A) : SE S A := fun s => (s, ret a).
Definition se_bind {S A B} (m : SE S A) (k : A -> SE S B) : SE S B :=
  fun s =>
    match m s with
    | (s', inl e) => (s', inl e)
    | (s', inr a) => k a s'
    end.
Definition se_lift {S A} (m : M A) : SE S A := fun s => (s, m).
Definition se_get {S} : SE S S := fun s => (s, ret s).
Definition se_put {S} (s : S) : SE S unit := fun _ => (s, ret tt).

Notation "x <~ m ;; k" := (se_bind m (fun x => k))
  (at level 100, m at next level, right associativity).

Definition os_path_join (dir name : string) : string :=
  String.append dir (String.append "/" name).

Section Training.
Context `{Numpy} `{Sklearn}.

(** [self.models['collapse'] = model] and [self.scalers['collapse'] = scaler] *)
Definition set_model (model : Model) : SE predictor unit :=
  self <~ se_get ;;
  se_put (Predictor _ (<["collapse" := model]> (models self)) (scalers self)
            (is_trained self) (model_dir self)).

Definition set_scaler (scaler : Scaler) : SE predictor unit :=
  self <~ se_get ;;
  se_put (Predictor _ (models self) (<["collapse" := scaler]> (scalers self))
            (is_trained self) (model_dir self)).

(** The part of [train_collapse_predictor] after the size check: split,
    scale, fit, evaluate, install, persist, report. *)
Definition fit_and_install (X : list (list Q)) (y : list Z)
  : SE predictor train_report :=
  sp <~ se_lift (train_test_split X y) ;;
  let '(X_train, X_test, y_train, y_test) := sp in
  fitted <~ se_lift (scaler_fit_transform X_train) ;;
  let '(scaler, X_train_scaled) := fitted in
  X_test_scaled <~ se_lift (scaler_transform scaler X_test) ;;
  model <~ se_lift (rf_fit X_train_scaled y_train) ;;
  train_accuracy <~ se_lift (rf_score model X_train_scaled y_train) ;;
  test_accuracy <~ se_lift (rf_score model X_test_scaled y_test) ;;
  _ <~ set_model model ;;
  _ <~ set_scaler scaler ;;
  self <~ se_get ;;
  _ <~ se_lift (joblib_dump_model model
                  (os_path_join (model_dir self) "collapse_model.pkl")) ;;
  _ <~ se_lift (joblib_dump_scaler scaler
                  (os_path_join (model_dir self) "collapse_scaler.pkl")) ;;
  row0 <~ se_lift (index_first X_train) ;;
  se_ret (TrainOk "collapse_predictor" train_accuracy test_accuracy
            (length X_train) (length row0)).

(** The [try] block of [train_collapse_predictor]. *)
Definition train_body (ecosystem_data : list snapshot)
  : SE predictor train_report :=
  Xy <~ se_lift (prepare_features ecosystem_data) ;;
  let '(X, y) := Xy in
  if (length X <? 20)%nat
  then se_ret (TrainFailure
                 "Insufficient training data (need at least 30 data points)")
  else fit_and_install X y.

Definition train_collapse_predictor (ecosystem_data : list snapshot)
    (self : predictor) : predictor * train_report :=
  match train_body ecosystem_data self with
  | (self', inr report) => (self', report)
  | (self', inl e) => (self', TrainFailure (str_exn e))
  end.

(** The predictor once [model] and [scaler] have been stored under
    ['collapse']. *)
Definition installed (model : Model) (scaler : Scaler) (self : predictor)
  : predictor :=
  Predictor _ (<["collapse" := model]> (models self))
    (<["collapse" := scaler]> (scalers self))
    (is_trained self) (model_dir self).

(** What [train_collapse_predictor] does with the outcome of its [try]
    block. *)
Definition report_of (r : predictor * M train_report)
  : predictor * train_report :=
  match r with
  | (self', inr report) => (self', report)
  | (self', inl e) => (self', TrainFailure (str_exn e))
  end.
(** The steps of [fit_and_install] that come before the two assignments:
    split, scale, fit, evaluate. *)
Definition fit_stage (X : list (list Q)) (y : list Z)
  : M (list (list Q) * Scaler * Model * float64 * float64) :=
  sp <- train_test_split X y ;;
  let '(X_train, X_test, y_train, y_test) := sp in
  fitted <- scaler_fit_transform X_train ;;
  let '(scaler, X_train_scaled) := fitted in
  X_test_scaled <- scaler_transform scaler X_test ;;
  model <- rf_fit X_train_scaled y_train ;;
  train_accuracy <- rf_score model X_train_scaled y_train ;;
  test_accuracy <- rf_score model X_test_scaled y_test ;;
  ret (X_train, scaler, model, train_accuracy, test_accuracy).

(** The steps that come after them: persist the pair, build the report. *)
Definition persist_stage (self : predictor) (X_train : list (list Q))
    (scaler : Scaler) (model : Model) (train_accuracy test_accuracy : float64)
  : M train_report :=
  _ <- joblib_dump_model model
         (os_path_join (model_dir self) "collapse_model.pkl") ;;
  _ <- joblib_dump_scaler scaler
         (os_path_join (model_dir self) "collapse_scaler.pkl") ;;
  row0 <- index_first X_train ;;
  ret (TrainOk "collapse_predictor" train_accuracy test_accuracy
         (length X_train) (length row0)).
End Training.

(** ** Classifier inference with heuristic fallback *)

Definition feature_names : list string :=
  [ "plants"; "herbivores"; "carnivores"; "plant_trend"; "herbivore_trend";
    "carnivore_trend"; "plant_herb_ratio"; "herb_carn_ratio";
    "carn_herb_ratio"; "total_biomass"; "plant_volatility";
    "herbivore_volatility"; "carnivore_volatility"; "min_plants";
    "max_plants"; "min_herbivores"; "max_herbivores"; "min_carnivores";
    "max_carnivores" ].

(** [zip(a, b)] *)
Fixpoint zip {A B} (a : list A) (b : list B) : list (A * B) :=
  match a, b with
  | x :: a', y :: b' => (x, y) :: zip a' b'
  | _, _ => []
  end.

(** [sorted(l, key=lambda x: x[1], reverse=True)]: stable, descending. *)
Fixpoint insert_desc (x : string * float64) (l : list (string * float64))
  : list (string * float64) :=
  match l with
  | [] => [x]
  | y :: l' => if SFltb (snd x) (snd y) then y :: insert_desc x l'
               else x :: y :: l'
  end.

Definition sorted_desc (l : list (string * float64))
  : list (string * float64) :=
  fold_right insert_desc [] l.

(** [try: body except Exception as e: handler(e)] *)
Definition try_except {A} (body : M A) (handler : exn -> M A) : M A :=
  match body with
  | inl e => handler e
  | inr a => ret a
  end.

Section Inference.
Context `{Numpy} `{Sklearn}.

(** [d[key]] on the two dictionaries of the predictor. *)
Definition getitem {V} (d : gmap string V) (key : string) : M V :=
  match d !! key with
  | Some v => ret v
  | None => raise (KeyError key)
  end.

(** The [try] block of [predict_collapse_risk] once ['collapse'] has been
    found in [self.models]. *)
Definition classifier_path (self : predictor) (recent_data : list snapshot)
  : M risk_response :=
  if (length recent_data <? 5)%nat
  then raise (ValueError "Need at least 5 recent data points")
  else
    let lookback := last_n 5 recent_data in
    features <- infer_features lookback ;;
    scaler <- getitem (scalers self) "collapse" ;;
    features_scaled <- scaler_transform scaler [features] ;;
    model <- getitem (models self) "collapse" ;;
    proba <- predict_proba model features_scaled ;;
    row <- index_first proba ;;
    risk_probability <- index_at row 1 ;;
    model' <- getitem (models self) "collapse" ;;
    proba' <- predict_proba model' features_scaled ;;
    row' <- index_first proba' ;;
    confidence <- f64_max row' ;;
    model'' <- getitem (models self) "collapse" ;;
    importance_ <- feature_importances model'' ;;
    let top_factors := firstn 5 (sorted_desc (zip feature_names importance_)) in
    ret (RiskResult risk_probability confidence
           (map (fun ni => Factor (fst ni) (snd ni)) top_factors) "1.0").

Definition predict_collapse_risk (self : predictor)
    (recent_data : list snapshot) (steps_ahead : Z) : M risk_response :=
  try_except
    (match models self !! "collapse" with
     | None => heuristic_collapse_prediction recent_data
     | Some _ => classifier_path self recent_data
     end)
    (fun _ => heuristic_collapse_prediction recent_data).

(** *** The [/predict/collapse] route *)

(** The JSON body: [features.current] when present, and [steps]. *)
Record collapse_request := CollapseRequest {
  req_current : option (Q * Q * Q);
  req_steps : option Z
}.

(** The handler's answer: a JSON body and an HTTP status. *)
Definition predict_collapse (self : predictor) (data : collapse_request)
  : risk_response * Z :=
  let steps := match req_steps data with Some s => s | None => 5%Z end in
  let recent_data :=
    match req_current data with
    | Some (p, h, c) => [Snapshot 0 p h c]
    | None => []
    end in
  if (length recent_data <? 1)%nat
  then (RiskFailure "Invalid features format", 200%Z)
  else
    match predict_collapse_risk self recent_data steps with
    | inr result => (result, 200%Z)
    | inl e => (RiskFailure (str_exn e), 500%Z)
    end.
End Inference.

(** ** Population forecasting *)

(** [int(x)]: truncation towards zero. *)
Definition py_int (x : Q) : Z := Z.quot (Qnum x) (Zpos (Qden x)).

(** [range(a, b)] over integers. *)
Definition py_range (a b : Z) : list Z :=
  map (fun i => (a + Z.of_nat i)%Z) (seq 0 (Z.to_nat (b - a))).

Section Forecast.
Context `{Numpy}.

Definition Q_of_nat (n : nat) : Q := inject_Z (Z.of_nat n).

(** [coef[0] * (len(recent_data) + step - 1) + coef[1]] after
    [coef = np.polyfit(x, recent_data[col], 1)]. *)
Definition extrapolate (recent_data : list snapshot) (col : snapshot -> Q)
    (step_ : Z) : M Q :=
  let x := map Q_of_nat (seq 0 (length recent_data)) in
  coef <- np_polyfit x (map col recent_data) ;;
  ret (fst coef * (Q_of_nat (length recent_data) + inject_Z step_ - 1)
       + snd coef)%Q.

(** [max(0, int(forecast + np.random.normal(0, noise_factor * forecast)))] *)
Definition noisy_count (noise_factor forecast : Q) : SE RNG Z :=
  fun rng =>
    let '(noise, rng') := np_random_normal 0 (noise_factor * forecast)%Q rng in
    (rng', n <- noise ;; ret (Z.max 0 (py_int (forecast + n)%Q))).

(** The body of [for step in range(1, steps + 1)]. *)
Definition forecast_step (df : list snapshot) (step_ : Z)
  : SE RNG prediction :=
  let recent_points := Nat.min 10 (length df) in
  let recent_data := last_n recent_points df in
  plant_forecast <~ se_lift (extrapolate recent_data plants step_) ;;
  herb_forecast <~ se_lift (extrapolate recent_data herbivores step_) ;;
  carn_forecast <~ se_lift (extrapolate recent_data carnivores step_) ;;
  let noise_factor := ((1 # 10) * inject_Z step_)%Q in
  lst <~ se_lift (index_last df) ;;
  p <~ noisy_count noise_factor plant_forecast ;;
  h <~ noisy_count noise_factor herb_forecast ;;
  c <~ noisy_count noise_factor carn_forecast ;;
  se_ret (Prediction (step lst + step_) p h c).

Fixpoint forecast_loop (df : list snapshot) (todo : list Z)
    (forecasts : list prediction) : SE RNG (list prediction) :=
  match todo with
  | [] => se_ret forecasts
  | s :: todo' =>
      f <~ forecast_step df s ;;
      forecast_loop df todo' (forecasts ++ [f])
  end.

Definition trend_of (df : list snapshot) (col : snapshot -> Q) : M trend :=
  let recent_5 := last_n 5 df in
  coef <- np_polyfit (map Q_of_nat (seq 0 5)) (map col recent_5) ;;
  let trend_slope := fst coef in
  ret (if Qlt_bool 2 trend_slope then Increasing
       else if Qlt_bool trend_slope (-2) then Decreasing
       else Stable).

(** The [try] block of [forecast_populations]. *)
Definition forecast_body (time_series_data : list snapshot) (steps : Z)
  : SE RNG forecast_response :=
  if (length time_series_data <? 5)%nat
  then se_lift (raise (ValueError "Need at least 5 data points for forecasting"))
  else
    let df := time_series_data in
    forecasts <~ forecast_loop df (py_range 1 (steps + 1)) [] ;;
    let base_confidence := (8 # 10)%Q in
    let confidence := (base_confidence * (9 # 10) ^ steps)%Q in
    tr <~ (if (5 <=? length df)%nat
           then
             tp <~ se_lift (trend_of df plants) ;;
             th <~ se_lift (trend_of df herbivores) ;;
             tc <~ se_lift (trend_of df carnivores) ;;
             se_ret (Trends tp th tc)
           else se_ret (Trends Stable Stable Stable)) ;;
    se_ret (ForecastOk forecasts confidence tr steps).

Definition forecast_populations (time_series_data : list snapshot)
    (steps : Z) (rng : RNG) : RNG * forecast_response :=
  match forecast_body time_series_data steps rng with
  | (rng', inr result) => (rng', result)
  | (rng', inl e) => (rng', ForecastFailure (str_exn e))
  end.
End Forecast.

(** ** Reference definitions used to state the properties *)


(** Two-argument [min(a, b)]. *)
Definition py_min2 (a b : Q) : Q := if Qlt_bool b a then b else a.

Section Reference.
Context `{Numpy}.

(** The 19 features of a five-snapshot window, in order: current
    populations, rates of change, ratios, total biomass, population standard
    deviations, then minimum and maximum per species. *)
Definition feature_vector (s1 s2 s3 s4 s5 : snapshot) : list Q :=
  let col f := [f s1; f s2; f s3; f s4; f s5] in
  let mn f := py_min2 (py_min2 (py_min2 (py_min2 (f s1) (f s2)) (f s3)) (f s4))
                (f s5) in
  let mx f := py_max2 (py_max2 (py_max2 (py_max2 (f s1) (f s2)) (f s3)) (f s4))
                (f s5) in
  [ plants s5; herbivores s5; carnivores s5;
    ((plants s5 - plants s1) / 5)%Q;
    ((herbivores s5 - herbivores s1) / 5)%Q;
    ((carnivores s5 - carnivores s1) / 5)%Q;
    (plants s5 / py_max2 (herbivores s5) 1)%Q;
    (herbivores s5 / py_max2 (carnivores s5) 1)%Q;
    (carnivores s5 / py_max2 (herbivores s5) 1)%Q;
    (plants s5 + herbivores s5 + carnivores s5)%Q;
    np_std (col plants); np_std (col herbivores); np_std (col carnivores);
    mn plants; mx plants; mn herbivores; mx herbivores;
    mn carnivores; mx carnivores ].
End Reference.

(** The rules of the heuristic estimator as a table: condition, name and
    weight, in evaluation order.  [first3] is the first snapshot of the
    three-point trend window, present when at least three snapshots are. *)
Definition heuristic_rules (n : nat) (first3 latest : snapshot)
  : list (bool * factor) :=
  [ (Qlt_bool (plants latest) 10,
      Factor "critically_low_plants" (f64_lit 4 10));
    (negb (Qlt_bool (plants latest) 10) && Qlt_bool (plants latest) 30,
      Factor "low_plants" (f64_lit 2 10));
    (Qlt_bool (herbivores latest) 3,
      Factor "critically_low_herbivores" (f64_lit 3 10));
    (Qlt_bool (herbivores latest * (15 # 10))%Q (carnivores latest),
      Factor "predator_overload" (f64_lit 2 10));
    ((3 <=? n)%nat
     && Qlt_bool ((plants latest - plants first3) / 3)%Q (-5),
      Factor "declining_plant_trend" (f64_lit 15 100)) ].

Definition triggered (rules : list (bool * factor)) : list factor :=
  map snd (List.filter fst rules).

(** The weights added up from 0.0 in the order of the list, then capped
    at 1.0. *)
Definition clamped_sum (fs : list factor) : float64 :=
  f64_min2 (fold_left f64_add (map importance fs) (f64_of_Z 0)) (f64_of_Z 1).

Definition risk_of (r : M risk_response) : option float64 :=
  match r with
  | inr (RiskResult risk _ _ _) => Some risk
  | _ => None
  end.

Definition version_of (r : M risk_response) : option string :=
  match r with
  | inr (RiskResult _ _ _ v) => Some v
  | _ => None
  end.

(** The confidence of a forecast over [steps] steps. *)
Definition forecast_confidence (steps : Z) : Q := ((8 # 10) * (9 # 10) ^ steps)%Q.

(** The feature vector of a window, defined on windows of five snapshots. *)
Definition window_vector `{Numpy} (w : list snapshot) : list Q :=
  match w with
  | [s1; s2; s3; s4; s5] => feature_vector s1 s2 s3 s4 s5
  | _ => []
  end.

(** The 0/1 target taken from [df.iloc[i]]. *)
Definition target_at (df : list snapshot) (i : nat) : Z :=
  match nth_error df i with
  | Some next_step => if collapse next_step then 1%Z else 0%Z
  | None => 0%Z
  end.

(** ** Loading persisted models, and the remaining routes *)

(** The file system and [joblib.load], as seen by [__init__] and
    [load_models]; [module_dir] is [os.path.dirname(__file__)]. *)
Class ModelStore `{Sklearn} := {
  os_path_exists : string -> bool;
  joblib_load_model : string -> M Model;
  joblib_load_scaler : string -> M Scaler;
  os_makedirs : string -> M unit;
  module_dir : string
}.

Section Loading.
Context `{Sklearn} `{!ModelStore}.

(** [self.is_trained = b] *)
Definition set_is_trained (b : bool) : SE predictor unit :=
  self <~ se_get ;;
  se_put (Predictor _ (models self) (scalers self) b (model_dir self)).

(** The [try] block of [load_models]. *)
Definition load_models_body : SE predictor unit :=
  self <~ se_get ;;
  let collapse_model_path :=
    os_path_join (model_dir self) "collapse_model.pkl" in
  let collapse_scaler_path :=
    os_path_join (model_dir self) "collapse_scaler.pkl" in
  if os_path_exists collapse_model_path && os_path_exists collapse_scaler_path
  then
    model <~ se_lift (joblib_load_model collapse_model_path) ;;
    _ <~ set_model model ;;
    scaler <~ se_lift (joblib_load_scaler collapse_scaler_path) ;;
    _ <~ set_scaler scaler ;;
    set_is_trained true
  else se_ret tt.

(** [load_models]: the exception of the [try] block, if any, is logged and
    dropped; the predictor stays as the block left it. *)
Definition load_models (self : predictor) : predictor :=
  fst (load_models_body self).

(** [EcosystemPredictor()] *)
Definition init : M predictor :=
  let self := Predictor _ ∅ ∅ false (os_path_join module_dir "trained_models") in
  _ <- os_makedirs (model_dir self) ;;
  ret (load_models self).
End Loading.

(** *** The [/predict/populations] route *)

Record populations_request := PopulationsRequest {
  req_time_series : option (list snapshot);
  req_forecast_steps : option Z
}.

Definition predict_populations `{Numpy} (data : populations_request)
    (rng : RNG) : RNG * (forecast_response * Z) :=
  let time_series :=
    match req_time_series data with Some l => l | None => [] end in
  let steps :=
    match req_forecast_steps data with Some s => s | None => 7%Z end in
  let '(rng', result) := forecast_populations time_series steps rng in
  (rng', (result, 200%Z)).

(** *** The [/train] route *)



(** *** Notions used to state further properties *)

(** No key other than ['collapse'] is present in either dictionary. *)
Definition only_collapse_keys `{Sklearn} (self : predictor) : Prop :=
  forall key, key <> "collapse" ->
    models self !! key = None /\ scalers self !! key = None.

(** A resident classifier comes with a resident scaler. *)
Definition paired `{Sklearn} (self : predictor) : Prop :=
  is_Some (models self !! "collapse") -> is_Some (scalers self !! "collapse").

(** "Not below", on the importances of two pairs. *)
Definition not_below (a b : string * float64) : Prop :=
  SFltb (snd a) (snd b) = false.


(** The [factors] of a classifier-backed result, from the importances. *)
Definition top_factors (importance_ : list float64) : list factor :=
  map (fun ni => Factor (fst ni) (snd ni))
    (firstn 5 (sorted_desc (zip feature_names importance_))).

(** ** Concrete library instances, used to run the model on examples *)

Definition example_numpy : Numpy := {|
  np_sqrt := fun q => q;
  np_polyfit := fun _ y => ret (0%Q, hd 0%Q y);
  RNG := unit;
  np_random_normal := fun _ _ rng => (ret 0%Q, rng)
|}.

(** A classifier whose persistence succeeds or fails with [disk_ok]. *)
Definition example_sklearn (disk_ok : bool) : Sklearn := {|
  Model := nat;
  Scaler := nat;
  Scaled := list (list Q);
  train_test_split := fun X y => ret (X, [], y, []);
  scaler_fit_transform := fun X => ret (length X, X);
  scaler_transform := fun _ X => ret X;
  rf_fit := fun X _ => ret (length X);
  rf_score := fun _ _ _ => ret (f64_of_Z 1);
  predict_proba := fun _ _ => ret [[f64_lit 1 4; f64_lit 3 4]];
  feature_importances := fun _ => ret (repeat (f64_lit 1 19) 19);
  joblib_dump_model := fun _ _ =>
    if disk_ok then ret tt
    else raise (LibraryError "[Errno 28] No space left on device");
  joblib_dump_scaler := fun _ _ =>
    if disk_ok then ret tt
    else raise (LibraryError "[Errno 28] No space left on device")
|}.

(** A predictor with no model, and one with a resident pair. *)
Definition fresh_predictor (disk_ok : bool)
  : @predictor (example_sklearn disk_ok) :=
  @Predictor (example_sklearn disk_ok) ∅ ∅ false "trained_models".

Definition resident_predictor (disk_ok : bool) (model scaler : nat)
  : @predictor (example_sklearn disk_ok) :=
  @Predictor (example_sklearn disk_ok) (<["collapse" := model]> ∅)
    (<["collapse" := scaler]> ∅) true "trained_models".

(** A store holding the pair (7, 8); reading the scaler back works or not
    according to [scaler_ok]. *)
Definition example_store (disk_ok scaler_ok : bool)
  : @ModelStore (example_sklearn disk_ok) :=
  @Build_ModelStore (example_sklearn disk_ok)
    (fun _ => true)
    (fun _ => inr 7%nat)
    (fun _ => if scaler_ok then inr 8%nat
              else inl (LibraryError "invalid load key"))
    (fun _ => inr tt)
    "backend".

(** A history of [n] snapshots with constant populations 50, 10 and 5. *)
Definition flat_history (n : nat) : list snapshot :=
  map (fun i => Snapshot (Z.of_nat i) 50 10 5) (seq 0 n).

(** * The service on Python's own numbers

    The definitions above compute on exact rationals.  The module [Machine]
    models again, on the numbers Python and numpy compute with, the functions
    whose outcome depends on them: feature extraction, the heuristic
    estimator, inference with its fallback, the [/predict/collapse] route and
    the forecast confidence.

    - A JSON number is a Python [int] (unbounded) or a [float] (binary64).
    - Arithmetic that mixes the two converts the [int], which raises
      [OverflowError] when it is beyond the range of a float; [int / int]
      is the correctly rounded quotient, or [OverflowError].
    - Comparisons between [int] and [float] are exact.
    - A [DataFrame] built from integer counts has dtype int64: its scalars
      wrap around modulo 2^64 and its divisions are float divisions that
      never raise.
    - [0.9 ** steps] is the C library's [pow], a field of [Libm]. *)

Module Machine.

(** ** Python numbers *)

Inductive pynum :=
| PyInt (z : Z)
| PyFloat (f : float64).

(** [float(z)] for an [int]: the integer rounded to nearest-even; it
    raises when that is beyond the largest float. *)
Definition float_of_int (z : Z) : M float64 :=
  match f64_of_Z z with
  | S754_infinity _ =>
      raise (OverflowError "int too large to convert to float")
  | f => ret f
  end.

Definition to_float (x : pynum) : M float64 :=
  match x with
  | PyInt z => float_of_int z
  | PyFloat f => ret f
  end.

(** [x == 0] *)
Definition is_zero (x : pynum) : bool :=
  match x with
  | PyInt z => (z =? 0)%Z
  | PyFloat (S754_zero _) => true
  | PyFloat _ => false
  end.

Definition Z_of_mantissa (s : bool) (m : positive) : Z :=
  if s then Zneg m else Zpos m.

(** The exact comparison of the float [f] with the integer [z]; [None]
    when [f] is a NaN. *)
Definition compare_float_int (f : float64) (z : Z) : option comparison :=
  match f with
  | S754_nan => None
  | S754_infinity s => Some (if s then Lt else Gt)
  | S754_zero _ => Some (0 ?= z)%Z
  | S754_finite s m e =>
      Some (match e with
            | Zneg k => (Z_of_mantissa s m ?= z * 2 ^ Zpos k)%Z
            | _ => (Z_of_mantissa s m * 2 ^ e ?= z)%Z
            end)
  end.

Definition py_compare (a b : pynum) : option comparison :=
  match a, b with
  | PyInt x, PyInt y => Some (x ?= y)%Z
  | PyFloat f, PyFloat g => SFcompare f g
  | PyFloat f, PyInt y => compare_float_int f y
  | PyInt x, PyFloat g => option_map CompOpp (compare_float_int g x)
  end.

(** [a < b], [a > b] and [a == b]: false when a NaN is involved. *)
Definition py_lt (a b : pynum) : bool :=
  match py_compare a b with Some Lt => true | _ => false end.

Definition py_gt (a b : pynum) : bool :=
  match py_compare a b with Some Gt => true | _ => false end.

Definition py_eq (a b : pynum) : bool :=
  match py_compare a b with Some Eq => true | _ => false end.

(** A float operation on two numbers of which one at least is a float. *)
Definition float_op (op : float64 -> float64 -> float64) (a b : pynum)
  : M pynum :=
  fa <- to_float a ;;
  fb <- to_float b ;;
  ret (PyFloat (op fa fb)).

Definition py_add (a b : pynum) : M pynum :=
  match a, b with
  | PyInt x, PyInt y => ret (PyInt (x + y))
  | _, _ => float_op (SFadd 53 1024) a b
  end.

Definition py_sub (a b : pynum) : M pynum :=
  match a, b with
  | PyInt x, PyInt y => ret (PyInt (x - y))
  | _, _ => float_op (SFsub 53 1024) a b
  end.

Definition py_mul (a b : pynum) : M pynum :=
  match a, b with
  | PyInt x, PyInt y => ret (PyInt (x * y))
  | _, _ => float_op (SFmul 53 1024) a b
  end.

(** An integer as an unrounded mantissa with exponent 0. *)
Definition exact_float (z : Z) : float64 :=
  match z with
  | Z0 => S754_zero false
  | Zpos p => S754_finite false p 0
  | Zneg p => S754_finite true p 0
  end.

(** [x / y] on two [int]s: the quotient rounded once.  Operands below 2^53
    are divided as floats; otherwise the exact quotient is rounded, and
    raises when it is beyond the largest float. *)
Definition int_true_divide (x y : Z) : M float64 :=
  if (y =? 0)%Z then raise (ZeroDivisionError "division by zero")
  else if (Z.abs x <? 2 ^ 53)%Z && (Z.abs y <? 2 ^ 53)%Z
  then ret (SFdiv 53 1024 (f64_of_Z x) (f64_of_Z y))
  else
    match SFdiv 53 1024 (exact_float x) (exact_float y) with
    | S754_infinity _ =>
        raise (OverflowError "integer division result too large for a float")
    | q => ret q
    end.

(** [a / b]: with a float operand both are converted first, then a zero
    divisor raises. *)
Definition py_truediv (a b : pynum) : M pynum :=
  match a, b with
  | PyInt x, PyInt y => q <- int_true_divide x y ;; ret (PyFloat q)
  | _, _ =>
      fa <- to_float a ;;
      fb <- to_float b ;;
      if is_zero b then raise (ZeroDivisionError "float division by zero")
      else ret (PyFloat (SFdiv 53 1024 fa fb))
  end.

(** [max(a, b)] and [min(a, b)]: the first argument unless the second is
    strictly beyond it. *)
Definition py_max2 (a b : pynum) : pynum := if py_gt b a then b else a.

Definition py_min2 (a b : pynum) : pynum := if py_lt b a then b else a.

Fixpoint min_from (m : pynum) (l : list pynum) : pynum :=
  match l with
  | [] => m
  | x :: l' => min_from (py_min2 m x) l'
  end.

Fixpoint max_from (m : pynum) (l : list pynum) : pynum :=
  match l with
  | [] => m
  | x :: l' => max_from (py_max2 m x) l'
  end.

Definition py_min (l : list pynum) : M pynum :=
  match l with
  | [] => raise (ValueError "min() arg is an empty sequence")
  | x :: l' => ret (min_from x l')
  end.

Definition py_max (l : list pynum) : M pynum :=
  match l with
  | [] => raise (ValueError "max() arg is an empty sequence")
  | x :: l' => ret (max_from x l')
  end.

(** [sum(l)]: repeated [+] from the integer 0.  (From CPython 3.12 on a
    sum of floats is compensated, which can change the last bit of a float
    total, not whether it is computed.) *)
Definition py_sum (l : list pynum) : M pynum :=
  fold_left (fun acc x => a <- acc ;; py_add a x) l (ret (PyInt 0)).

(** ** Forecast confidence *)

(** [x ** y] on two floats: the C library's [pow] behind the special
    cases of [float.__pow__]; Python raises [OverflowError] when the result
    is out of range. *)
Class Libm := {
  float_pow : float64 -> float64 -> M float64
}.

Inductive forecast_response :=
| ForecastFailure (error : string)
| ForecastOk (predictions : list prediction) (confidence : float64)
    (trend_labels : trends) (forecast_horizon : Z).

Section Forecast.
Context `{Numpy} `{Libm}.

(** [x ** n] for a float [x] and an [int] [n]: the exponent is converted
    to a float first. *)
Definition py_pow (x : float64) (n : Z) : M float64 :=
  y <- float_of_int n ;;
  float_pow x y.

(** [base_confidence * (0.9 ** steps)] *)
Definition forecast_confidence (steps : Z) : M float64 :=
  let base_confidence := f64_lit 8 10 in
  p <- py_pow (f64_lit 9 10) steps ;;
  ret (SFmul 53 1024 base_confidence p).

(** The [try] block of [forecast_populations]; the loop and the trend
    labels are the ones defined above. *)
Definition forecast_body (time_series_data : list snapshot) (steps : Z)
  : SE RNG forecast_response :=
  if (length time_series_data <? 5)%nat
  then se_lift (raise (ValueError "Need at least 5 data points for forecasting"))
  else
    let df := time_series_data in
    forecasts <~ forecast_loop df (py_range 1 (steps + 1)) [] ;;
    confidence <~ se_lift (forecast_confidence steps) ;;
    tr <~ (if (5 <=? length df)%nat
           then
             tp <~ se_lift (trend_of df plants) ;;
             th <~ se_lift (trend_of df herbivores) ;;
             tc <~ se_lift (trend_of df carnivores) ;;
             se_ret (Trends tp th tc)
           else se_ret (Trends Stable Stable Stable)) ;;
    se_ret (ForecastOk forecasts confidence tr steps).

Definition forecast_populations (time_series_data : list snapshot)
    (steps : Z) (rng : RNG) : RNG * forecast_response :=
  match forecast_body time_series_data steps rng with
  | (rng', inr result) => (rng', result)
  | (rng', inl e) => (rng', ForecastFailure (str_exn e))
  end.
End Forecast.

(** The sign bit of a float (false for a NaN). *)
Definition sign_bit (f : float64) : bool :=
  match f with
  | S754_zero s | S754_infinity s | S754_finite s _ _ => s
  | S754_nan => false
  end.

(** A finite float within the format: a mantissa of at most 53 bits and an
    exponent in range. *)
Definition well_formed (f : float64) : Prop :=
  match f with
  | S754_finite _ m e => (Zpos m < 2 ^ 53)%Z /\ (-1074 <= e <= 971)%Z
  | _ => True
  end.

(** The number of one-bit right shifts after which a shift record of the
    rounding procedure holds neither a mantissa bit nor a round bit. *)
Definition shifts_to_clear (mrs : shr_record) : Z :=
  match shr_m mrs with
  | Z0 => if shr_r mrs then 1%Z else 0%Z
  | m => (Zdigits2 m + 1)%Z
  end.

(** The position of a non-negative float among the non-negative floats. *)
Definition rank (f : float64) : Z :=
  match f with
  | S754_finite _ m e => (e + 1074) * 2 ^ 53 + Zpos m
  | S754_infinity _ => 2 ^ 64
  | _ => 0
  end.

(** ** Snapshots *)

Record snapshot := Snapshot {
  step : Z;
  plants : pynum;
  herbivores : pynum;
  carnivores : pynum
}.

(** ** Feature extraction at inference *)

(** [np.std] on a list of numbers. *)
Class NumpyStd := {
  np_std : list pynum -> M pynum
}.

Section Features.
Context `{NumpyStd}.

(** [(last - first) / 5] *)
Definition rate (last_ first_ : pynum) : M pynum :=
  d <- py_sub last_ first_ ;;
  py_truediv d (PyInt 5).

(** The feature vector built inside [predict_collapse_risk] from
    [lookback = recent_data[-5:]], in the evaluation order of the list
    display. *)
Definition infer_features (lookback : list snapshot) : M (list pynum) :=
  lst <- index_last lookback ;;
  fst_ <- index_first lookback ;;
  t_p <- rate (plants lst) (plants fst_) ;;
  t_h <- rate (herbivores lst) (herbivores fst_) ;;
  t_c <- rate (carnivores lst) (carnivores fst_) ;;
  r_ph <- py_truediv (plants lst) (py_max2 (herbivores lst) (PyInt 1)) ;;
  r_hc <- py_truediv (herbivores lst) (py_max2 (carnivores lst) (PyInt 1)) ;;
  r_ch <- py_truediv (carnivores lst) (py_max2 (herbivores lst) (PyInt 1)) ;;
  total <- py_sum [plants lst; herbivores lst; carnivores lst] ;;
  sd_p <- np_std (map plants lookback) ;;
  sd_h <- np_std (map herbivores lookback) ;;
  sd_c <- np_std (map carnivores lookback) ;;
  min_p <- py_min (map plants lookback) ;;
  max_p <- py_max (map plants lookback) ;;
  min_h <- py_min (map herbivores lookback) ;;
  max_h <- py_max (map herbivores lookback) ;;
  min_c <- py_min (map carnivores lookback) ;;
  max_c <- py_max (map carnivores lookback) ;;
  ret [ plants lst; herbivores lst; carnivores lst;
        t_p; t_h; t_c; r_ph; r_hc; r_ch; total;
        sd_p; sd_h; sd_c;
        min_p; max_p; min_h; max_h; min_c; max_c ].
End Features.

(** ** Feature extraction at training, on an int64 frame *)

(** A row of [df = pd.DataFrame(data)] when the counts of [data] are
    integers that fit 64 bits: every column has dtype int64. *)
Record row64 := Row64 {
  r_step : Z;
  r_plants : Z;
  r_herbivores : Z;
  r_carnivores : Z
}.

(** The value of an int64 result: two's complement wrap-around. *)
Definition wrap64 (z : Z) : Z := ((z + 2 ^ 63) mod 2 ^ 64 - 2 ^ 63)%Z.

(** [a / b] on int64 scalars: both are converted and divided as floats;
    numpy warns on a zero divisor and does not raise. *)
Definition np_true_divide (a b : Z) : float64 :=
  SFdiv 53 1024 (f64_of_Z a) (f64_of_Z b).

(** [max(h, 1)] on an int64 scalar [h]. *)
Definition max_int64_1 (h : Z) : Z := if (1 >? h)%Z then 1%Z else h.

Fixpoint Zmin_from (m : Z) (l : list Z) : Z :=
  match l with
  | [] => m
  | x :: l' => Zmin_from (if (x <? m)%Z then x else m) l'
  end.

Fixpoint Zmax_from (m : Z) (l : list Z) : Z :=
  match l with
  | [] => m
  | x :: l' => Zmax_from (if (x >? m)%Z then x else m) l'
  end.

(** [min(column)] and [max(column)] on a column of the frame. *)
Definition column_min (l : list Z) : M Z :=
  match l with
  | [] => raise (ValueError "min() arg is an empty sequence")
  | x :: l' => ret (Zmin_from x l')
  end.

Definition column_max (l : list Z) : M Z :=
  match l with
  | [] => raise (ValueError "max() arg is an empty sequence")
  | x :: l' => ret (Zmax_from x l')
  end.

Section Training.
Context `{NumpyStd}.

(** [[lookback.iloc[j][col] for j in range(len(lookback))]] *)
Definition column_by_index (col : row64 -> Z) (lookback : list row64)
  : M (list Z) :=
  fold_right
    (fun j acc => x <- index_at lookback j ;; xs <- acc ;; ret (col x :: xs))
    (ret []) (seq 0 (length lookback)).

(** [feature_row] of [prepare_features], for [lookback = df.iloc[i-5:i]];
    an int64 entry is given as the integer it holds. *)
Definition feature_row (lookback : list row64) : M (list pynum) :=
  lst <- index_last lookback ;;
  fst_ <- index_first lookback ;;
  let t_p := np_true_divide (wrap64 (r_plants lst - r_plants fst_)) 5 in
  let t_h := np_true_divide (wrap64 (r_herbivores lst - r_herbivores fst_)) 5 in
  let t_c := np_true_divide (wrap64 (r_carnivores lst - r_carnivores fst_)) 5 in
  let r_ph := np_true_divide (r_plants lst) (max_int64_1 (r_herbivores lst)) in
  let r_hc :=
    np_true_divide (r_herbivores lst) (max_int64_1 (r_carnivores lst)) in
  let r_ch :=
    np_true_divide (r_carnivores lst) (max_int64_1 (r_herbivores lst)) in
  let total :=
    wrap64 (wrap64 (r_plants lst + r_herbivores lst) + r_carnivores lst) in
  col_p <- column_by_index r_plants lookback ;;
  sd_p <- np_std (map PyInt col_p) ;;
  col_h <- column_by_index r_herbivores lookback ;;
  sd_h <- np_std (map PyInt col_h) ;;
  col_c <- column_by_index r_carnivores lookback ;;
  sd_c <- np_std (map PyInt col_c) ;;
  min_p <- column_min (map r_plants lookback) ;;
  max_p <- column_max (map r_plants lookback) ;;
  min_h <- column_min (map r_herbivores lookback) ;;
  max_h <- column_max (map r_herbivores lookback) ;;
  min_c <- column_min (map r_carnivores lookback) ;;
  max_c <- column_max (map r_carnivores lookback) ;;
  ret [ PyInt (r_plants lst); PyInt (r_herbivores lst);
        PyInt (r_carnivores lst);
        PyFloat t_p; PyFloat t_h; PyFloat t_c;
        PyFloat r_ph; PyFloat r_hc; PyFloat r_ch;
        PyInt total;
        sd_p; sd_h; sd_c;
        PyInt min_p; PyInt max_p; PyInt min_h; PyInt max_h;
        PyInt min_c; PyInt max_c ].

Definition collapse (next_step : row64) : bool :=
  (r_plants next_step <? 5)%Z
  || (r_herbivores next_step =? 0)%Z
  || (r_carnivores next_step =? 0)%Z.

Fixpoint prepare_loop (df : list row64) (idx : list nat)
    (features : list (list pynum)) (targets : list Z)
  : M (list (list pynum) * list Z) :=
  match idx with
  | [] => ret (features, targets)
  | i :: idx' =>
      row <- feature_row (slice df (i - 5) i) ;;
      next_step <- index_at df i ;;
      prepare_loop df idx' (features ++ [row])
        (targets ++ [if collapse next_step then 1%Z else 0%Z])
  end.

Definition prepare_features (data : list row64)
  : M (list (list pynum) * list Z) :=
  if (length data <? 10)%nat
  then raise (ValueError
         "Insufficient data for prediction (need at least 10 data points)")
  else prepare_loop data (seq 5 (length data - 5)) [] [].
End Training.

(** The snapshot a row of integer counts comes from. *)
Definition snapshot_of_row (r : row64) : snapshot :=
  Snapshot (r_step r) (PyInt (r_plants r)) (PyInt (r_herbivores r))
    (PyInt (r_carnivores r)).

(** Counts below 2^51 in magnitude: differences of two and sums of three
    of them stay below 2^53, so that they are exact in int64 and in
    binary64. *)
Definition small (z : Z) : Prop := (- 2 ^ 51 < z < 2 ^ 51)%Z.

Definition small_row (r : row64) : Prop :=
  small (r_plants r) /\ small (r_herbivores r) /\ small (r_carnivores r).

(** ** The heuristic estimator *)

Definition heuristic_collapse_prediction (recent_data : list snapshot)
  : M risk_response :=
  match recent_data with
  | [] => ret (RiskFailure "No data provided")
  | _ :: _ =>
      latest <- index_last recent_data ;;
      let s0 : score := (f64_of_Z 0, []) in
      let s1 :=
        if py_lt (plants latest) (PyInt 10)
        then add_rule "critically_low_plants" (f64_lit 4 10) s0
        else if py_lt (plants latest) (PyInt 30)
             then add_rule "low_plants" (f64_lit 2 10) s0
             else s0 in
      let s2 :=
        if py_lt (herbivores latest) (PyInt 3)
        then add_rule "critically_low_herbivores" (f64_lit 3 10) s1
        else s1 in
      limit <- py_mul (herbivores latest) (PyFloat (f64_lit 15 10)) ;;
      let s3 :=
        if py_gt (carnivores latest) limit
        then add_rule "predator_overload" (f64_lit 2 10) s2
        else s2 in
      s4 <- (if (3 <=? length recent_data)%nat
             then
               let recent_trend := last_n 3 recent_data in
               lst <- index_last recent_trend ;;
               fst_ <- index_first recent_trend ;;
               d <- py_sub (plants lst) (plants fst_) ;;
               plant_trend <- py_truediv d (PyInt 3) ;;
               ret (if py_lt plant_trend (PyInt (-5))
                    then add_rule "declining_plant_trend" (f64_lit 15 100) s3
                    else s3)
             else ret s3) ;;
      ret (RiskResult (f64_min2 (fst s4) (f64_of_Z 1)) (f64_lit 6 10)
             (snd s4) "heuristic")
  end.

(** ** Classifier inference with heuristic fallback *)

Class Classifier := {
  Model : Type;
  Scaler : Type;
  Scaled : Type;
  scaler_transform : Scaler -> list (list pynum) -> M Scaled;
  predict_proba : Model -> Scaled -> M (list (list float64));
  feature_importances : Model -> M (list float64)
}.

Record predictor `{Classifier} := Predictor {
  models : gmap string Model;
  scalers : gmap string Scaler;
  is_trained : bool;
  model_dir : string
}.

Section Inference.
Context `{NumpyStd} `{Classifier}.

(** The [try] block of [predict_collapse_risk] once ['collapse'] has been
    found in [self.models]. *)
Definition classifier_path (self : predictor) (recent_data : list snapshot)
  : M risk_response :=
  if (length recent_data <? 5)%nat
  then raise (ValueError "Need at least 5 recent data points")
  else
    let lookback := last_n 5 recent_data in
    features <- infer_features lookback ;;
    scaler <- getitem (scalers self) "collapse" ;;
    features_scaled <- scaler_transform scaler [features] ;;
    model <- getitem (models self) "collapse" ;;
    proba <- predict_proba model features_scaled ;;
    row <- index_first proba ;;
    risk_probability <- index_at row 1 ;;
    model' <- getitem (models self) "collapse" ;;
    proba' <- predict_proba model' features_scaled ;;
    row' <- index_first proba' ;;
    confidence <- f64_max row' ;;
    model'' <- getitem (models self) "collapse" ;;
    importance_ <- feature_importances model'' ;;
    ret (RiskResult risk_probability confidence (top_factors importance_)
           "1.0").

(** The handler of [except Exception] calls the heuristic estimator
    outside any [try]: what it raises propagates. *)
Definition predict_collapse_risk (self : predictor)
    (recent_data : list snapshot) (steps_ahead : Z) : M risk_response :=
  try_except
    (match models self !! "collapse" with
     | None => heuristic_collapse_prediction recent_data
     | Some _ => classifier_path self recent_data
     end)
    (fun _ => heuristic_collapse_prediction recent_data).

(** *** The [/predict/collapse] route *)

Record collapse_request := CollapseRequest {
  req_current : option (pynum * pynum * pynum);
  req_steps : option Z
}.

Definition predict_collapse (self : predictor) (data : collapse_request)
  : risk_response * Z :=
  let steps := match req_steps data with Some s => s | None => 5%Z end in
  let recent_data :=
    match req_current data with
    | Some (p, h, c) => [Snapshot 0 p h c]
    | None => []
    end in
  if (length recent_data <? 1)%nat
  then (RiskFailure "Invalid features format", 200%Z)
  else
    match predict_collapse_risk self recent_data steps with
    | inr result => (result, 200%Z)
    | inl e => (RiskFailure (str_exn e), 500%Z)
    end.
End Inference.

(** ** Reference definitions used to state the properties *)

(** The plant trend of the heuristic: [None] with fewer than three
    snapshots. *)
Definition plant_trend (recent_data : list snapshot) (first3 latest : snapshot)
  : M (option pynum) :=
  if (3 <=? length recent_data)%nat
  then d <- py_sub (plants latest) (plants first3) ;;
       q <- py_truediv d (PyInt 3) ;;
       ret (Some q)
  else ret None.

(** The rules of the heuristic estimator as a table, in evaluation order;
    [limit] is the value of [herbivores * 1.5]. *)
Definition heuristic_rules (latest : snapshot) (limit : pynum)
    (trend_ : option pynum) : list (bool * factor) :=
  [ (py_lt (plants latest) (PyInt 10),
      Factor "critically_low_plants" (f64_lit 4 10));
    (negb (py_lt (plants latest) (PyInt 10))
     && py_lt (plants latest) (PyInt 30),
      Factor "low_plants" (f64_lit 2 10));
    (py_lt (herbivores latest) (PyInt 3),
      Factor "critically_low_herbivores" (f64_lit 3 10));
    (py_gt (carnivores latest) limit,
      Factor "predator_overload" (f64_lit 2 10));
    (match trend_ with
     | Some t => py_lt t (PyInt (-5))
     | None => false
     end,
      Factor "declining_plant_trend" (f64_lit 15 100)) ].

(** A float, or a small integer. *)
Definition plain (x : pynum) : Prop :=
  match x with
  | PyInt z => small z
  | PyFloat _ => True
  end.

(** A float, or an integer below 2^1023 in magnitude. *)
Definition in_float_range (x : pynum) : Prop :=
  match x with
  | PyInt z => (Z.abs z < 2 ^ 1023)%Z
  | PyFloat _ => True
  end.

Definition plain_snapshot (s : snapshot) : Prop :=
  plain (plants s) /\ plain (herbivores s) /\ plain (carnivores s).

Definition is_overflow (e : exn) : bool :=
  match e with
  | OverflowError _ => true
  | _ => false
  end.

(** ** Concrete library instances, used to run the model on examples *)

(** [np.std] restricted to constant columns, where it is 0.0. *)
Definition example_numpy_std : NumpyStd := {|
  np_std := fun l =>
    match l with
    | [] => ret (PyFloat S754_nan)
    | x :: l' =>
        if forallb (py_eq x) l' then ret (PyFloat (S754_zero false))
        else raise (LibraryError "np.std: not tabulated")
    end
|}.

Definition example_classifier : Classifier := {|
  Model := nat;
  Scaler := nat;
  Scaled := list (list pynum);
  scaler_transform := fun _ X => ret X;
  predict_proba := fun _ _ => ret [[f64_lit 1 4; f64_lit 3 4]];
  feature_importances := fun _ => ret (repeat (f64_lit 1 19) 19)
|}.

Definition fresh_predictor : @predictor example_classifier :=
  @Predictor example_classifier ∅ ∅ false "trained_models".

Definition resident_predictor (model scaler : nat)
  : @predictor example_classifier :=
  @Predictor example_classifier (<["collapse" := model]> ∅)
    (<["collapse" := scaler]> ∅) true "trained_models".

(** The integer a float is equal to, if any. *)
Definition integer_of_float (f : float64) : option Z :=
  match f with
  | S754_zero _ => Some 0%Z
  | S754_finite s m (Zneg k) =>
      if (Zpos m mod 2 ^ Zpos k =? 0)%Z
      then Some (Z_of_mantissa s m / 2 ^ Zpos k)%Z
      else None
  | S754_finite s m e => Some (Z_of_mantissa s m * 2 ^ e)%Z
  | _ => None
  end.

(** A correctly rounded [pow], given where it is easy to define: a
    positive base and an exponent that is a non-negative integer.  The
    exact power of the mantissa is rounded once. *)
Definition example_libm : Libm := {|
  float_pow := fun x y =>
    match x, integer_of_float y with
    | S754_finite false m e, Some n =>
        if (0 <=? n)%Z
        then ret (binary_normalize 53 1024 (Zpos m ^ n) (e * n) false)
        else raise (LibraryError "pow: not tabulated")
    | _, _ => raise (LibraryError "pow: not tabulated")
    end
|}.

(** A window of five snapshots with all counts at 2^62. *)
Definition huge_rows : list row64 :=
  map (fun i => Row64 (Z.of_nat i) (2 ^ 62) (2 ^ 62) (2 ^ 62)) (seq 0 5).

End Machine.

(** * Properties *)

(** ** Numbers and lists *)

Lemma Qlt_bool_iff (a b : Q) : Qlt_bool a b = true <-> (a < b)%Q.
Proof.
  unfold Qlt_bool. rewrite Qlt_alt. destruct (a ?= b)%Q; split; congruence.
Qed.

Lemma Qlt_bool_false_iff (a b : Q) : Qlt_bool a b = false <-> (b <= a)%Q.
Proof.
  rewrite <- Bool.not_true_iff_false, Qlt_bool_iff. split.
  - apply Qnot_lt_le.
  - apply Qle_not_lt.
Qed.

(** The floored denominator is at least 1, whatever the count. *)
Lemma py_max2_floor (h : Q) : (1 <= py_max2 h 1)%Q.
Proof.
  unfold py_max2. destruct (Qlt_bool h 1) eqn:E.
  - apply Qle_refl.
  - now apply Qlt_bool_false_iff.
Qed.

Lemma py_div_floor (a h : Q) :
  py_div a (py_max2 h 1) = inr (a / py_max2 h 1)%Q.
Proof.
  unfold py_div. destruct (Qeq_bool (py_max2 h 1) 0) eqn:E; [|reflexivity].
  apply Qeq_bool_eq in E. pose proof (py_max2_floor h) as F.
  rewrite E in F. exfalso. revert F. apply Qlt_not_le. reflexivity.
Qed.

Lemma Qplus_0_l_eq (p : Q) : (0 + p)%Q = p.
Proof.
  destruct p as [n d]. unfold Qplus. simpl. now rewrite Z.mul_1_r.
Qed.

Lemma py_sum3 (a b c : Q) : py_sum [a; b; c] = (a + b + c)%Q.
Proof. unfold py_sum. simpl. now rewrite Qplus_0_l_eq. Qed.

Lemma index_at_app_r {A} (pre l : list A) (x : A) :
  index_at (pre ++ x :: l) (length pre) = inr x.
Proof.
  unfold index_at. rewrite nth_error_app2 by lia.
  now rewrite Nat.sub_diag.
Qed.

Lemma column_by_index_from (col : snapshot -> Q) (l pre : list snapshot) :
  fold_right
    (fun j acc => x <- index_at (pre ++ l) j ;; xs <- acc ;; ret (col x :: xs))
    (ret []) (seq (length pre) (length l))
  = inr (map col l).
Proof.
  revert pre. induction l as [|s l IH]; intros pre; [reflexivity|].
  simpl. rewrite index_at_app_r. simpl.
  specialize (IH (pre ++ [s])%list).
  rewrite length_app, Nat.add_1_r, <- app_assoc in IH. simpl in IH.
  now rewrite IH.
Qed.

(** Reading a column row by row gives the column. *)
Lemma column_by_index_map (col : snapshot -> Q) (l : list snapshot) :
  column_by_index col l = inr (map col l).
Proof. exact (column_by_index_from col l []). Qed.

(** [min] and [max] return an element of the sequence that bounds it. *)
Lemma min_from_spec (l : list Q) (m : Q) :
  In (min_from m l) (m :: l)
  /\ forall x, In x (m :: l) -> (min_from m l <= x)%Q.
Proof.
  revert m. induction l as [|y l IH]; intros m; simpl.
  - split; [now left|]. intros x [<-|[]]. apply Qle_refl.
  - destruct (IH (if Qlt_bool y m then y else m)) as [Hin Hle]. split.
    + destruct Hin as [Hin|Hin]; [|now right; right].
      rewrite <- Hin. destruct (Qlt_bool y m); [right; now left|now left].
    + intros x Hx.
      assert (Hm : ((if Qlt_bool y m then y else m) <= m)%Q
                   /\ ((if Qlt_bool y m then y else m) <= y)%Q).
      { destruct (Qlt_bool y m) eqn:E.
        - apply Qlt_bool_iff in E. split; [now apply Qlt_le_weak|apply Qle_refl].
        - apply Qlt_bool_false_iff in E. split; [apply Qle_refl|exact E]. }
      destruct Hm as [Hm Hy].
      pose proof (Hle _ (or_introl eq_refl)) as H0.
      destruct Hx as [<-|[<-|Hx]].
      * eapply Qle_trans; eassumption.
      * eapply Qle_trans; eassumption.
      * apply Hle. now right.
Qed.

Lemma max_from_spec (l : list Q) (m : Q) :
  In (max_from m l) (m :: l)
  /\ forall x, In x (m :: l) -> (x <= max_from m l)%Q.
Proof.
  revert m. induction l as [|y l IH]; intros m; simpl.
  - split; [now left|]. intros x [<-|[]]. apply Qle_refl.
  - destruct (IH (if Qlt_bool m y then y else m)) as [Hin Hle]. split.
    + destruct Hin as [Hin|Hin]; [|now right; right].
      rewrite <- Hin. destruct (Qlt_bool m y); [right; now left|now left].
    + intros x Hx.
      assert (Hm : (m <= (if Qlt_bool m y then y else m))%Q
                   /\ (y <= (if Qlt_bool m y then y else m))%Q).
      { destruct (Qlt_bool m y) eqn:E.
        - apply Qlt_bool_iff in E. split; [now apply Qlt_le_weak|apply Qle_refl].
        - apply Qlt_bool_false_iff in E. split; [apply Qle_refl|exact E]. }
      destruct Hm as [Hm Hy].
      pose proof (Hle _ (or_introl eq_refl)) as H0.
      destruct Hx as [<-|[<-|Hx]].
      * eapply Qle_trans; eassumption.
      * eapply Qle_trans; eassumption.
      * apply Hle. now right.
Qed.

(** ** Feature extraction *)

Section FeatureProperties.
Context `{Numpy}.

Lemma infer_features_five (s1 s2 s3 s4 s5 : snapshot) :
  infer_features [s1; s2; s3; s4; s5] = inr (feature_vector s1 s2 s3 s4 s5).
Proof.
  unfold infer_features. cbn [index_last index_first bind ret].
  rewrite !py_div_floor. cbn [bind map py_min py_max ret].
  rewrite py_sum3. reflexivity.
Qed.

Lemma feature_row_five (s1 s2 s3 s4 s5 : snapshot) :
  feature_row [s1; s2; s3; s4; s5] = inr (feature_vector s1 s2 s3 s4 s5).
Proof.
  unfold feature_row. cbn [index_last index_first bind ret].
  rewrite !py_div_floor, !column_by_index_map.
  cbn [bind map py_min py_max ret]. reflexivity.
Qed.

Lemma five_snapshots (w : list snapshot) :
  length w = 5%nat -> exists s1 s2 s3 s4 s5, w = [s1; s2; s3; s4; s5].
Proof.
  destruct w as [|s1 [|s2 [|s3 [|s4 [|s5 [|s6 w]]]]]]; try discriminate.
  intros _. now exists s1, s2, s3, s4, s5.
Qed.

Lemma feature_row_window (w : list snapshot) :
  length w = 5%nat -> feature_row w = inr (window_vector w).
Proof.
  intros Hw. destruct (five_snapshots w Hw) as (s1 & s2 & s3 & s4 & s5 & ->).
  apply feature_row_five.
Qed.

Lemma infer_features_window (w : list snapshot) :
  length w = 5%nat -> infer_features w = inr (window_vector w).
Proof.
  intros Hw. destruct (five_snapshots w Hw) as (s1 & s2 & s3 & s4 & s5 & ->).
  apply infer_features_five.
Qed.

Lemma window_vector_length (w : list snapshot) :
  length w = 5%nat -> length (window_vector w) = 19%nat.
Proof.
  intros Hw. destruct (five_snapshots w Hw) as (s1 & s2 & s3 & s4 & s5 & ->).
  reflexivity.
Qed.

Lemma slice_length (df : list snapshot) (i : nat) :
  (5 <= i <= length df)%nat -> length (slice df (i - 5) i) = 5%nat.
Proof.
  intros Hi. unfold slice. rewrite length_firstn, length_skipn. lia.
Qed.

(** The rolling loop, started from any accumulators, appends one row and one
    target per index. *)
Lemma prepare_loop_spec (df : list snapshot) (idx : list nat) :
  forall (fs : list (list Q)) (ts : list Z),
  (forall i, In i idx -> (5 <= i < length df)%nat) ->
  prepare_loop df idx fs ts
  = inr ((fs ++ map (fun i => window_vector (slice df (i - 5) i)) idx)%list,
         (ts ++ map (target_at df) idx)%list).
Proof.
  induction idx as [|i idx IH]; intros fs ts Hidx; simpl.
  - now rewrite !app_nil_r.
  - assert (Hi : (5 <= i < length df)%nat) by (apply Hidx; now left).
    rewrite feature_row_window by (apply slice_length; lia).
    cbn [bind]. unfold index_at.
    destruct (nth_error df i) as [next_step|] eqn:E.
    + cbn [bind ret]. rewrite IH by (intros j Hj; apply Hidx; now right).
      rewrite <- !app_assoc. cbn [app].
      replace (target_at df i) with (if collapse next_step then 1%Z else 0%Z)
        by (unfold target_at; now rewrite E).
      reflexivity.
    + apply nth_error_None in E. lia.
Qed.

Lemma prepare_features_spec (data : list snapshot) :
  (10 <= length data)%nat ->
  prepare_features data
  = inr (map (fun i => window_vector (slice data (i - 5) i))
           (seq 5 (length data - 5)),
         map (target_at data) (seq 5 (length data - 5))).
Proof.
  intros Hn. unfold prepare_features.
  destruct (length data <? 10)%nat eqn:E; [apply Nat.ltb_lt in E; lia|].
  rewrite prepare_loop_spec; [reflexivity|].
  intros i Hi. apply in_seq in Hi. lia.
Qed.

Lemma prepare_features_short (data : list snapshot) :
  (length data < 10)%nat ->
  prepare_features data
  = inl (ValueError
           "Insufficient data for prediction (need at least 10 data points)").
Proof.
  intros Hn. unfold prepare_features.
  now destruct (length data <? 10)%nat eqn:E; [|apply Nat.ltb_ge in E; lia].
Qed.

(** The standard deviation entry divides by the number of snapshots (5),
    not by one less. *)
Lemma np_std_five (a b c d e : Q) :
  np_std [a; b; c; d; e]
  = np_sqrt (py_sum (map (fun x => ((x - py_sum [a; b; c; d; e] / 5)
                                    * (x - py_sum [a; b; c; d; e] / 5))%Q)
                       [a; b; c; d; e]) / 5)%Q.
Proof. reflexivity. Qed.
End FeatureProperties.

(** ** The collapse label *)

Lemma collapse_iff (s : snapshot) :
  collapse s = true
  <-> (plants s < 5)%Q \/ (herbivores s == 0)%Q \/ (carnivores s == 0)%Q.
Proof.
  unfold collapse.
  rewrite !Bool.orb_true_iff, Qlt_bool_iff, !Qeq_bool_iff. tauto.
Qed.

(** C3.  A snapshot is labelled as a collapse exactly when plants < 5 or
    herbivores == 0 or carnivores == 0; (4, 1, 1) is a collapse and
    (5, 1, 1) is not; and in training the example at position [i - 5] pairs
    the features of the window [history[i-5:i]] with the label of the
    snapshot that follows it, [history[i]]. *)
Theorem C3_collapse_label `{Numpy} (history : list snapshot)
    (X : list (list Q)) (y : list Z) (i : nat) :
  prepare_features history = inr (X, y) ->
  (5 <= i < length history)%nat ->
  (forall s, collapse s = true
     <-> (plants s < 5)%Q \/ (herbivores s == 0)%Q \/ (carnivores s == 0)%Q)
  /\ (forall t, collapse (Snapshot t 4 1 1) = true)
  /\ (forall t, collapse (Snapshot t 5 1 1) = false)
  /\ exists next_step,
       nth_error history i = Some next_step
       /\ feature_row (slice history (i - 5) i) = inr (nth (i - 5) X [])
       /\ nth_error y (i - 5) = Some (if collapse next_step then 1%Z else 0%Z).
Proof.
  intros Hprep Hi. split; [exact collapse_iff|].
  split; [reflexivity|]. split; [reflexivity|].
  assert (Hn : (10 <= length history)%nat).
  { destruct (Nat.lt_ge_cases (length history) 10) as [Hlt|]; [|assumption].
    rewrite prepare_features_short in Hprep by assumption. discriminate. }
  rewrite prepare_features_spec in Hprep by assumption.
  injection Hprep as <- <-.
  destruct (nth_error history i) as [next_step|] eqn:E;
    [|apply nth_error_None in E; lia].
  exists next_step. split; [reflexivity|].
  assert (Hseq : nth_error (seq 5 (length history - 5)) (i - 5) = Some i).
  { rewrite nth_error_seq.
    destruct (i - 5 <? length history - 5)%nat eqn:L.
    - f_equal. lia.
    - apply Nat.ltb_ge in L. lia. }
  split.
  - rewrite feature_row_window by (apply slice_length; lia). f_equal.
    symmetry. apply nth_error_nth. now rewrite nth_error_map, Hseq.
  - rewrite nth_error_map, Hseq. simpl. unfold target_at. now rewrite E.
Qed.

Lemma C3_collapse_label_witness :
  (forall s, collapse s = true
     <-> (plants s < 5)%Q \/ (herbivores s == 0)%Q \/ (carnivores s == 0)%Q)
  /\ (forall t, collapse (Snapshot t 4 1 1) = true)
  /\ (forall t, collapse (Snapshot t 5 1 1) = false)
  /\ exists next_step,
       nth_error (flat_history 9 ++ [Snapshot 9 4 10 5]) 9 = Some next_step
       /\ @feature_row example_numpy
            (slice (flat_history 9 ++ [Snapshot 9 4 10 5]) (9 - 5) 9)
          = inr (nth (9 - 5)
                   (map (fun i => @window_vector example_numpy
                                    (slice (flat_history 9
                                            ++ [Snapshot 9 4 10 5]) (i - 5) i))
                      (seq 5 5)) [])
       /\ nth_error
            (map (target_at (flat_history 9 ++ [Snapshot 9 4 10 5])) (seq 5 5))
            (9 - 5)
          = Some (if collapse next_step then 1%Z else 0%Z).
Proof.
  apply (@C3_collapse_label example_numpy
           (flat_history 9 ++ [Snapshot 9 4 10 5])).
  - vm_compute. reflexivity.
  - simpl. lia.
Defined.

(** ** The heuristic estimator *)

Lemma index_last_skipn {A} (l : list A) (k : nat) :
  (k < length l)%nat -> index_last (skipn k l) = index_last l.
Proof.
  revert l. induction k as [|k IH]; intros l Hk; [reflexivity|].
  destruct l as [|x l]; [reflexivity|]. simpl in Hk.
  rewrite skipn_cons, IH by lia.
  destruct l; [simpl in Hk; lia|reflexivity].
Qed.

Lemma index_first_hd {A} (l : list A) (d : A) :
  l <> [] -> index_first l = inr (hd d l).
Proof. destruct l; [congruence|reflexivity]. Qed.

Lemma index_last_total {A} (l : list A) :
  l <> [] -> exists x, index_last l = inr x.
Proof.
  induction l as [|x l IH]; [congruence|]. intros _.
  destruct l as [|y l]; [now exists x|].
  destruct IH as [z Hz]; [congruence|]. now exists z.
Qed.

Lemma last_n_nonempty {A} (l : list A) (n : nat) :
  l <> [] -> (0 < n)%nat -> last_n n l <> [].
Proof.
  intros Hl Hn E. apply (f_equal (@length A)) in E. unfold last_n in E.
  rewrite length_skipn in E. destruct l; [congruence|]. simpl in E. lia.
Qed.

Lemma heuristic_rules_table (recent_data : list snapshot) (latest : snapshot) :
  index_last recent_data = inr latest ->
  let fs := triggered (heuristic_rules (length recent_data)
                         (hd latest (last_n 3 recent_data)) latest) in
  heuristic_collapse_prediction recent_data
  = inr (RiskResult (clamped_sum fs) (f64_lit 6 10) fs "heuristic")
  /\ SFleb (clamped_sum fs) (f64_of_Z 1) = true.
Proof.
  intros Hlast. destruct recent_data as [|s0 l]; [discriminate|].
  set (data := s0 :: l) in *.
  assert (Hne : data <> []) by (subst data; congruence).
  unfold heuristic_collapse_prediction. fold data. rewrite Hlast.
  cbn [bind]. unfold heuristic_rules, triggered, clamped_sum.
  destruct (3 <=? length data)%nat eqn:E3.
  - unfold last_n at 1. rewrite index_last_skipn, Hlast
      by (subst data; simpl; lia).
    rewrite (index_first_hd _ latest) by (apply last_n_nonempty; [easy|lia]).
    cbn [bind ret].
    destruct (Qlt_bool (plants latest) 10), (Qlt_bool (plants latest) 30),
      (Qlt_bool (herbivores latest) 3),
      (Qlt_bool (herbivores latest * (15 # 10)) (carnivores latest)),
      (Qlt_bool ((plants latest - plants (hd latest (last_n 3 data))) / 3)
         (-5));
      vm_compute; split; reflexivity.
  - cbn [bind ret].
    destruct (Qlt_bool (plants latest) 10), (Qlt_bool (plants latest) 30),
      (Qlt_bool (herbivores latest) 3),
      (Qlt_bool (herbivores latest * (15 # 10)) (carnivores latest));
      vm_compute; split; reflexivity.
Qed.

(** ** Training *)

Section TrainingProperties.
Context `{Numpy} `{Sklearn}.

Lemma train_short (data : list snapshot) (self : predictor) :
  (length data < 10)%nat ->
  train_collapse_predictor data self
  = (self, TrainFailure
             "Insufficient data for prediction (need at least 10 data points)").
Proof.
  intros Hn. unfold train_collapse_predictor, train_body, se_bind, se_lift.
  now rewrite prepare_features_short.
Qed.

Lemma prepare_features_length (data : list snapshot) :
  (10 <= length data)%nat ->
  exists X y, prepare_features data = inr (X, y)
    /\ length X = (length data - 5)%nat /\ length y = (length data - 5)%nat.
Proof.
  intros Hn. do 2 eexists. split; [now apply prepare_features_spec|].
  now rewrite !length_map, length_seq.
Qed.

Lemma train_few_examples (data : list snapshot) (self : predictor) :
  (10 <= length data < 25)%nat ->
  train_collapse_predictor data self
  = (self, TrainFailure
             "Insufficient training data (need at least 30 data points)").
Proof.
  intros Hn. unfold train_collapse_predictor, train_body, se_bind, se_lift.
  rewrite prepare_features_spec by lia.
  rewrite length_map, length_seq.
  now destruct (length data - 5 <? 20)%nat eqn:E; [|apply Nat.ltb_ge in E; lia].
Qed.

Lemma train_enough (data : list snapshot) (self : predictor) X y :
  prepare_features data = inr (X, y) ->
  (20 <= length X)%nat ->
  train_collapse_predictor data self = report_of (fit_and_install X y self).
Proof.
  intros Hprep Hn.
  unfold train_collapse_predictor, train_body, se_bind, se_lift, report_of.
  rewrite Hprep.
  now destruct (length X <? 20)%nat eqn:E; [apply Nat.ltb_lt in E; lia|].
Qed.


(** The outcome of the stage after the size check: either an exception
    before anything was stored, or the fitted pair is stored and what
    follows (persisting, building the report) succeeds or raises. *)
Lemma fit_and_install_cases (X : list (list Q)) (y : list Z)
    (self : predictor) :
  (exists e, fit_and_install X y self = (self, inl e))
  \/ (exists X_train X_test y_train y_test scaler X_train_scaled model outcome,
        train_test_split X y = inr (X_train, X_test, y_train, y_test)
        /\ scaler_fit_transform X_train = inr (scaler, X_train_scaled)
        /\ rf_fit X_train_scaled y_train = inr model
        /\ fit_and_install X y self = (installed model scaler self, outcome)
        /\ (forall e, outcome = inl e ->
              joblib_dump_model model
                (os_path_join (model_dir self) "collapse_model.pkl") = inl e
              \/ joblib_dump_scaler scaler
                   (os_path_join (model_dir self) "collapse_scaler.pkl")
                 = inl e
              \/ index_first X_train = inl e)).
Proof.
  unfold fit_and_install, se_bind, se_lift.
  destruct (train_test_split X y) as [e|[[[X_train X_test] y_train] y_test]]
    eqn:Hsplit; [left; now exists e|].
  destruct (scaler_fit_transform X_train) as [e|[scaler X_train_scaled]]
    eqn:Hscale; [left; now exists e|].
  destruct (scaler_transform scaler X_test) as [e|X_test_scaled];
    [left; now exists e|].
  destruct (rf_fit X_train_scaled y_train) as [e|model] eqn:Hfit;
    [left; now exists e|].
  destruct (rf_score model X_train_scaled y_train) as [e|train_accuracy];
    [left; now exists e|].
  destruct (rf_score model X_test_scaled y_test) as [e|test_accuracy];
    [left; now exists e|].
  right. exists X_train, X_test, y_train, y_test, scaler, X_train_scaled, model.
  unfold set_model, set_scaler, se_bind, se_get, se_put, se_ret. cbn.
  destruct (joblib_dump_model model _) as [e|[]].
  { exists (inl e). do 4 (split; [first [assumption|reflexivity]|]). intros e' [= <-]. now left. }
  destruct (joblib_dump_scaler scaler _) as [e|[]].
  { exists (inl e). do 4 (split; [first [assumption|reflexivity]|]). intros e' [= <-].
    right. now left. }
  destruct (index_first X_train) as [e|row0].
  { exists (inl e). do 4 (split; [first [assumption|reflexivity]|]). intros e' [= <-].
    right. now right. }
  eexists. do 4 (split; [first [assumption|reflexivity]|]). intros e' [=].
Qed.

(** [fit_and_install] in two stages: an exception of the first stage
    leaves the predictor as it was; after the first stage the fitted pair
    is stored, whatever the second stage does. *)
Lemma fit_and_install_stages (X : list (list Q)) (y : list Z)
    (self : predictor) :
  fit_and_install X y self
  = match fit_stage X y with
    | inl e => (self, inl e)
    | inr (X_train, scaler, model, train_accuracy, test_accuracy) =>
        (installed model scaler self,
         persist_stage self X_train scaler model train_accuracy test_accuracy)
    end.
Proof.
  unfold fit_and_install, fit_stage, persist_stage, se_bind, se_lift.
  destruct (train_test_split X y) as [e|[[[X_train X_test] y_train] y_test]];
    cbn [bind]; [reflexivity|].
  destruct (scaler_fit_transform X_train) as [e|[scaler X_train_scaled]];
    cbn [bind]; [reflexivity|].
  destruct (scaler_transform scaler X_test) as [e|X_test_scaled];
    cbn [bind]; [reflexivity|].
  destruct (rf_fit X_train_scaled y_train) as [e|model];
    cbn [bind]; [reflexivity|].
  destruct (rf_score model X_train_scaled y_train) as [e|train_accuracy];
    cbn [bind]; [reflexivity|].
  destruct (rf_score model X_test_scaled y_test) as [e|test_accuracy];
    cbn [bind ret]; [reflexivity|].
  unfold set_model, set_scaler, se_bind, se_get, se_put, se_ret, installed.
  cbn.
  destruct (joblib_dump_model model _) as [e|[]]; cbn [bind]; [reflexivity|].
  destruct (joblib_dump_scaler scaler _) as [e|[]]; cbn [bind];
    [reflexivity|].
  destruct (index_first X_train) as [e|row0]; reflexivity.
Qed.

(** C7 (as the code has it).  A failure report of
    [train_collapse_predictor] leaves the predictor exactly as it was when
    the failure comes from [prepare_features], from the check on the number
    of examples, or from splitting, scaling, fitting or scoring.  Once these
    have succeeded the fitted classifier and scaler are stored under
    'collapse' before anything is written to disk: when one of the two
    [joblib.dump] calls or the construction of the report then raises, the
    report is a failure and the newly fitted pair is the resident one,
    whatever pair was resident before.  A failure report arises in no other
    way. *)
Theorem C7_failed_training_and_the_resident_pair (data : list snapshot)
    (self : predictor) :
  (forall e,
     prepare_features data = inl e ->
     train_collapse_predictor data self = (self, TrainFailure (str_exn e)))
  /\ (forall X y,
        prepare_features data = inr (X, y) -> (length X < 20)%nat ->
        train_collapse_predictor data self
        = (self, TrainFailure
                   "Insufficient training data (need at least 30 data points)"))
  /\ (forall X y e,
        prepare_features data = inr (X, y) -> (20 <= length X)%nat ->
        fit_stage X y = inl e ->
        train_collapse_predictor data self = (self, TrainFailure (str_exn e)))
  /\ (forall X y X_train scaler model train_accuracy test_accuracy e,
        prepare_features data = inr (X, y) -> (20 <= length X)%nat ->
        fit_stage X y
        = inr (X_train, scaler, model, train_accuracy, test_accuracy) ->
        persist_stage self X_train scaler model train_accuracy test_accuracy
        = inl e ->
        train_collapse_predictor data self
        = (installed model scaler self, TrainFailure (str_exn e))
        /\ models (installed model scaler self) !! "collapse" = Some model
        /\ scalers (installed model scaler self) !! "collapse" = Some scaler)
  /\ (forall X_train scaler model train_accuracy test_accuracy e,
        persist_stage self X_train scaler model train_accuracy test_accuracy
        = inl e <->
        joblib_dump_model model
          (os_path_join (model_dir self) "collapse_model.pkl") = inl e
        \/ (joblib_dump_model model
              (os_path_join (model_dir self) "collapse_model.pkl") = inr tt
            /\ joblib_dump_scaler scaler
                 (os_path_join (model_dir self) "collapse_scaler.pkl") = inl e)
        \/ (joblib_dump_model model
              (os_path_join (model_dir self) "collapse_model.pkl") = inr tt
            /\ joblib_dump_scaler scaler
                 (os_path_join (model_dir self) "collapse_scaler.pkl")
               = inr tt
            /\ index_first X_train = inl e))
  /\ (forall self' err,
        train_collapse_predictor data self = (self', TrainFailure err) ->
        self' = self
        \/ exists X y X_train scaler model train_accuracy test_accuracy e,
             prepare_features data = inr (X, y)
             /\ (20 <= length X)%nat
             /\ fit_stage X y
                = inr (X_train, scaler, model, train_accuracy, test_accuracy)
             /\ persist_stage self X_train scaler model train_accuracy
                  test_accuracy = inl e
             /\ self' = installed model scaler self
             /\ err = str_exn e).
Proof.
  assert (Hrun : forall X y,
            prepare_features data = inr (X, y) -> (20 <= length X)%nat ->
            train_collapse_predictor data self
            = report_of (fit_and_install X y self)).
  { intros X y Hprep HX.
    unfold train_collapse_predictor, train_body, se_bind, se_lift, report_of.
    rewrite Hprep. now destruct (Nat.ltb_spec (length X) 20); [lia|]. }
  split; [|split; [|split; [|split; [|split]]]].
  - intros e Hprep.
    unfold train_collapse_predictor, train_body, se_bind, se_lift.
    now rewrite Hprep.
  - intros X y Hprep HX.
    unfold train_collapse_predictor, train_body, se_bind, se_lift, se_ret.
    rewrite Hprep. now destruct (Nat.ltb_spec (length X) 20); [|lia].
  - intros X y e Hprep HX Hfit.
    now rewrite (Hrun X y Hprep HX), fit_and_install_stages, Hfit.
  - intros X y X_train scaler model train_accuracy test_accuracy e Hprep HX
      Hfit Hpersist.
    rewrite (Hrun X y Hprep HX), fit_and_install_stages, Hfit, Hpersist.
    split; [reflexivity|]. unfold installed. cbn [models scalers].
    now rewrite !lookup_insert_eq.
  - intros X_train scaler model train_accuracy test_accuracy e.
    unfold persist_stage.
    destruct (joblib_dump_model model _) as [e1|[]]; cbn [bind].
    { split; [intros [= <-]; now left|].
      intros [[= <-]|[[[=] _]|[[=] _]]]. reflexivity. }
    destruct (joblib_dump_scaler scaler _) as [e2|[]]; cbn [bind].
    { split; [intros [= <-]; right; left; now split|].
      intros [[=]|[[_ [= <-]]|(_ & [=] & _)]]. reflexivity. }
    destruct (index_first X_train) as [e3|row0]; cbn [bind ret].
    { split; [intros [= <-]; right; right; now repeat split|].
      intros [[=]|[[_ [=]]|(_ & _ & [= <-])]]. reflexivity. }
    split; [discriminate|]. intros [[=]|[[_ [=]]|(_ & _ & [=])]].
  - intros self' err Htrain.
    destruct (prepare_features data) as [e|[X y]] eqn:Hprep.
    { unfold train_collapse_predictor, train_body, se_bind, se_lift in Htrain.
      rewrite Hprep in Htrain. left. now injection Htrain. }
    destruct (Nat.lt_ge_cases (length X) 20) as [HX|HX].
    { unfold train_collapse_predictor, train_body, se_bind, se_lift, se_ret
        in Htrain.
      rewrite Hprep in Htrain.
      destruct (Nat.ltb_spec (length X) 20); [|lia]. left.
      now injection Htrain. }
    rewrite (Hrun X y eq_refl HX), fit_and_install_stages in Htrain.
    destruct (fit_stage X y)
      as [e|[[[[X_train scaler] model] train_accuracy] test_accuracy]]
      eqn:Hfit.
    { left. cbn [report_of] in Htrain. now injection Htrain. }
    destruct (persist_stage self X_train scaler model train_accuracy
                test_accuracy) as [e|report] eqn:Hpersist;
      cbn [report_of] in Htrain.
    + right.
      exists X, y, X_train, scaler, model, train_accuracy, test_accuracy, e.
      injection Htrain as <- <-. now repeat split.
    + injection Htrain as <- ->. unfold persist_stage in Hpersist.
      destruct (joblib_dump_model model _); [discriminate|].
      destruct (joblib_dump_scaler scaler _); [discriminate|].
      destruct (index_first X_train); discriminate.
Qed.
End TrainingProperties.


(** With 25 snapshots, a resident pair (0, 0) and a disk that refuses the
    write, training reports a failure although the fitted pair (20, 20) has
    replaced the resident one. *)
Lemma C7_failed_training_replaces_model :
  snd (@train_collapse_predictor example_numpy (example_sklearn false)
         (flat_history 25) (resident_predictor false 0 0))
  = TrainFailure "[Errno 28] No space left on device"
  /\ models (fst (@train_collapse_predictor example_numpy
                    (example_sklearn false) (flat_history 25)
                    (resident_predictor false 0 0)))
     <> models (resident_predictor false 0 0)
  /\ scalers (fst (@train_collapse_predictor example_numpy
                     (example_sklearn false) (flat_history 25)
                     (resident_predictor false 0 0)))
     <> scalers (resident_predictor false 0 0).
Proof.
  split; [vm_compute; reflexivity|].
  split; intros E; apply (f_equal (fun m => m !! "collapse")) in E;
    vm_compute in E; discriminate.
Qed.

Lemma C7_failed_training_and_the_resident_pair_witness :
  @train_collapse_predictor example_numpy (example_sklearn false)
    (flat_history 25) (resident_predictor false 0 0)
  = (@installed (example_sklearn false) 20%nat 20%nat
       (resident_predictor false 0 0),
     TrainFailure "[Errno 28] No space left on device")
  /\ models (@installed (example_sklearn false) 20%nat 20%nat
               (resident_predictor false 0 0)) !! "collapse" = Some 20%nat
  /\ scalers (@installed (example_sklearn false) 20%nat 20%nat
                (resident_predictor false 0 0)) !! "collapse" = Some 20%nat.
Proof.
  destruct (@C7_failed_training_and_the_resident_pair example_numpy
              (example_sklearn false) (flat_history 25)
              (resident_predictor false 0 0))
    as (_ & _ & _ & Hlate & _).
  destruct (@prepare_features example_numpy (flat_history 25)) as [e|[X y]]
    eqn:Hprep; [vm_compute in Hprep; discriminate|].
  assert (HX : length X = 20%nat)
    by (vm_compute in Hprep; now injection Hprep as <- _).
  pose proof (Hlate X y X (length X) (length X) (f64_of_Z 1) (f64_of_Z 1)
                (LibraryError "[Errno 28] No space left on device") eq_refl
                ltac:(lia) eq_refl eq_refl) as Hres.
  now rewrite HX in Hres.
Defined.

(** ** Inference and its fallback *)

Lemma heuristic_total (recent_data : list snapshot) :
  (recent_data = []
   /\ heuristic_collapse_prediction recent_data
      = inr (RiskFailure "No data provided"))
  \/ (recent_data <> []
      /\ exists risk factors,
           heuristic_collapse_prediction recent_data
           = inr (RiskResult risk (f64_lit 6 10) factors "heuristic")).
Proof.
  destruct recent_data as [|s l]; [left; now split|]. right.
  split; [congruence|].
  destruct (index_last_total (s :: l)) as [latest Hlast]; [congruence|].
  destruct (heuristic_rules_table (s :: l) latest Hlast) as [Heq _].
  eauto.
Qed.

Lemma heuristic_returns (recent_data : list snapshot) :
  returns (heuristic_collapse_prediction recent_data).
Proof.
  destruct (heuristic_total recent_data) as [[_ E]|[_ (r & f & E)]];
    rewrite E; eexists; reflexivity.
Qed.

Lemma heuristic_version (recent_data : list snapshot) :
  version_of (heuristic_collapse_prediction recent_data) <> Some "1.0".
Proof.
  destruct (heuristic_total recent_data) as [[_ E]|[_ (r & f & E)]];
    rewrite E; discriminate.
Qed.

Section InferenceProperties.
Context `{Numpy} `{Sklearn}.

Lemma predict_without_model (self : predictor) (recent_data : list snapshot)
    (steps_ahead : Z) :
  models self !! "collapse" = None ->
  predict_collapse_risk self recent_data steps_ahead
  = heuristic_collapse_prediction recent_data.
Proof.
  intros Hm. unfold predict_collapse_risk. rewrite Hm.
  destruct (heuristic_returns recent_data) as [r E]. now rewrite E.
Qed.

Lemma predict_with_model (self : predictor) (recent_data : list snapshot)
    (steps_ahead : Z) (model : Model) :
  models self !! "collapse" = Some model ->
  predict_collapse_risk self recent_data steps_ahead
  = try_except (classifier_path self recent_data)
      (fun _ => heuristic_collapse_prediction recent_data).
Proof. intros Hm. unfold predict_collapse_risk. now rewrite Hm. Qed.

(** A successful classifier path carries the version "1.0". *)
Lemma classifier_path_version (self : predictor) (recent_data : list snapshot)
    (r : risk_response) :
  classifier_path self recent_data = inr r ->
  version_of (inr r) = Some "1.0".
Proof.
  unfold classifier_path.
  destruct (length recent_data <? 5)%nat; [discriminate|].
  repeat match goal with
         | |- bind ?m _ = _ -> _ => destruct m; cbn [bind]; [discriminate|]
         end.
  intros [= <-]. reflexivity.
Qed.

Lemma predict_fallback (self : predictor) (recent_data : list snapshot)
    (steps_ahead : Z) (model : Model) (e : exn) :
  models self !! "collapse" = Some model ->
  classifier_path self recent_data = inl e ->
  predict_collapse_risk self recent_data steps_ahead
  = heuristic_collapse_prediction recent_data.
Proof.
  intros Hm He. rewrite (predict_with_model _ _ _ model Hm), He. reflexivity.
Qed.

Lemma classifier_path_short (self : predictor) (recent_data : list snapshot) :
  (length recent_data < 5)%nat ->
  classifier_path self recent_data
  = inl (ValueError "Need at least 5 recent data points").
Proof.
  intros Hlen. unfold classifier_path.
  now destruct (length recent_data <? 5)%nat eqn:E;
    [|apply Nat.ltb_ge in E; lia].
Qed.
End InferenceProperties.

(** ** Forecast confidence as an exact rational *)

(** The exact value 0.8 * 0.9^steps decreases strictly with [steps]; the
    binary64 values that the service reports are studied with the module
    [Machine]. *)

Lemma forecast_confidence_alt (steps : Z) :
  (forecast_confidence steps == (8 # 10) * (10 # 9) ^ (- steps))%Q.
Proof.
  unfold forecast_confidence. apply Qmult_comp; [reflexivity|].
  rewrite Qpower_opp, <- Qinv_power. reflexivity.
Qed.

Lemma forecast_confidence_decreasing (s1 s2 : Z) :
  (s1 < s2)%Z -> (forecast_confidence s2 < forecast_confidence s1)%Q.
Proof.
  intros Hs. rewrite !forecast_confidence_alt.
  apply Qmult_lt_l; [reflexivity|].
  apply Qpower_lt_compat_l; [lia|reflexivity].
Qed.

Lemma forecast_confidence_succ (steps : Z) :
  (forecast_confidence (steps + 1) == forecast_confidence steps * (9 # 10))%Q.
Proof.
  unfold forecast_confidence. rewrite Qpower_plus by discriminate.
  rewrite Qmult_assoc. reflexivity.
Qed.

Section ForecastProperties.
Context `{Numpy}.

End ForecastProperties.

(** ** The model at work on concrete inputs *)

Example train_on_25_snapshots :
  @train_collapse_predictor example_numpy (example_sklearn true)
    (flat_history 25) (fresh_predictor true)
  = (@Predictor (example_sklearn true) (<["collapse" := 20%nat]> ∅)
       (<["collapse" := 20%nat]> ∅) false "trained_models",
     TrainOk "collapse_predictor" (f64_of_Z 1) (f64_of_Z 1) 20 19).
Proof. vm_compute. reflexivity. Qed.

Example predict_with_resident_model :
  @predict_collapse_risk example_numpy (example_sklearn true)
    (resident_predictor true 20 20) (flat_history 5) 5
  = inr (RiskResult (f64_lit 3 4) (f64_lit 3 4)
           [ Factor "plants" (f64_lit 1 19);
             Factor "herbivores" (f64_lit 1 19);
             Factor "carnivores" (f64_lit 1 19);
             Factor "plant_trend" (f64_lit 1 19);
             Factor "herbivore_trend" (f64_lit 1 19) ]
           "1.0").
Proof. vm_compute. reflexivity. Qed.

Example predict_collapse_route :
  @predict_collapse example_numpy (example_sklearn true)
    (resident_predictor true 20 20)
    (CollapseRequest (Some (8, 2, 5)%Q) None)
  = (RiskResult (f64_lit 8999999999999999 10000000000000000) (f64_lit 6 10)
       [ Factor "critically_low_plants" (f64_lit 4 10);
         Factor "critically_low_herbivores" (f64_lit 3 10);
         Factor "predator_overload" (f64_lit 2 10) ]
       "heuristic", 200%Z).
Proof. vm_compute. reflexivity. Qed.

Example predict_collapse_without_current :
  @predict_collapse example_numpy (example_sklearn true)
    (resident_predictor true 20 20) (CollapseRequest None None)
  = (RiskFailure "Invalid features format", 200%Z).
Proof. reflexivity. Qed.

Example forecast_on_4_snapshots :
  @forecast_populations example_numpy (flat_history 4) 7 tt
  = (tt, ForecastFailure "Need at least 5 data points for forecasting").
Proof. reflexivity. Qed.

Example feature_vector_of_flat_window :
  @infer_features example_numpy (flat_history 5)
  = inr [ 50; 10; 5; 0 / 5; 0 / 5; 0 / 5; 50 / 10; 10 / 5; 5 / 10; 65;
          0 # 48828125; 0 # 48828125; 0 # 48828125; 50; 50; 10; 10; 5; 5 ]%Q.
Proof. vm_compute. reflexivity. Qed.

(** * Further properties of the service *)

(** ** Suffixes of a history *)

Lemma last_n_app {A} (pre l : list A) (n : nat) :
  (n <= length l)%nat -> last_n n (pre ++ l) = last_n n l.
Proof.
  intros Hn. unfold last_n. rewrite length_app, skipn_app.
  rewrite skipn_all2 by lia. simpl. f_equal. lia.
Qed.

Lemma last_n_length {A} (l : list A) (n : nat) :
  length (last_n n l) = Nat.min n (length l).
Proof. unfold last_n. rewrite length_skipn. lia. Qed.

Lemma last_n_all {A} (l : list A) (n : nat) :
  (length l <= n)%nat -> last_n n l = l.
Proof.
  intros Hn. unfold last_n. now replace (length l - n)%nat with 0%nat by lia.
Qed.

Lemma last_n_last_n {A} (l : list A) (n : nat) :
  last_n n (last_n n l) = last_n n l.
Proof. apply last_n_all. rewrite last_n_length. lia. Qed.

Lemma index_last_last_n {A} (l : list A) (n : nat) :
  (0 < n)%nat -> index_last (last_n n l) = index_last l.
Proof.
  intros Hn. destruct l as [|x l]; [reflexivity|].
  unfold last_n. apply index_last_skipn. simpl. lia.
Qed.

Lemma index_last_app {A} (pre l : list A) :
  l <> [] -> index_last (pre ++ l) = index_last l.
Proof.
  intros Hl. induction pre as [|x pre IH]; [reflexivity|].
  simpl. destruct (pre ++ l)%list eqn:E; [|exact IH].
  destruct pre; [simpl in E; congruence|discriminate].
Qed.

(** ** The heuristic estimator looks at three snapshots at most *)

Lemma heuristic_last_three (recent_data : list snapshot) :
  (3 <= length recent_data)%nat ->
  heuristic_collapse_prediction recent_data
  = heuristic_collapse_prediction (last_n 3 recent_data).
Proof.
  intros Hlen.
  assert (Hne : recent_data <> [])
    by (destruct recent_data; simpl in Hlen; [lia|congruence]).
  destruct (index_last_total recent_data Hne) as [latest Hlast].
  destruct (heuristic_rules_table recent_data latest Hlast) as [Hfull _].
  assert (Hl3 : index_last (last_n 3 recent_data) = inr latest)
    by (rewrite index_last_last_n; [exact Hlast|lia]).
  destruct (heuristic_rules_table _ latest Hl3) as [Hsuf _].
  rewrite Hfull, Hsuf, last_n_last_n, last_n_length.
  unfold heuristic_rules.
  replace (3 <=? Nat.min 3 (length recent_data))%nat with true
    by (symmetry; apply Nat.leb_le; lia).
  replace (3 <=? length recent_data)%nat with true
    by (symmetry; apply Nat.leb_le; lia).
  reflexivity.
Qed.

(** X1.  The heuristic estimator reads only the end of the sequence: with
    three snapshots or more its answer is the one it gives on the last three
    alone, and with one or two snapshots it is the answer on the last one
    alone (the plant trend is not looked at, even with two snapshots). *)
Theorem heuristic_reads_last_three (recent_data : list snapshot) :
  recent_data <> [] ->
  ((3 <= length recent_data)%nat ->
     heuristic_collapse_prediction recent_data
     = heuristic_collapse_prediction (last_n 3 recent_data))
  /\ ((length recent_data < 3)%nat ->
        heuristic_collapse_prediction recent_data
        = heuristic_collapse_prediction (last_n 1 recent_data)).
Proof.
  intros Hne. split; [apply heuristic_last_three|]. intros Hlen.
  destruct (index_last_total recent_data Hne) as [latest Hlast].
  destruct (heuristic_rules_table recent_data latest Hlast) as [Hfull _].
  assert (Hl1 : index_last (last_n 1 recent_data) = inr latest)
    by (rewrite index_last_last_n; [exact Hlast|lia]).
  destruct (heuristic_rules_table _ latest Hl1) as [Hsuf _].
  rewrite Hfull, Hsuf, last_n_length.
  unfold heuristic_rules.
  replace (3 <=? Nat.min 1 (length recent_data))%nat with false
    by (symmetry; apply Nat.leb_gt; lia).
  replace (3 <=? length recent_data)%nat with false
    by (symmetry; apply Nat.leb_gt; lia).
  reflexivity.
Qed.

Lemma heuristic_reads_last_three_witness :
  heuristic_collapse_prediction
    (flat_history 20 ++ [Snapshot 20 40 10 5; Snapshot 21 30 10 16;
                         Snapshot 22 8 2 5])
  = heuristic_collapse_prediction
      (last_n 3 (flat_history 20 ++ [Snapshot 20 40 10 5; Snapshot 21 30 10 16;
                                     Snapshot 22 8 2 5])).
Proof.
  apply (heuristic_reads_last_three
           (flat_history 20 ++ [Snapshot 20 40 10 5; Snapshot 21 30 10 16;
                                Snapshot 22 8 2 5])).
  - discriminate.
  - simpl. lia.
Defined.

(** ** Extreme values of the heuristic risk *)

Lemma f64_zero_value : f64_of_Z 0 = S754_zero false.
Proof. vm_compute. reflexivity. Qed.

Lemma f64_one_value : f64_of_Z 1 = S754_finite false 4503599627370496 (-52).
Proof. vm_compute. reflexivity. Qed.

Ltac heuristic_case :=
  match goal with
  | |- context [clamped_sum ?fs] =>
      let r := fresh "r" in
      let Hr := fresh "Hr" in
      remember (clamped_sum fs) as r eqn:Hr; vm_compute in Hr; subst r
  end;
  cbn [List.filter fst snd map factor_name length andb negb];
  (split; [lia|]);
  (split; [split; intros E; first [discriminate E|reflexivity]|]);
  (split; intros E; first [discriminate E|reflexivity]).

(** X2.  In a heuristic result there are at most four factors; the risk is
    0.0 exactly when no rule fired, and it is 1.0 exactly when the four
    heaviest rules fired together (plants below 10, herbivores below 3,
    predator overload and a declining plant trend): the cap at 1.0 is
    reached by no other combination. *)
Theorem heuristic_risk_extremes (recent_data : list snapshot)
    (risk confidence : float64) (factors : list factor) (version : string) :
  heuristic_collapse_prediction recent_data
  = inr (RiskResult risk confidence factors version) ->
  (length factors <= 4)%nat
  /\ (risk = f64_of_Z 0 <-> factors = [])
  /\ (risk = f64_of_Z 1
      <-> map factor_name factors
          = [ "critically_low_plants"; "critically_low_herbivores";
              "predator_overload"; "declining_plant_trend" ]).
Proof.
  intros Hres.
  assert (Hne : recent_data <> []) by (intros ->; discriminate).
  destruct (index_last_total recent_data Hne) as [latest Hlast].
  destruct (heuristic_rules_table _ latest Hlast) as [Heq _].
  rewrite Heq in Hres. injection Hres as <- _ <- _.
  rewrite f64_zero_value, f64_one_value.
  unfold triggered, heuristic_rules.
  destruct (Qlt_bool (plants latest) 10), (Qlt_bool (plants latest) 30),
    (Qlt_bool (herbivores latest) 3),
    (Qlt_bool (herbivores latest * (15 # 10)) (carnivores latest)),
    (3 <=? length recent_data)%nat,
    (Qlt_bool ((plants latest - plants (hd latest (last_n 3 recent_data))) / 3)
       (-5));
    heuristic_case.
Qed.

Lemma heuristic_risk_extremes_witness :
  (length ([] : list factor) <= 4)%nat
  /\ (f64_of_Z 0 = f64_of_Z 0 <-> ([] : list factor) = [])
  /\ (f64_of_Z 0 = f64_of_Z 1
      <-> map factor_name []
          = [ "critically_low_plants"; "critically_low_herbivores";
              "predator_overload"; "declining_plant_trend" ]).
Proof.
  apply (heuristic_risk_extremes (flat_history 3) (f64_of_Z 0) (f64_lit 6 10)
           [] "heuristic").
  vm_compute. reflexivity.
Defined.

(** ** The order on floats *)

Ltac cmp_cases :=
  repeat match goal with
    | H : context [Pos.compare_cont Eq ?a ?b] |- _ =>
        change (Pos.compare_cont Eq a b) with (Pos.compare a b) in H
    | |- context [Pos.compare_cont Eq ?a ?b] =>
        change (Pos.compare_cont Eq a b) with (Pos.compare a b)
    end;
  repeat match goal with
    | H : context [Z.compare ?a ?b] |- _ =>
        destruct (Z.compare_spec a b); try discriminate H
    | H : context [Pos.compare ?a ?b] |- _ =>
        destruct (Pos.compare_spec a b); simpl in H; try discriminate H
    | |- context [Z.compare ?a ?b] => destruct (Z.compare_spec a b)
    | |- context [Pos.compare ?a ?b] => destruct (Pos.compare_spec a b); simpl
    end;
  try reflexivity; try discriminate; try lia.

Lemma SFltb_irrefl (a : float64) : SFltb a a = false.
Proof.
  unfold SFltb, SFcompare.
  destruct a as [[]|[]| |[] m e]; try reflexivity; cmp_cases.
Qed.

Lemma SFltb_trans (a b c : float64) :
  SFltb a b = true -> SFltb b c = true -> SFltb a c = true.
Proof.
  unfold SFltb, SFcompare.
  destruct a as [[]|[]| |[] m1 e1], b as [[]|[]| |[] m2 e2],
    c as [[]|[]| |[] m3 e3]; intros H1 H2; try discriminate;
    try reflexivity; cmp_cases.
Qed.

Lemma SFltb_asym (a b : float64) : SFltb a b = true -> SFltb b a = false.
Proof.
  intros H. destruct (SFltb b a) eqn:E; [|reflexivity].
  pose proof (SFltb_trans _ _ _ H E) as T. now rewrite SFltb_irrefl in T.
Qed.

(** Through a number that is not NaN, "not below" is transitive. *)
Lemma SFltb_not_below_trans (a b c : float64) :
  b <> S754_nan ->
  SFltb a b = false -> SFltb b c = false -> SFltb a c = false.
Proof.
  unfold SFltb, SFcompare.
  destruct a as [[]|[]| |[] m1 e1], b as [[]|[]| |[] m2 e2],
    c as [[]|[]| |[] m3 e3]; intros Hb H1 H2; try discriminate;
    try reflexivity; try congruence; cmp_cases.
Qed.

Lemma f64_max_from_in (l : list float64) (m : float64) :
  In (f64_max_from m l) (m :: l).
Proof.
  revert m. induction l as [|y l IH]; intros m; simpl; [now left|].
  destruct (IH (if SFltb m y then y else m)) as [E|E]; [|now right; right].
  rewrite <- E. destruct (SFltb m y); [right; now left|now left].
Qed.

(** No entry exceeds the maximum. *)
Lemma f64_max_from_bound (l : list float64) (m : float64) :
  forall x, In x (m :: l) -> SFltb (f64_max_from m l) x = false.
Proof.
  assert (G : forall l m (seen : list float64),
            (forall x, In x seen -> SFltb m x = false) ->
            forall x, In x (seen ++ l) -> SFltb (f64_max_from m l) x = false).
  { clear. induction l as [|y l IH]; intros m seen Hseen x Hx.
    - rewrite app_nil_r in Hx. now apply Hseen.
    - simpl. apply (IH _ (seen ++ [y])%list).
      + intros z Hz. apply in_app_or in Hz as [Hz|[<-|[]]].
        * destruct (SFltb m y) eqn:E; [|now apply Hseen].
          destruct (SFltb y z) eqn:E'; [|reflexivity].
          pose proof (SFltb_trans _ _ _ E E') as T.
          now rewrite (Hseen z Hz) in T.
        * destruct (SFltb m y) eqn:E; [apply SFltb_irrefl|exact E].
      + now rewrite <- app_assoc. }
  intros x Hx. apply (G l m [m]); [|exact Hx].
  intros z [<-|[]]. apply SFltb_irrefl.
Qed.

(** ** What inference reads and returns *)

Lemma last_n_last_n_le {A} (l : list A) (m n : nat) :
  (m <= n)%nat -> last_n m (last_n n l) = last_n m l.
Proof.
  intros Hmn. unfold last_n at 1 3. rewrite last_n_length.
  unfold last_n. rewrite skipn_skipn. f_equal. lia.
Qed.

Section InferenceReads.
Context `{Numpy} `{Sklearn}.

Lemma classifier_path_last_five (self : predictor)
    (recent_data : list snapshot) :
  (5 <= length recent_data)%nat ->
  classifier_path self recent_data
  = classifier_path self (last_n 5 recent_data).
Proof.
  intros Hlen. unfold classifier_path.
  rewrite last_n_last_n, last_n_length.
  replace (length recent_data <? 5)%nat with false
    by (symmetry; apply Nat.ltb_ge; lia).
  replace (Nat.min 5 (length recent_data) <? 5)%nat with false
    by (symmetry; apply Nat.ltb_ge; lia).
  reflexivity.
Qed.

(** X5.  With five snapshots or more, [predict_collapse_risk] depends on the
    last five only, with or without a resident classifier and whatever
    [steps_ahead] is: older snapshots and the horizon never change the
    answer. *)
Theorem predict_reads_last_five (self : predictor)
    (recent_data : list snapshot) (steps_ahead steps_ahead' : Z) :
  (5 <= length recent_data)%nat ->
  predict_collapse_risk self recent_data steps_ahead
  = predict_collapse_risk self (last_n 5 recent_data) steps_ahead'.
Proof.
  intros Hlen.
  assert (Hh : heuristic_collapse_prediction recent_data
               = heuristic_collapse_prediction (last_n 5 recent_data)).
  { rewrite (heuristic_last_three recent_data) by lia.
    rewrite (heuristic_last_three (last_n 5 recent_data))
      by (rewrite last_n_length; lia).
    now rewrite last_n_last_n_le by lia. }
  unfold predict_collapse_risk.
  rewrite <- classifier_path_last_five, <- Hh by assumption. reflexivity.
Qed.

(** X6.  A classifier without its scaler is never used: when ['collapse'] is
    in [models] but not in [scalers], the lookup fails inside the [try]
    block and the answer is the heuristic estimator's, for every input. *)
Theorem classifier_without_scaler_falls_back (self : predictor)
    (recent_data : list snapshot) (steps_ahead : Z) (model : Model) :
  models self !! "collapse" = Some model ->
  scalers self !! "collapse" = None ->
  predict_collapse_risk self recent_data steps_ahead
  = heuristic_collapse_prediction recent_data
  /\ version_of (predict_collapse_risk self recent_data steps_ahead)
     <> Some "1.0".
Proof.
  intros Hm Hs.
  assert (Hp : predict_collapse_risk self recent_data steps_ahead
               = heuristic_collapse_prediction recent_data).
  { destruct (Nat.lt_ge_cases (length recent_data) 5) as [Hlt|Hge].
    - eapply predict_fallback; [exact Hm|now apply classifier_path_short].
    - eapply predict_fallback; [exact Hm|].
      unfold classifier_path.
      replace (length recent_data <? 5)%nat with false
        by (symmetry; apply Nat.ltb_ge; lia).
      rewrite infer_features_window by (rewrite last_n_length; lia).
      cbn [bind]. unfold getitem. rewrite Hs. reflexivity. }
  split; [exact Hp|]. rewrite Hp. apply heuristic_version.
Qed.

(** X7.  Where a classifier-backed answer comes from: a result with version
    "1.0" means that both the classifier and the scaler are resident, that
    there were at least five snapshots, that the scaler was applied to the
    single feature vector of the last five snapshots, that the risk is the
    second entry of the first row returned by [predict_proba] on the scaled
    vector, that the confidence is an entry of that row which no entry
    exceeds, and that the factors are the five leading importances of the
    model. *)
Theorem classifier_answer_origin (self : predictor)
    (recent_data : list snapshot) (steps_ahead : Z)
    (risk confidence : float64) (factors : list factor) :
  predict_collapse_risk self recent_data steps_ahead
  = inr (RiskResult risk confidence factors "1.0") ->
  exists model scaler features_scaled row rest importance_,
    models self !! "collapse" = Some model
    /\ scalers self !! "collapse" = Some scaler
    /\ (5 <= length recent_data)%nat
    /\ scaler_transform scaler [window_vector (last_n 5 recent_data)]
       = inr features_scaled
    /\ predict_proba model features_scaled = inr (row :: rest)
    /\ nth_error row 1 = Some risk
    /\ In confidence row
    /\ (forall x, In x row -> SFltb confidence x = false)
    /\ feature_importances model = inr importance_
    /\ factors = top_factors importance_.
Proof.
  intros Hres.
  destruct (models self !! "collapse") as [model|] eqn:Hm.
  2:{ rewrite predict_without_model in Hres by assumption.
      exfalso. apply (heuristic_version recent_data).
      now rewrite Hres. }
  destruct (classifier_path self recent_data) as [e|r] eqn:Hc.
  { rewrite (predict_fallback _ _ _ model e Hm Hc) in Hres.
    exfalso. apply (heuristic_version recent_data). now rewrite Hres. }
  rewrite (predict_with_model _ _ _ model Hm), Hc in Hres.
  injection Hres as ->. revert Hc. unfold classifier_path.
  destruct (length recent_data <? 5)%nat eqn:Hlen; [discriminate|].
  apply Nat.ltb_ge in Hlen.
  rewrite infer_features_window by (rewrite last_n_length; lia).
  cbn [bind]. unfold getitem. rewrite Hm.
  destruct (scalers self !! "collapse") as [scaler|]; [|discriminate].
  cbn [bind ret].
  destruct (scaler_transform scaler _) as [|features_scaled] eqn:Hsc;
    [discriminate|]. cbn [bind].
  destruct (predict_proba model features_scaled) as [|proba] eqn:Hpp;
    [discriminate|]. cbn [bind].
  destruct proba as [|row rest]; [discriminate|]. cbn [index_first bind ret].
  unfold index_at. destruct (nth_error row 1) as [p|] eqn:Hp; [|discriminate].
  cbn [bind ret].
  destruct row as [|x0 row']; [discriminate|]. cbn [f64_max bind ret].
  destruct (feature_importances model) as [|importance_] eqn:Hfi;
    [discriminate|]. cbn [bind ret].
  intros [= <- <- <-].
  exists model, scaler, features_scaled, (x0 :: row'), rest, importance_.
  repeat split; try assumption; try reflexivity.
  - apply f64_max_from_in.
  - apply f64_max_from_bound.
Qed.
End InferenceReads.

Lemma predict_reads_last_five_witness :
  @predict_collapse_risk example_numpy (example_sklearn true)
    (resident_predictor true 20 20)
    (flat_history 20 ++ [Snapshot 20 4 0 1]) 5
  = @predict_collapse_risk example_numpy (example_sklearn true)
      (resident_predictor true 20 20)
      (last_n 5 (flat_history 20 ++ [Snapshot 20 4 0 1])) 1.
Proof.
  apply (@predict_reads_last_five example_numpy (example_sklearn true)).
  simpl. lia.
Defined.

Lemma classifier_without_scaler_falls_back_witness :
  @predict_collapse_risk example_numpy (example_sklearn true)
    (@Predictor (example_sklearn true) (<["collapse" := 7%nat]> ∅) ∅ false
       "trained_models")
    (flat_history 6) 5
  = heuristic_collapse_prediction (flat_history 6)
  /\ version_of
       (@predict_collapse_risk example_numpy (example_sklearn true)
          (@Predictor (example_sklearn true) (<["collapse" := 7%nat]> ∅) ∅
             false "trained_models")
          (flat_history 6) 5)
     <> Some "1.0".
Proof.
  apply (@classifier_without_scaler_falls_back example_numpy
           (example_sklearn true) _ (flat_history 6) 5 7%nat);
    reflexivity.
Defined.

Lemma classifier_answer_origin_witness :
  exists model scaler features_scaled row rest importance_,
    models (resident_predictor true 20 20) !! "collapse" = Some model
    /\ scalers (resident_predictor true 20 20) !! "collapse" = Some scaler
    /\ (5 <= length (flat_history 5))%nat
    /\ @scaler_transform (example_sklearn true) scaler
         [@window_vector example_numpy (last_n 5 (flat_history 5))]
       = inr features_scaled
    /\ @predict_proba (example_sklearn true) model features_scaled
       = inr (row :: rest)
    /\ nth_error row 1 = Some (f64_lit 3 4)
    /\ In (f64_lit 3 4) row
    /\ (forall x, In x row -> SFltb (f64_lit 3 4) x = false)
    /\ @feature_importances (example_sklearn true) model = inr importance_
    /\ top_factors (repeat (f64_lit 1 19) 19) = top_factors importance_.
Proof.
  apply (@classifier_answer_origin example_numpy (example_sklearn true)
           (resident_predictor true 20 20) (flat_history 5) 5).
  vm_compute. reflexivity.
Defined.

(** ** The factors of a classifier-backed answer *)

Lemma insert_desc_perm (x : string * float64) (l : list (string * float64)) :
  Permutation (insert_desc x l) (x :: l).
Proof.
  induction l as [|y l IH]; simpl; [reflexivity|].
  destruct (SFltb (snd x) (snd y)); [|reflexivity].
  rewrite IH. apply perm_swap.
Qed.

Lemma sorted_desc_perm (l : list (string * float64)) :
  Permutation (sorted_desc l) l.
Proof.
  induction l as [|x l IH]; simpl; [reflexivity|].
  unfold sorted_desc in *. simpl. rewrite insert_desc_perm. now constructor.
Qed.

Lemma insert_desc_sorted (x : string * float64) (l : list (string * float64)) :
  Forall (fun p => snd p <> S754_nan) (x :: l) ->
  StronglySorted not_below l -> StronglySorted not_below (insert_desc x l).
Proof.
  intros Hnan Hs. induction Hs as [|y l Hs IH Hy]; simpl.
  - repeat constructor.
  - apply Forall_cons_iff in Hnan as [Hx Hnan].
    apply Forall_cons_iff in Hnan as [Hyn Hnan].
    destruct (SFltb (snd x) (snd y)) eqn:E.
    + constructor; [apply IH; now constructor|].
      eapply Permutation_Forall; [symmetry; apply insert_desc_perm|].
      constructor; [|exact Hy]. now apply SFltb_asym.
    + constructor; [now constructor|].
      constructor; [exact E|].
      eapply List.Forall_impl; [|exact Hy]. intros z Hz.
      now apply (SFltb_not_below_trans _ (snd y)).
Qed.

Lemma sorted_desc_sorted (l : list (string * float64)) :
  Forall (fun p => snd p <> S754_nan) l ->
  StronglySorted not_below (sorted_desc l).
Proof.
  induction l as [|x l IH]; intros Hnan; [constructor|].
  unfold sorted_desc in *. simpl. apply insert_desc_sorted.
  - apply Forall_cons_iff in Hnan as [Hx Hnan]. constructor; [exact Hx|].
    eapply Permutation_Forall; [symmetry; apply sorted_desc_perm|exact Hnan].
  - apply IH. now apply Forall_cons_iff in Hnan as [_ Hnan].
Qed.

(** Ties keep their order: a list in which no importance is below another
    is left as it is. *)
Lemma sorted_desc_ties (l : list (string * float64)) :
  (forall a b, In a l -> In b l -> not_below a b) -> sorted_desc l = l.
Proof.
  induction l as [|x l IH]; intros Hl; [reflexivity|].
  unfold sorted_desc in *. simpl. rewrite IH.
  - destruct l as [|y l]; [reflexivity|]. simpl.
    now rewrite (Hl x y) by (simpl; auto).
  - intros a b Ha Hb. apply Hl; now right.
Qed.

Lemma in_firstn {A} (n : nat) (l : list A) (x : A) :
  In x (firstn n l) -> In x l.
Proof.
  revert l. induction n as [|n IH]; intros [|y l]; simpl; try tauto.
  intros [->|Hx]; [now left|right; now apply IH].
Qed.

Lemma zip_snd_in {A B} (a : list A) (b : list B) (p : A * B) :
  In p (zip a b) -> In (fst p) a /\ In (snd p) b.
Proof.
  revert b. induction a as [|x a IH]; intros [|y b]; simpl; try tauto.
  intros [<-|Hp]; [simpl; auto|]. destruct (IH b Hp). auto.
Qed.

Lemma zip_length {A B} (a : list A) (b : list B) :
  length (zip a b) = Nat.min (length a) (length b).
Proof.
  revert b. induction a as [|x a IH]; intros [|y b]; simpl; try reflexivity.
  now rewrite IH.
Qed.

(** X8.  The factors of a classifier-backed answer, when no importance is
    NaN: there are min(5, number of importances) of them (19 features at
    most); each pairs a feature name with its own importance; they are in
    descending order of importance; every pair left out has an importance
    that is not above any reported one; and when no importance is below
    another (all equal, say) the factors are the leading features in their
    fixed order. *)
Theorem top_factors_are_the_leading_importances (importance_ : list float64) :
  Forall (fun x => x <> S754_nan) importance_ ->
  let pairs_of := map (fun f => (factor_name f, importance f)) in
  length (top_factors importance_)
  = Nat.min 5 (Nat.min 19 (length importance_))
  /\ (forall f, In f (top_factors importance_) ->
        In (factor_name f, importance f) (zip feature_names importance_)
        /\ In (factor_name f) feature_names)
  /\ StronglySorted (fun f g => SFltb (importance f) (importance g) = false)
       (top_factors importance_)
  /\ (exists rest,
        Permutation (zip feature_names importance_)
          (pairs_of (top_factors importance_) ++ rest)
        /\ forall f g, In f (top_factors importance_) -> In g rest ->
             SFltb (importance f) (snd g) = false)
  /\ ((forall x y, In x importance_ -> In y importance_ -> SFltb x y = false) ->
        pairs_of (top_factors importance_)
        = firstn 5 (zip feature_names importance_)).
Proof.
  intros Hnan. cbv zeta.
  set (z := zip feature_names importance_).
  assert (Hz : Forall (fun p => snd p <> S754_nan) z).
  { apply List.Forall_forall. intros p Hp. apply zip_snd_in in Hp as [_ Hp].
    rewrite List.Forall_forall in Hnan. now apply Hnan. }
  pose proof (sorted_desc_sorted z Hz) as Hsorted.
  pose proof (sorted_desc_perm z) as Hperm.
  assert (Hpairs : map (fun f => (factor_name f, importance f))
                     (top_factors importance_)
                   = firstn 5 (sorted_desc z)).
  { unfold top_factors. fold z. rewrite map_map. simpl.
    rewrite <- (map_id (firstn 5 (sorted_desc z))) at 2.
    apply map_ext. now intros []. }
  split; [|split; [|split; [|split]]].
  - unfold top_factors. fold z.
    rewrite length_map, length_firstn, (Permutation_length Hperm).
    subst z. rewrite zip_length. reflexivity.
  - intros f Hf.
    assert (Hin : In (factor_name f, importance f) z).
    { eapply Permutation_in; [exact Hperm|].
      apply (in_map (fun f => (factor_name f, importance f))) in Hf.
      rewrite Hpairs in Hf. revert Hf. apply in_firstn. }
    split; [exact Hin|]. now apply zip_snd_in in Hin as [Hn _].
  - unfold top_factors. fold z.
    assert (G : forall l, StronglySorted not_below l ->
              StronglySorted
                (fun f g => SFltb (importance f) (importance g) = false)
                (map (fun ni => Factor (fst ni) (snd ni)) l)).
    { clear. induction 1 as [|p l Hs IH Hp]; simpl; constructor; [exact IH|].
      apply Forall_map. exact Hp. }
    apply G. clear G.
    rewrite <- (firstn_skipn 5 (sorted_desc z)) in Hsorted.
    revert Hsorted. generalize (firstn 5 (sorted_desc z)) as top.
    generalize (skipn 5 (sorted_desc z)) as rest. clear.
    intros rest top. induction top as [|p top IH]; simpl; intros Hs;
      [constructor|].
    apply StronglySorted_inv in Hs as [Hs Hp]. constructor; [now apply IH|].
    apply Forall_app in Hp as [Hp _]. exact Hp.
  - exists (skipn 5 (sorted_desc z)). split.
    + rewrite Hpairs, firstn_skipn. now symmetry.
    + intros f g Hf Hg.
      apply (in_map (fun f => (factor_name f, importance f))) in Hf.
      rewrite Hpairs in Hf.
      rewrite <- (firstn_skipn 5 (sorted_desc z)) in Hsorted.
      revert Hsorted Hf Hg. generalize (firstn 5 (sorted_desc z)) as top.
      generalize (skipn 5 (sorted_desc z)) as rest. clear.
      intros rest top. induction top as [|p top IH]; simpl; intros Hs Hf Hg;
        [contradiction|].
      apply StronglySorted_inv in Hs as [Hs Hp].
      destruct Hf as [->|Hf]; [|now apply IH].
      apply Forall_app in Hp as [_ Hp]. rewrite List.Forall_forall in Hp.
      exact (Hp g Hg).
  - intros Hties. rewrite Hpairs. f_equal. apply sorted_desc_ties.
    intros a b Ha Hb. apply zip_snd_in in Ha as [_ Ha], Hb as [_ Hb].
    now apply Hties.
Qed.

Lemma top_factors_are_the_leading_importances_witness :
  length (top_factors [f64_lit 1 10; f64_lit 6 10; f64_lit 3 10])
  = Nat.min 5 (Nat.min 19 3).
Proof.
  apply (top_factors_are_the_leading_importances
           [f64_lit 1 10; f64_lit 6 10; f64_lit 3 10]).
  repeat constructor; vm_compute; discriminate.
Defined.

(** ** The training set *)

Lemma nth_error_slice {A} (df : list A) (a b j : nat) :
  (j < b - a)%nat -> nth_error (slice df a b) j = nth_error df (a + j).
Proof.
  intros Hj. unfold slice.
  rewrite nth_error_firstn.
  destruct (j <? b - a)%nat eqn:E; [|apply Nat.ltb_ge in E; lia].
  apply nth_error_skipn.
Qed.

Section TrainingSet.
Context `{Numpy}.

(** X9.  The shape of the training set: when [prepare_features] returns,
    there are exactly len(data) - 5 rows and as many targets, every row has
    19 entries, and every target is 0 or 1. *)
Theorem training_set_shape (data : list snapshot) (X : list (list Q))
    (y : list Z) :
  prepare_features data = inr (X, y) ->
  (10 <= length data)%nat
  /\ length X = (length data - 5)%nat
  /\ length y = length X
  /\ Forall (fun row => length row = 19%nat) X
  /\ Forall (fun t => t = 0%Z \/ t = 1%Z) y.
Proof.
  intros Hprep.
  assert (Hn : (10 <= length data)%nat).
  { destruct (Nat.lt_ge_cases (length data) 10) as [Hlt|]; [|assumption].
    rewrite prepare_features_short in Hprep by assumption. discriminate. }
  rewrite prepare_features_spec in Hprep by assumption.
  injection Hprep as <- <-. split; [exact Hn|].
  rewrite !length_map, length_seq. split; [reflexivity|].
  split; [reflexivity|]. split.
  - apply List.Forall_forall. intros row Hrow.
    apply in_map_iff in Hrow as (i & <- & Hi). apply in_seq in Hi.
    apply window_vector_length, slice_length. lia.
  - apply List.Forall_forall. intros t Ht.
    apply in_map_iff in Ht as (i & <- & _). unfold target_at.
    destruct (nth_error data i) as [s|]; [|now left].
    destruct (collapse s); [now right|now left].
Qed.

(** X10.  Each target can be read off the next row: the label of example
    [k] is computed from the snapshot that is the current (last) snapshot of
    the window of example [k + 1], so it is 1 exactly when the first three
    features of row [k + 1] satisfy plants < 5 or herbivores == 0 or
    carnivores == 0. *)
Theorem target_is_read_off_next_row (data : list snapshot)
    (X : list (list Q)) (y : list Z) (k : nat) :
  prepare_features data = inr (X, y) ->
  (S k < length X)%nat ->
  exists row,
    nth_error X (S k) = Some row
    /\ nth_error y k
       = Some (if Qlt_bool (nth 0 row 0%Q) 5 || Qeq_bool (nth 1 row 0%Q) 0
                  || Qeq_bool (nth 2 row 0%Q) 0
               then 1%Z else 0%Z).
Proof.
  intros Hprep Hk.
  assert (Hn : (10 <= length data)%nat).
  { destruct (Nat.lt_ge_cases (length data) 10) as [Hlt|]; [|assumption].
    rewrite prepare_features_short in Hprep by assumption. discriminate. }
  rewrite prepare_features_spec in Hprep by assumption.
  injection Hprep as <- <-.
  rewrite length_map, length_seq in Hk.
  assert (Hseq : forall j, (j < length data - 5)%nat ->
            nth_error (seq 5 (length data - 5)) j = Some (5 + j)%nat).
  { intros j Hj. rewrite nth_error_seq.
    now destruct (j <? length data - 5)%nat eqn:E;
      [|apply Nat.ltb_ge in E; lia]. }
  rewrite !nth_error_map, !Hseq by lia. cbn [option_map].
  eexists. split; [reflexivity|]. f_equal.
  replace (5 + S k - 5)%nat with (S k) by lia.
  assert (Hlen : length (slice data (S k) (5 + S k)) = 5%nat).
  { apply (slice_length data (5 + S k)). lia. }
  pose proof (nth_error_slice data (S k) (5 + S k) 4 ltac:(lia)) as H4.
  destruct (five_snapshots _ Hlen) as (s1 & s2 & s3 & s4 & s5 & Hw).
  rewrite Hw in H4 |- *. cbn [nth_error] in H4.
  replace (S k + 4)%nat with (5 + k)%nat in H4 by lia.
  unfold target_at. rewrite <- H4. reflexivity.
Qed.
End TrainingSet.

Lemma training_set_shape_witness :
  let X := map (fun i => @window_vector example_numpy
                           (slice (flat_history 12) (i - 5) i)) (seq 5 7) in
  let y := map (target_at (flat_history 12)) (seq 5 7) in
  (10 <= length (flat_history 12))%nat
  /\ length X = (length (flat_history 12) - 5)%nat
  /\ length y = length X
  /\ Forall (fun row => length row = 19%nat) X
  /\ Forall (fun t => t = 0%Z \/ t = 1%Z) y.
Proof.
  apply (@training_set_shape example_numpy (flat_history 12)).
  vm_compute. reflexivity.
Defined.

Lemma target_is_read_off_next_row_witness :
  exists row,
    nth_error (map (fun i => @window_vector example_numpy
                            (slice (flat_history 9 ++ [Snapshot 9 4 10 5;
                                                        Snapshot 10 3 9 5])
                               (i - 5) i)) (seq 5 6)) 5
    = Some row
    /\ nth_error (map (target_at (flat_history 9 ++ [Snapshot 9 4 10 5;
                                                      Snapshot 10 3 9 5]))
                    (seq 5 6)) 4
       = Some (if Qlt_bool (nth 0 row 0%Q) 5 || Qeq_bool (nth 1 row 0%Q) 0
                  || Qeq_bool (nth 2 row 0%Q) 0
               then 1%Z else 0%Z).
Proof.
  apply (@target_is_read_off_next_row example_numpy
           (flat_history 9 ++ [Snapshot 9 4 10 5; Snapshot 10 3 9 5])).
  - vm_compute. reflexivity.
  - simpl. lia.
Defined.

(** ** What training does to the predictor *)

Section TrainingOutcome.
Context `{Numpy} `{Sklearn}.

Lemma fit_and_install_ok (X : list (list Q)) (y : list Z)
    (self self' : predictor) (report : train_report) :
  fit_and_install X y self = (self', inr report) ->
  exists X_train X_test y_train y_test scaler X_train_scaled X_test_scaled
         model train_accuracy test_accuracy row0,
    train_test_split X y = inr (X_train, X_test, y_train, y_test)
    /\ scaler_fit_transform X_train = inr (scaler, X_train_scaled)
    /\ scaler_transform scaler X_test = inr X_test_scaled
    /\ rf_fit X_train_scaled y_train = inr model
    /\ rf_score model X_train_scaled y_train = inr train_accuracy
    /\ rf_score model X_test_scaled y_test = inr test_accuracy
    /\ joblib_dump_model model
         (os_path_join (model_dir self) "collapse_model.pkl") = inr tt
    /\ joblib_dump_scaler scaler
         (os_path_join (model_dir self) "collapse_scaler.pkl") = inr tt
    /\ index_first X_train = inr row0
    /\ self' = installed model scaler self
    /\ report = TrainOk "collapse_predictor" train_accuracy test_accuracy
                  (length X_train) (length row0).
Proof.
  unfold fit_and_install, se_bind, se_lift.
  destruct (train_test_split X y) as [e|[[[X_train X_test] y_train] y_test]]
    eqn:Hsplit; [discriminate|].
  destruct (scaler_fit_transform X_train) as [e|[scaler X_train_scaled]]
    eqn:Hscale; [discriminate|].
  destruct (scaler_transform scaler X_test) as [e|X_test_scaled] eqn:Htr;
    [discriminate|].
  destruct (rf_fit X_train_scaled y_train) as [e|model] eqn:Hfit;
    [discriminate|].
  destruct (rf_score model X_train_scaled y_train) as [e|train_accuracy]
    eqn:Hs1; [discriminate|].
  destruct (rf_score model X_test_scaled y_test) as [e|test_accuracy]
    eqn:Hs2; [discriminate|].
  unfold set_model, set_scaler, se_bind, se_get, se_put, se_ret. cbn.
  destruct (joblib_dump_model model _) as [e|[]] eqn:Hdm; [discriminate|].
  destruct (joblib_dump_scaler scaler _) as [e|[]] eqn:Hds; [discriminate|].
  destruct (index_first X_train) as [e|row0] eqn:Hrow; [discriminate|].
  intros [= <- <-].
  exists X_train, X_test, y_train, y_test, scaler, X_train_scaled,
    X_test_scaled, model, train_accuracy, test_accuracy, row0.
  repeat split; assumption.
Qed.

(** After training, the predictor is the one before the call or the one
    with a freshly fitted pair stored. *)
Lemma train_state_cases (data : list snapshot) (self : predictor) :
  fst (train_collapse_predictor data self) = self
  \/ exists model scaler,
       fst (train_collapse_predictor data self) = installed model scaler self.
Proof.
  destruct (Nat.lt_ge_cases (length data) 10) as [Hlt|Hge].
  { rewrite train_short by assumption. now left. }
  destruct (Nat.lt_ge_cases (length data) 25) as [Hlt|Hge'].
  { rewrite train_few_examples by lia. now left. }
  destruct (prepare_features_length data Hge) as (X & y & Hprep & HX & _).
  rewrite (train_enough data self X y Hprep) by lia.
  destruct (fit_and_install_cases X y self)
    as [[e He]|(? & ? & ? & ? & scaler & ? & model & outcome & _ & _ & _
                & Hrun & _)].
  - rewrite He. now left.
  - rewrite Hrun. right. exists model, scaler. now destruct outcome.
Qed.

(** A success report comes from the split-fit-install stage, reached with
    25 snapshots or more. *)
Lemma train_ok_stage (data : list snapshot) (self self' : predictor)
    (report : train_report) :
  train_collapse_predictor data self = (self', report) ->
  (forall error, report <> TrainFailure error) ->
  (25 <= length data)%nat
  /\ exists X y,
       prepare_features data = inr (X, y)
       /\ fit_and_install X y self = (self', inr report).
Proof.
  intros Htrain Hok.
  destruct (Nat.lt_ge_cases (length data) 10) as [Hlt|Hge].
  { rewrite train_short in Htrain by assumption.
    injection Htrain as _ <-. now contradiction (Hok _ eq_refl). }
  destruct (Nat.lt_ge_cases (length data) 25) as [Hlt|Hge'].
  { rewrite train_few_examples in Htrain by lia.
    injection Htrain as _ <-. now contradiction (Hok _ eq_refl). }
  split; [exact Hge'|].
  destruct (prepare_features_length data Hge) as (X & y & Hprep & HX & _).
  rewrite (train_enough data self X y Hprep) in Htrain by lia.
  exists X, y. split; [exact Hprep|].
  destruct (fit_and_install X y self) as [self1 [e|r]]; simpl in Htrain.
  - injection Htrain as _ <-. now contradiction (Hok _ eq_refl).
  - now injection Htrain as -> ->.
Qed.

(** X11.  A success report means the whole pipeline ran: at least 25
    snapshots, the scaler fitted on the training split only, the classifier
    fitted on the scaled training split, both files written; the fitted pair
    is then resident under ['collapse'], [model_dir] and [is_trained] are
    as before (training never sets [is_trained]), [training_samples] is the
    size of the training split and [features] the length of its first
    row. *)
Theorem successful_training_installs_the_fitted_pair (data : list snapshot)
    (self self' : predictor) (model_type : string)
    (train_accuracy test_accuracy : float64) (training_samples features : nat) :
  train_collapse_predictor data self
  = (self', TrainOk model_type train_accuracy test_accuracy training_samples
              features) ->
  exists X y X_train X_test y_train y_test scaler X_train_scaled model row0,
    (25 <= length data)%nat
    /\ prepare_features data = inr (X, y)
    /\ train_test_split X y = inr (X_train, X_test, y_train, y_test)
    /\ scaler_fit_transform X_train = inr (scaler, X_train_scaled)
    /\ rf_fit X_train_scaled y_train = inr model
    /\ joblib_dump_model model
         (os_path_join (model_dir self) "collapse_model.pkl") = inr tt
    /\ joblib_dump_scaler scaler
         (os_path_join (model_dir self) "collapse_scaler.pkl") = inr tt
    /\ models self' !! "collapse" = Some model
    /\ scalers self' !! "collapse" = Some scaler
    /\ is_trained self' = is_trained self
    /\ model_dir self' = model_dir self
    /\ model_type = "collapse_predictor"
    /\ training_samples = length X_train
    /\ index_first X_train = inr row0
    /\ features = length row0.
Proof.
  intros Htrain.
  apply train_ok_stage in Htrain as (Hlen & X & y & Hprep & Hrun);
    [|discriminate].
  apply fit_and_install_ok in Hrun
    as (X_train & X_test & y_train & y_test & scaler & X_train_scaled
        & X_test_scaled & model & ta & tsa & row0 & Hsplit & Hscale & _
        & Hfit & _ & _ & Hdm & Hds & Hrow & -> & [= -> -> -> -> ->]).
  exists X, y, X_train, X_test, y_train, y_test, scaler, X_train_scaled,
    model, row0.
  repeat split; try assumption; try reflexivity.
  - apply lookup_insert_eq.
  - apply lookup_insert_eq.
Qed.

Lemma installed_keeps_invariants (model : Model) (scaler : Scaler)
    (self : predictor) :
  only_collapse_keys self ->
  only_collapse_keys (installed model scaler self)
  /\ paired (installed model scaler self).
Proof.
  intros Hk. split.
  - intros key Hkey. destruct (Hk key Hkey) as [Hm Hs]. simpl.
    now rewrite !lookup_insert_ne by congruence.
  - intros _. simpl. rewrite lookup_insert_eq. now eexists.
Qed.

(** X12.  Training keeps the dictionaries well formed: if ['collapse'] is
    the only key that may be present, and a resident classifier has its
    scaler, the same holds after [train_collapse_predictor], whatever it
    reports; [model_dir] and [is_trained] are never changed by it. *)
Theorem training_keeps_the_pair_together (data : list snapshot)
    (self : predictor) :
  only_collapse_keys self -> paired self ->
  let self' := fst (train_collapse_predictor data self) in
  only_collapse_keys self' /\ paired self'
  /\ model_dir self' = model_dir self /\ is_trained self' = is_trained self.
Proof.
  intros Hk Hp. cbv zeta.
  destruct (train_state_cases data self) as [->|(model & scaler & ->)].
  - split; [exact Hk|]. split; [exact Hp|]. now split.
  - destruct (installed_keeps_invariants model scaler self Hk) as [Hk' Hp'].
    split; [exact Hk'|]. split; [exact Hp'|]. now split.
Qed.

End TrainingOutcome.

Lemma successful_training_installs_the_fitted_pair_witness :
  let self := fresh_predictor true in
  let self' := @Predictor (example_sklearn true) (<["collapse" := 20%nat]> ∅)
                 (<["collapse" := 20%nat]> ∅) false "trained_models" in
  exists X y X_train X_test y_train y_test scaler X_train_scaled model row0,
    (25 <= length (flat_history 25))%nat
    /\ @prepare_features example_numpy (flat_history 25) = inr (X, y)
    /\ @train_test_split (example_sklearn true) X y
       = inr (X_train, X_test, y_train, y_test)
    /\ @scaler_fit_transform (example_sklearn true) X_train
       = inr (scaler, X_train_scaled)
    /\ @rf_fit (example_sklearn true) X_train_scaled y_train = inr model
    /\ @joblib_dump_model (example_sklearn true) model
         (os_path_join (model_dir self) "collapse_model.pkl") = inr tt
    /\ @joblib_dump_scaler (example_sklearn true) scaler
         (os_path_join (model_dir self) "collapse_scaler.pkl") = inr tt
    /\ models self' !! "collapse" = Some model
    /\ scalers self' !! "collapse" = Some scaler
    /\ is_trained self' = is_trained self
    /\ model_dir self' = model_dir self
    /\ "collapse_predictor" = "collapse_predictor"
    /\ 20%nat = length X_train
    /\ index_first X_train = inr row0
    /\ 19%nat = length row0.
Proof.
  apply (@successful_training_installs_the_fitted_pair example_numpy
           (example_sklearn true) (flat_history 25) (fresh_predictor true) _
           "collapse_predictor" (f64_of_Z 1) (f64_of_Z 1) 20 19).
  vm_compute. reflexivity.
Defined.

Lemma training_keeps_the_pair_together_witness :
  let self' := fst (@train_collapse_predictor example_numpy
                      (example_sklearn false) (flat_history 25)
                      (fresh_predictor false)) in
  only_collapse_keys self' /\ paired self'
  /\ model_dir self' = model_dir (fresh_predictor false)
  /\ is_trained self' = is_trained (fresh_predictor false).
Proof.
  apply (@training_keeps_the_pair_together example_numpy
           (example_sklearn false) (flat_history 25) (fresh_predictor false)).
  - intros key _. split; apply lookup_empty.
  - intros [m Hm]. discriminate Hm.
Defined.


(** ** Loading the persisted pair *)

Section LoadingProperties.
Context `{Sklearn} `{!ModelStore}.

(** X14.  What [load_models] leaves behind.  If one of the two files is
    missing, or reading the classifier raises, the predictor is unchanged.
    If both files are read, the pair is resident and [is_trained] is set.
    If the classifier is read but reading the scaler raises, the classifier
    alone has been stored: the scaler entry and [is_trained] are as before,
    and nothing is raised to the caller. *)
Theorem load_models_outcomes (self : predictor) :
  let model_path := os_path_join (model_dir self) "collapse_model.pkl" in
  let scaler_path := os_path_join (model_dir self) "collapse_scaler.pkl" in
  (os_path_exists model_path && os_path_exists scaler_path = false ->
     load_models self = self)
  /\ (forall e, joblib_load_model model_path = inl e ->
        load_models self = self)
  /\ (forall model scaler,
        os_path_exists model_path && os_path_exists scaler_path = true ->
        joblib_load_model model_path = inr model ->
        joblib_load_scaler scaler_path = inr scaler ->
        load_models self
        = Predictor _ (<["collapse" := model]> (models self))
            (<["collapse" := scaler]> (scalers self)) true (model_dir self))
  /\ (forall model e,
        os_path_exists model_path && os_path_exists scaler_path = true ->
        joblib_load_model model_path = inr model ->
        joblib_load_scaler scaler_path = inl e ->
        load_models self
        = Predictor _ (<["collapse" := model]> (models self)) (scalers self)
            (is_trained self) (model_dir self)).
Proof.
  cbv zeta.
  unfold load_models, load_models_body, se_bind, se_get, se_lift, se_ret, ret.
  cbn beta iota.
  destruct (os_path_exists _ && os_path_exists _) eqn:Hex.
  - split; [discriminate|]. split; [|split].
    + intros e He. now rewrite He.
    + intros model scaler _ Hm Hs. rewrite Hm.
      unfold set_model, set_scaler, set_is_trained, se_bind, se_get, se_put.
      cbn. now rewrite Hs.
    + intros model e _ Hm Hs. rewrite Hm.
      unfold set_model, set_scaler, se_bind, se_get, se_put.
      cbn. now rewrite Hs.
  - split; [reflexivity|]. split; [reflexivity|].
    split; intros; discriminate.
Qed.

(** X15.  The predictor built by the constructor, when [os.makedirs]
    succeeds, holds no key other than ['collapse'], points at
    [<module dir>/trained_models], and has [is_trained] set only if both
    the classifier and the scaler are resident; a failing [os.makedirs] is
    the one exception the constructor lets through. *)
Theorem constructor_outcome :
  (forall e, os_makedirs (os_path_join module_dir "trained_models") = inl e ->
     init = inl e)
  /\ (os_makedirs (os_path_join module_dir "trained_models") = inr tt ->
        exists self,
          init = inr self
          /\ only_collapse_keys self
          /\ model_dir self = os_path_join module_dir "trained_models"
          /\ (is_trained self = true ->
                is_Some (models self !! "collapse")
                /\ is_Some (scalers self !! "collapse"))
          /\ (is_Some (scalers self !! "collapse") ->
                is_Some (models self !! "collapse")
                /\ is_trained self = true)).
Proof.
  unfold init. cbn [model_dir]. split.
  { intros e He. now rewrite He. }
  intros Hmk. rewrite Hmk. cbn [bind ret].
  eexists. split; [reflexivity|].
  unfold load_models, load_models_body, se_bind, se_get, se_lift, se_ret, ret.
  cbn beta iota. cbn [model_dir].
  destruct (os_path_exists _ && os_path_exists _).
  2:{ cbn. split; [intros key _; split; simpl; apply lookup_empty|].
      split; [reflexivity|]. split; [discriminate|].
      intros [x Hx]. simpl in Hx. now rewrite lookup_empty in Hx. }
  destruct (joblib_load_model _) as [e|model].
  { cbn. split; [intros key _; split; simpl; apply lookup_empty|].
    split; [reflexivity|]. split; [discriminate|].
    intros [x Hx]. simpl in Hx. now rewrite lookup_empty in Hx. }
  unfold set_model, set_scaler, set_is_trained, se_bind, se_get, se_put.
  cbn. destruct (joblib_load_scaler _) as [e|scaler]; cbn.
  - split.
    { intros key Hkey. split; simpl; [|apply lookup_empty].
      rewrite lookup_insert_ne by congruence. apply lookup_empty. }
    split; [reflexivity|]. split; [discriminate|].
    intros [x Hx]. simpl in Hx. now rewrite lookup_empty in Hx.
  - split.
    { intros key Hkey.
      split; simpl; rewrite lookup_insert_ne by congruence;
        apply lookup_empty. }
    split; [reflexivity|].
    split; intros _; simpl; rewrite ?lookup_insert_eq; split; eauto.
Qed.
End LoadingProperties.

Section TornLoad.
Context `{Numpy} `{Sklearn} `{!ModelStore}.

(** X16.  A half-loaded pair is harmless for inference: starting from a
    predictor without a scaler, if [load_models] reads the classifier but
    fails on the scaler, every later [predict_collapse_risk] answers with
    the heuristic estimator, never with version "1.0". *)
Theorem half_loaded_pair_answers_heuristic (self : predictor) (model : Model)
    (e : exn) (recent_data : list snapshot) (steps_ahead : Z) :
  scalers self !! "collapse" = None ->
  os_path_exists (os_path_join (model_dir self) "collapse_model.pkl")
  && os_path_exists (os_path_join (model_dir self) "collapse_scaler.pkl")
  = true ->
  joblib_load_model (os_path_join (model_dir self) "collapse_model.pkl")
  = inr model ->
  joblib_load_scaler (os_path_join (model_dir self) "collapse_scaler.pkl")
  = inl e ->
  models (load_models self) !! "collapse" = Some model
  /\ predict_collapse_risk (load_models self) recent_data steps_ahead
     = heuristic_collapse_prediction recent_data.
Proof.
  intros Hs Hex Hm He.
  assert (Hload : load_models self
                  = Predictor _ (<["collapse" := model]> (models self))
                      (scalers self) (is_trained self) (model_dir self)).
  { unfold load_models, load_models_body, se_bind, se_get, se_lift, se_ret,
      ret.
    cbn beta iota. rewrite Hex, Hm.
    unfold set_model, set_scaler, se_bind, se_get, se_put. cbn.
    now rewrite He. }
  rewrite Hload. cbn [models]. split; [apply lookup_insert_eq|].
  destruct (Nat.lt_ge_cases (length recent_data) 5) as [Hlt|Hge].
  - eapply predict_fallback; [apply lookup_insert_eq|].
    now apply classifier_path_short.
  - eapply predict_fallback; [apply lookup_insert_eq|].
    unfold classifier_path.
    replace (length recent_data <? 5)%nat with false
      by (symmetry; apply Nat.ltb_ge; lia).
    rewrite infer_features_window by (rewrite last_n_length; lia).
    cbn [bind scalers]. unfold getitem. rewrite Hs. reflexivity.
Qed.
End TornLoad.

Lemma load_models_outcomes_witness :
  @load_models (example_sklearn true) (example_store true true)
    (fresh_predictor true)
  = resident_predictor true 7 8
  /\ @load_models (example_sklearn true) (example_store true false)
       (fresh_predictor true)
     = @Predictor (example_sklearn true) (<["collapse" := 7%nat]> ∅) ∅ false
         "trained_models".
Proof.
  destruct (@load_models_outcomes (example_sklearn true)
              (example_store true true) (fresh_predictor true))
    as (_ & _ & Hboth & _).
  destruct (@load_models_outcomes (example_sklearn true)
              (example_store true false) (fresh_predictor true))
    as (_ & _ & _ & Htorn).
  split.
  - apply (Hboth 7%nat 8%nat); reflexivity.
  - apply (Htorn 7%nat (LibraryError "invalid load key")); reflexivity.
Defined.

Lemma constructor_outcome_witness :
  exists self,
    @init (example_sklearn true) (example_store true true) = inr self
    /\ only_collapse_keys self
    /\ model_dir self = os_path_join "backend" "trained_models"
    /\ (is_trained self = true ->
          is_Some (models self !! "collapse")
          /\ is_Some (scalers self !! "collapse"))
    /\ (is_Some (scalers self !! "collapse") ->
          is_Some (models self !! "collapse") /\ is_trained self = true).
Proof.
  apply (@constructor_outcome (example_sklearn true) (example_store true true)).
  reflexivity.
Defined.

Lemma half_loaded_pair_answers_heuristic_witness :
  models (@load_models (example_sklearn true) (example_store true false)
            (fresh_predictor true)) !! "collapse" = Some 7%nat
  /\ @predict_collapse_risk example_numpy (example_sklearn true)
       (@load_models (example_sklearn true) (example_store true false)
          (fresh_predictor true))
       (flat_history 6) 5
     = heuristic_collapse_prediction (flat_history 6).
Proof.
  apply (@half_loaded_pair_answers_heuristic example_numpy
           (example_sklearn true) (example_store true false)
           (fresh_predictor true) 7%nat (LibraryError "invalid load key"));
    reflexivity.
Defined.

(** ** Forecasts *)

Lemma py_range_from_1 (steps : Z) :
  py_range 1 (steps + 1)
  = map (fun i => (1 + Z.of_nat i)%Z) (seq 0 (Z.to_nat steps)).
Proof. unfold py_range. do 3 f_equal. lia. Qed.

Section ForecastShape.
Context `{Numpy}.






End ForecastShape.

Section ForecastReads.
Context `{Numpy}.




(** X20.  The [/predict/populations] route answers a missing or short
    series in band: with fewer than five snapshots (none when [timeSeries]
    is absent) the body is the failure "Need at least 5 data points for
    forecasting" with status 200, and the random generator is not used. *)
Theorem populations_route_short_series (data : populations_request)
    (rng : RNG) :
  (length (match req_time_series data with Some l => l | None => [] end) < 5)%nat ->
  predict_populations data rng
  = (rng, (ForecastFailure "Need at least 5 data points for forecasting",
           200%Z)).
Proof.
  intros Hlen. unfold predict_populations, forecast_populations, forecast_body.
  now destruct (length _ <? 5)%nat eqn:E; [|apply Nat.ltb_ge in E; lia].
Qed.
End ForecastReads.



Lemma populations_route_short_series_witness :
  @predict_populations example_numpy (PopulationsRequest None (Some 3%Z)) tt
  = (tt, (ForecastFailure "Need at least 5 data points for forecasting",
          200%Z)).
Proof.
  apply (@populations_route_short_series example_numpy
           (PopulationsRequest None (Some 3%Z)) tt).
  simpl. lia.
Defined.

(** ** Relations between the features of one window *)

Section FeatureRelations.
Context `{Numpy}.

Lemma window_extremes (f : snapshot -> Q) (s1 s2 s3 s4 s5 : snapshot) :
  let mn := py_min2 (py_min2 (py_min2 (py_min2 (f s1) (f s2)) (f s3)) (f s4))
              (f s5) in
  let mx := py_max2 (py_max2 (py_max2 (py_max2 (f s1) (f s2)) (f s3)) (f s4))
              (f s5) in
  (forall s, In s [s1; s2; s3; s4; s5] -> (mn <= f s <= mx)%Q)
  /\ In mn (map f [s1; s2; s3; s4; s5])
  /\ In mx (map f [s1; s2; s3; s4; s5]).
Proof.
  cbv zeta.
  destruct (min_from_spec [f s2; f s3; f s4; f s5] (f s1)) as [Hmin_in Hmin].
  destruct (max_from_spec [f s2; f s3; f s4; f s5] (f s1)) as [Hmax_in Hmax].
  split; [|split; [exact Hmin_in|exact Hmax_in]].
  intros s Hs. apply (in_map f) in Hs. split; [now apply Hmin|now apply Hmax].
Qed.

(** X21.  In every feature vector the window minimum and maximum of a
    species (entries 13/14, 15/16, 17/18, counted from 0) are values taken
    in the window and they bracket every value of the window, in particular
    the current one (entries 0, 1, 2). *)
Theorem extremes_bracket_the_window (w : list snapshot) (v : list Q) :
  length w = 5%nat ->
  infer_features w = inr v ->
  let entry k := nth k v 0%Q in
  (forall s, In s w -> (entry 13%nat <= plants s <= entry 14%nat)%Q)
  /\ (forall s, In s w -> (entry 15%nat <= herbivores s <= entry 16%nat)%Q)
  /\ (forall s, In s w -> (entry 17%nat <= carnivores s <= entry 18%nat)%Q)
  /\ (entry 13%nat <= entry 0%nat <= entry 14%nat)%Q
  /\ (entry 15%nat <= entry 1%nat <= entry 16%nat)%Q
  /\ (entry 17%nat <= entry 2%nat <= entry 18%nat)%Q
  /\ In (entry 13%nat) (map plants w) /\ In (entry 14%nat) (map plants w)
  /\ In (entry 15%nat) (map herbivores w)
  /\ In (entry 16%nat) (map herbivores w)
  /\ In (entry 17%nat) (map carnivores w)
  /\ In (entry 18%nat) (map carnivores w).
Proof.
  intros Hw Hv.
  destruct (five_snapshots w Hw) as (s1 & s2 & s3 & s4 & s5 & ->).
  rewrite infer_features_five in Hv. injection Hv as <-.
  cbv zeta. unfold feature_vector. cbn [nth].
  destruct (window_extremes plants s1 s2 s3 s4 s5) as (Hp & Hp1 & Hp2).
  destruct (window_extremes herbivores s1 s2 s3 s4 s5) as (Hh & Hh1 & Hh2).
  destruct (window_extremes carnivores s1 s2 s3 s4 s5) as (Hc & Hc1 & Hc2).
  assert (H5 : In s5 [s1; s2; s3; s4; s5]) by (simpl; tauto).
  split; [exact Hp|]. split; [exact Hh|]. split; [exact Hc|].
  split; [exact (Hp s5 H5)|]. split; [exact (Hh s5 H5)|].
  split; [exact (Hc s5 H5)|]. now repeat split.
Qed.

(** X22.  What flooring the denominator does to the ratios (entries 6, 7
    and 8): when the divisor count is at least 1 the ratio is the plain
    quotient, and when it is below 1 (zero included) the ratio is the
    numerator itself. *)
Theorem ratio_with_floored_denominator (w : list snapshot) (v : list Q)
    (current : snapshot) :
  length w = 5%nat ->
  infer_features w = inr v ->
  index_last w = inr current ->
  let entry k := nth k v 0%Q in
  ((1 <= herbivores current)%Q ->
     (entry 6%nat == plants current / herbivores current)%Q
     /\ (entry 8%nat == carnivores current / herbivores current)%Q)
  /\ ((herbivores current < 1)%Q ->
        (entry 6%nat == plants current)%Q
        /\ (entry 8%nat == carnivores current)%Q)
  /\ ((1 <= carnivores current)%Q ->
        (entry 7%nat == herbivores current / carnivores current)%Q)
  /\ ((carnivores current < 1)%Q ->
        (entry 7%nat == herbivores current)%Q).
Proof.
  intros Hw Hv Hlast.
  destruct (five_snapshots w Hw) as (s1 & s2 & s3 & s4 & s5 & ->).
  rewrite infer_features_five in Hv. injection Hv as <-.
  cbn in Hlast. injection Hlast as <-.
  cbv zeta. unfold feature_vector. cbn [nth].
  assert (Hge : forall x, (1 <= x)%Q -> py_max2 x 1 = x).
  { intros x Hx. unfold py_max2.
    destruct (Qlt_bool x 1) eqn:E; [|reflexivity].
    apply Qlt_bool_iff in E. exfalso. revert E. now apply Qle_not_lt. }
  assert (Hlt : forall x, (x < 1)%Q -> py_max2 x 1 = 1%Q).
  { intros x Hx. unfold py_max2. now apply Qlt_bool_iff in Hx as ->. }
  assert (Hone : forall x, (x / 1 == x)%Q) by (intros x; field).
  split; [intros Hc; split; rewrite (Hge _ Hc); reflexivity|].
  split; [intros Hc; split; rewrite (Hlt _ Hc); apply Hone|].
  split; [intros Hc; rewrite (Hge _ Hc); reflexivity|].
  intros Hc. rewrite (Hlt _ Hc). apply Hone.
Qed.
End FeatureRelations.

Lemma extremes_bracket_the_window_witness :
  let v := match @infer_features example_numpy
                   [Snapshot 0 9 1 1; Snapshot 1 7 1 0; Snapshot 2 6 0 0;
                    Snapshot 3 6 0 0; Snapshot 4 8 0 0]
           with inr v => v | inl _ => [] end in
  (nth 13 v 0 <= nth 0 v 0 <= nth 14 v 0)%Q
  /\ (nth 15 v 0 <= nth 1 v 0 <= nth 16 v 0)%Q
  /\ (nth 17 v 0 <= nth 2 v 0 <= nth 18 v 0)%Q.
Proof.
  cbv zeta.
  destruct (@extremes_bracket_the_window example_numpy
              [Snapshot 0 9 1 1; Snapshot 1 7 1 0; Snapshot 2 6 0 0;
               Snapshot 3 6 0 0; Snapshot 4 8 0 0]
              (match @infer_features example_numpy
                       [Snapshot 0 9 1 1; Snapshot 1 7 1 0; Snapshot 2 6 0 0;
                        Snapshot 3 6 0 0; Snapshot 4 8 0 0]
               with inr v => v | inl _ => [] end))
    as (_ & _ & _ & H0 & H1 & H2 & _).
  - reflexivity.
  - vm_compute. reflexivity.
  - split; [exact H0|]. split; [exact H1|exact H2].
Defined.

Lemma ratio_with_floored_denominator_witness :
  let v := match @infer_features example_numpy
                   [Snapshot 0 9 1 1; Snapshot 1 7 1 0; Snapshot 2 6 0 0;
                    Snapshot 3 6 0 0; Snapshot 4 8 0 3]
           with inr v => v | inl _ => [] end in
  (nth 6 v 0 == 8)%Q /\ (nth 8 v 0 == 3)%Q /\ (nth 7 v 0 == 0 / 3)%Q.
Proof.
  cbv zeta.
  destruct (@ratio_with_floored_denominator example_numpy
              [Snapshot 0 9 1 1; Snapshot 1 7 1 0; Snapshot 2 6 0 0;
               Snapshot 3 6 0 0; Snapshot 4 8 0 3]
              (match @infer_features example_numpy
                       [Snapshot 0 9 1 1; Snapshot 1 7 1 0; Snapshot 2 6 0 0;
                        Snapshot 3 6 0 0; Snapshot 4 8 0 3]
               with inr v => v | inl _ => [] end)
              (Snapshot 4 8 0 3))
    as (_ & Hlow & Hhigh & _).
  - reflexivity.
  - vm_compute. reflexivity.
  - reflexivity.
  - destruct Hlow as [H6 H8]; [reflexivity|].
    split; [exact H6|]. split; [exact H8|]. apply Hhigh. discriminate.
Defined.

(** ** From training to the next prediction *)

Section TrainThenPredict.
Context `{Numpy} `{Sklearn}.

Lemma classifier_path_ok (self : predictor) (recent_data : list snapshot)
    (model : Model) (scaler : Scaler) (features_scaled : Scaled)
    (row : list float64) (rest : list (list float64)) (p : float64)
    (importance_ : list float64) :
  models self !! "collapse" = Some model ->
  scalers self !! "collapse" = Some scaler ->
  (5 <= length recent_data)%nat ->
  scaler_transform scaler [window_vector (last_n 5 recent_data)]
  = inr features_scaled ->
  predict_proba model features_scaled = inr (row :: rest) ->
  nth_error row 1 = Some p ->
  feature_importances model = inr importance_ ->
  exists confidence,
    f64_max row = inr confidence
    /\ classifier_path self recent_data
       = inr (RiskResult p confidence (top_factors importance_) "1.0").
Proof.
  intros Hm Hs Hlen Hsc Hpp Hp Hfi.
  destruct row as [|x0 row']; [discriminate|].
  exists (f64_max_from x0 row'). split; [reflexivity|].
  unfold classifier_path.
  replace (length recent_data <? 5)%nat with false
    by (symmetry; apply Nat.ltb_ge; lia).
  rewrite infer_features_window by (rewrite last_n_length; lia).
  cbn [bind]. unfold getitem. rewrite Hs, Hm. cbn [bind ret].
  rewrite Hsc. cbn [bind]. rewrite Hpp. cbn [bind index_first ret].
  unfold index_at. rewrite Hp. cbn [bind ret f64_max].
  rewrite Hfi. reflexivity.
Qed.

(** X23.  After a success report, the very next [predict_collapse_risk] on
    five snapshots or more is answered by the pair just fitted: whenever
    that scaler transforms the feature vector of the last five snapshots,
    that classifier returns a probability row with a second entry and
    exposes its importances, the answer has version "1.0", the second
    probability as risk, the row maximum as confidence and the leading
    importances as factors. *)
Theorem trained_pair_answers_the_next_prediction (data : list snapshot)
    (self self' : predictor) (model_type : string)
    (train_accuracy test_accuracy : float64) (training_samples features : nat) :
  train_collapse_predictor data self
  = (self', TrainOk model_type train_accuracy test_accuracy training_samples
              features) ->
  exists model scaler,
    models self' !! "collapse" = Some model
    /\ scalers self' !! "collapse" = Some scaler
    /\ forall (recent_data : list snapshot) (steps_ahead : Z)
         (features_scaled : Scaled) (row : list float64)
         (rest : list (list float64)) (p : float64)
         (importance_ : list float64),
         (5 <= length recent_data)%nat ->
         scaler_transform scaler [window_vector (last_n 5 recent_data)]
         = inr features_scaled ->
         predict_proba model features_scaled = inr (row :: rest) ->
         nth_error row 1 = Some p ->
         feature_importances model = inr importance_ ->
         exists confidence,
           f64_max row = inr confidence
           /\ predict_collapse_risk self' recent_data steps_ahead
              = inr (RiskResult p confidence (top_factors importance_) "1.0").
Proof.
  intros Htrain.
  apply train_ok_stage in Htrain as (_ & X & y & _ & Hrun); [|discriminate].
  apply fit_and_install_ok in Hrun
    as (X_train & X_test & y_train & y_test & scaler & X_train_scaled
        & X_test_scaled & model & ta & tsa & row0 & _ & _ & _ & _ & _ & _
        & _ & _ & _ & -> & _).
  assert (Hm : models (installed model scaler self) !! "collapse" = Some model)
    by apply lookup_insert_eq.
  assert (Hs : scalers (installed model scaler self) !! "collapse"
               = Some scaler) by apply lookup_insert_eq.
  exists model, scaler. split; [exact Hm|]. split; [exact Hs|].
  intros recent_data steps_ahead features_scaled row rest p importance_
    Hlen Hsc Hpp Hp Hfi.
  destruct (classifier_path_ok _ recent_data model scaler features_scaled
              row rest p importance_ Hm Hs Hlen Hsc Hpp Hp Hfi)
    as (confidence & Hmax & Hpath).
  exists confidence. split; [exact Hmax|].
  now rewrite (predict_with_model _ _ _ model Hm), Hpath.
Qed.
End TrainThenPredict.

Lemma trained_pair_answers_the_next_prediction_witness :
  exists confidence,
    f64_max [f64_lit 1 4; f64_lit 3 4] = inr confidence
    /\ @predict_collapse_risk example_numpy (example_sklearn true)
         (fst (@train_collapse_predictor example_numpy (example_sklearn true)
                 (flat_history 25) (fresh_predictor true)))
         (flat_history 7) 5
       = inr (RiskResult (f64_lit 3 4) confidence
                (top_factors (repeat (f64_lit 1 19) 19)) "1.0").
Proof.
  destruct (@trained_pair_answers_the_next_prediction example_numpy
              (example_sklearn true) (flat_history 25) (fresh_predictor true)
              (fst (@train_collapse_predictor example_numpy
                      (example_sklearn true) (flat_history 25)
                      (fresh_predictor true)))
              "collapse_predictor" (f64_of_Z 1) (f64_of_Z 1) 20 19)
    as (model & scaler & _ & _ & Hnext).
  - vm_compute. reflexivity.
  - apply (Hnext (flat_history 7) 5%Z
             [@window_vector example_numpy (last_n 5 (flat_history 7))]
             [f64_lit 1 4; f64_lit 3 4] [] (f64_lit 3 4)
             (repeat (f64_lit 1 19) 19)); try reflexivity.
    simpl. lia.
Defined.

(** * The service on Python's own numbers: properties *)

(** ** Rounding to binary64 *)

Lemma digits2_pos_bound (m : positive) :
  forall k : Z, (Zpos (digits2_pos m) <= k)%Z -> (Zpos m < 2 ^ k)%Z.
Proof.
  induction m as [p IH|p IH|]; intros k Hk; cbn [digits2_pos] in Hk.
  - rewrite Pos2Z.inj_succ in Hk.
    specialize (IH (k - 1)%Z ltac:(lia)).
    replace k with (Z.succ (k - 1)) by lia.
    rewrite Z.pow_succ_r by lia. lia.
  - rewrite Pos2Z.inj_succ in Hk.
    specialize (IH (k - 1)%Z ltac:(lia)).
    replace k with (Z.succ (k - 1)) by lia.
    rewrite Z.pow_succ_r by lia. lia.
  - assert (1 < 2 ^ k)%Z by (apply Z.pow_gt_1; lia). lia.
Qed.

Lemma shr_1_digits (mrs : shr_record) :
  Zdigits2 (shr_m (shr_1 mrs)) = Z.max 0 (Zdigits2 (shr_m mrs) - 1).
Proof.
  destruct mrs as [[|[p|p|]|[p|p|]] r s]; cbn [shr_1 shr_m Zdigits2 digits2_pos];
    rewrite ?Pos2Z.inj_succ; lia.
Qed.

Lemma iter_shr_1_digits (p : positive) :
  forall mrs : shr_record,
    Zdigits2 (shr_m (SpecFloat.iter_pos shr_1 p mrs))
    = Z.max 0 (Zdigits2 (shr_m mrs) - Zpos p).
Proof.
  induction p as [p IH|p IH|]; intros mrs; cbn [SpecFloat.iter_pos].
  - rewrite !IH, shr_1_digits. lia.
  - rewrite !IH. lia.
  - apply shr_1_digits.
Qed.

Lemma shr_record_of_loc_m (m : Z) (l : location) :
  shr_m (shr_record_of_loc m l) = m.
Proof. now destruct l as [|[]]. Qed.

Lemma shr_fexp_bounds (m e : Z) (l : location) (mrs : shr_record) (e2 : Z) :
  shr_fexp 53 1024 m e l = (mrs, e2) ->
  (Zdigits2 (shr_m mrs) <= 53)%Z /\ (-1074 <= e2)%Z.
Proof.
  unfold shr_fexp, shr, fexp, emin.
  destruct (Z.max (Zdigits2 m + e - 53) (3 - 1024 - 53) - e)%Z as [|p|p] eqn:E;
    intros [= <- <-]; rewrite ?iter_shr_1_digits, shr_record_of_loc_m; lia.
Qed.

Lemma binary_round_aux_spec (sx : bool) (mx ex : Z) (lx : location) :
  Machine.well_formed (binary_round_aux 53 1024 sx mx ex lx)
  /\ (binary_round_aux 53 1024 sx mx ex lx = S754_nan
      \/ Machine.sign_bit (binary_round_aux 53 1024 sx mx ex lx) = sx).
Proof.
  unfold binary_round_aux.
  destruct (shr_fexp 53 1024 mx ex lx) as [mrs' e'].
  destruct (shr_fexp 53 1024 _ e' loc_Exact) as [mrs'' e''] eqn:E.
  apply shr_fexp_bounds in E as [Hd He].
  destruct (shr_m mrs'') as [|m|m]; cbn [Zdigits2] in Hd.
  - split; [exact I|now right].
  - destruct (e'' <=? 1024 - 53)%Z eqn:L.
    + apply Z.leb_le in L. split; [|now right].
      split; [now apply digits2_pos_bound|lia].
    + split; [exact I|now right].
  - split; [exact I|now left].
Qed.

Lemma SFmul_spec (x y : float64) :
  Machine.well_formed (SFmul 53 1024 x y)
  /\ (SFmul 53 1024 x y = S754_nan
      \/ Machine.sign_bit (SFmul 53 1024 x y)
         = xorb (Machine.sign_bit x) (Machine.sign_bit y)).
Proof.
  destruct x as [sx|sx| |sx mx ex], y as [sy|sy| |sy my ey];
    cbn [SFmul Machine.sign_bit Machine.well_formed];
    try (split; [exact I|tauto]).
  apply binary_round_aux_spec.
Qed.

Lemma rank_bounds (f : float64) :
  Machine.well_formed f -> (0 <= Machine.rank f <= 2 ^ 64)%Z.
Proof.
  destruct f as [s|s| |s m e]; cbn [Machine.well_formed Machine.rank];
    lia.
Qed.

Lemma SFltb_rank (x y : float64) :
  Machine.well_formed x -> Machine.well_formed y ->
  Machine.sign_bit x = false -> Machine.sign_bit y = false ->
  SFltb x y = true -> (Machine.rank x < Machine.rank y)%Z.
Proof.
  unfold SFltb.
  destruct x as [sx|sx| |sx mx ex], y as [sy|sy| |sy my ey];
    cbn [Machine.well_formed Machine.rank Machine.sign_bit SFcompare];
    intros Hx Hy Hsx Hsy; subst; try discriminate; try lia.
  destruct (Z.compare_spec ex ey) as [E|E|E]; try discriminate.
  - subst ey.
    change (Pos.compare_cont Eq mx my) with (mx ?= my)%positive.
    destruct (Pos.compare_spec mx my) as [Em|Em|Em]; try discriminate.
    lia.
  - lia.
Qed.

Lemma digits2_pos_le (m : positive) :
  forall k : Z, (Zpos m < 2 ^ k)%Z -> (Zpos (digits2_pos m) <= k)%Z.
Proof.
  induction m as [p IH|p IH|]; intros k Hk; cbn [digits2_pos].
  - assert (0 < k)%Z.
    { destruct (Z.ltb_spec 0 k); [assumption|].
      destruct (Z.eq_dec k 0%Z) as [->|]; [cbn in Hk; lia|].
      rewrite Z.pow_neg_r in Hk by lia. lia. }
    rewrite Pos2Z.inj_succ. specialize (IH (k - 1)%Z).
    replace k with (Z.succ (k - 1)) in Hk by lia.
    rewrite Z.pow_succ_r in Hk by lia. lia.
  - assert (0 < k)%Z.
    { destruct (Z.ltb_spec 0 k); [assumption|].
      destruct (Z.eq_dec k 0%Z) as [->|]; [cbn in Hk; lia|].
      rewrite Z.pow_neg_r in Hk by lia. lia. }
    rewrite Pos2Z.inj_succ. specialize (IH (k - 1)%Z).
    replace k with (Z.succ (k - 1)) in Hk by lia.
    rewrite Z.pow_succ_r in Hk by lia. lia.
  - destruct (Z.ltb_spec 0 k); [lia|].
    destruct (Z.eq_dec k 0%Z) as [->|]; [cbn in Hk; lia|].
    rewrite Z.pow_neg_r in Hk by lia. lia.
Qed.

Lemma Zdigits2_le (m k : Z) :
  (Z.abs m < 2 ^ k)%Z -> (0 <= k)%Z -> (Zdigits2 m <= k)%Z.
Proof.
  destruct m as [|p|p]; cbn [Zdigits2 Z.abs]; intros Hm Hk; [lia| |];
    now apply digits2_pos_le.
Qed.

Lemma digits2_pos_shift (p d : positive) :
  digits2_pos (Pos.iter xO p d) = (digits2_pos p + d)%positive.
Proof.
  induction d as [|d IH] using Pos.peano_ind.
  - cbn. lia.
  - rewrite Pos.iter_succ. cbn [digits2_pos]. rewrite IH. lia.
Qed.

Lemma shr_fexp_exponent (m e : Z) (l : location) (mrs : shr_record) (e2 : Z) :
  shr_fexp 53 1024 m e l = (mrs, e2) ->
  e2 = Z.max e (Z.max (Zdigits2 m + e - 53) (-1074)).
Proof.
  unfold shr_fexp, shr, fexp, emin.
  destruct (Z.max (Zdigits2 m + e - 53) (3 - 1024 - 53) - e)%Z as [|p|p] eqn:E;
    intros [= _ <-]; lia.
Qed.

Lemma Zdigits2_bound (m k : Z) :
  (Zdigits2 m <= k)%Z -> (Z.abs m < 2 ^ k)%Z.
Proof.
  destruct m as [|p|p]; cbn [Zdigits2 Z.abs]; intros Hm.
  - apply Z.pow_pos_nonneg; lia.
  - now apply digits2_pos_bound.
  - now apply digits2_pos_bound.
Qed.

Lemma round_nearest_even_step (m : Z) (l : location) :
  round_nearest_even m l = m \/ round_nearest_even m l = (m + 1)%Z.
Proof.
  destruct l as [|[]]; cbn [round_nearest_even]; auto.
  destruct (Z.even m); auto.
Qed.

(** Rounding an integer below 2^1023 in magnitude to binary64 does not
    overflow. *)
Lemma binary_round_finite (s s' : bool) (p : positive) :
  (Zpos p < 2 ^ 1023)%Z ->
  binary_round 53 1024 s p 0 <> S754_infinity s'.
Proof.
  intros Hp. apply digits2_pos_le in Hp. unfold binary_round.
  destruct (shl_align p 0 (fexp 53 1024 (Zpos (digits2_pos p) + 0)))
    as [mz ez] eqn:Hal.
  assert (HA : (Zpos (digits2_pos mz) + ez = Zpos (digits2_pos p))%Z
               /\ (ez <= 0)%Z).
  { unfold shl_align in Hal.
    destruct (fexp 53 1024 (Zpos (digits2_pos p) + 0) - 0)%Z as [|d|d] eqn:E;
      injection Hal as <- <-; [lia|lia|].
    rewrite digits2_pos_shift, Pos2Z.inj_add. lia. }
  destruct HA as [Hsum Hez].
  unfold binary_round_aux.
  destruct (shr_fexp 53 1024 (Zpos mz) ez loc_Exact) as [mrs' e'] eqn:E1.
  destruct (shr_fexp 53 1024
              (round_nearest_even (shr_m mrs') (loc_of_shr_record mrs')) e'
              loc_Exact) as [mrs'' e''] eqn:E2.
  pose proof (shr_fexp_exponent _ _ _ _ _ E1) as He'.
  cbn [Zdigits2] in He'.
  destruct (shr_fexp_bounds _ _ _ _ _ E1) as [Hd' _].
  pose proof (shr_fexp_exponent _ _ _ _ _ E2) as He''.
  assert (Hd1 : (Zdigits2 (round_nearest_even (shr_m mrs')
                             (loc_of_shr_record mrs')) <= 54)%Z).
  { apply Zdigits2_le; [|lia]. apply Zdigits2_bound in Hd'.
    change (2 ^ 54)%Z with (2 * 2 ^ 53)%Z.
    destruct (round_nearest_even_step (shr_m mrs') (loc_of_shr_record mrs'))
      as [-> | ->]; lia. }
  destruct (shr_m mrs''); try discriminate.
  destruct (Z.leb_spec e'' (1024 - 53)); [discriminate|lia].
Qed.

Lemma f64_of_Z_finite (z : Z) (s : bool) :
  (Z.abs z < 2 ^ 1023)%Z -> f64_of_Z z <> S754_infinity s.
Proof.
  intros Hz. destruct z as [|p|p]; cbn [f64_of_Z binary_normalize];
    unfold f64_of_Z, binary_normalize; [discriminate| |];
    now apply binary_round_finite.
Qed.

Lemma binary_normalize_sign (z e : Z) :
  (0 < z)%Z -> Machine.sign_bit (binary_normalize 53 1024 z e false) = false.
Proof.
  intros Hz. destruct z as [|p|p]; try lia.
  unfold binary_normalize, binary_round.
  destruct (shl_align _ _ _) as [mz ez].
  now destruct (binary_round_aux_spec false (Zpos mz) ez loc_Exact)
    as [_ [->|Hs]].
Qed.

(** ** Forecast confidence in binary64 *)

Lemma float_of_int_values (z : Z) (y : float64) :
  Machine.float_of_int z = inr y -> y = f64_of_Z z.
Proof.
  unfold Machine.float_of_int.
  destruct (f64_of_Z z); try discriminate; now intros [= <-].
Qed.

Section MachineForecast.
Context `{Numpy} `{Machine.Libm}.

Lemma machine_forecast_confidence_spec (steps : Z) (conf : float64) :
  Machine.forecast_confidence steps = inr conf <->
  exists y p,
    Machine.float_of_int steps = inr y
    /\ Machine.float_pow (f64_lit 9 10) y = inr p
    /\ conf = SFmul 53 1024 (f64_lit 8 10) p.
Proof.
  unfold Machine.forecast_confidence, Machine.py_pow. split.
  - destruct (Machine.float_of_int steps) as [|y]; cbn [bind];
      [discriminate|].
    destruct (Machine.float_pow (f64_lit 9 10) y) as [|p] eqn:Hp;
      cbn [bind ret]; [discriminate|].
    intros [= <-]. now exists y, p.
  - intros (y & p & -> & Hp & ->). cbn [bind]. now rewrite Hp.
Qed.

Lemma machine_forecast_ok (data : list snapshot) (steps : Z)
    (rng rng' : RNG) preds conf tr hz :
  Machine.forecast_populations data steps rng
  = (rng', Machine.ForecastOk preds conf tr hz) ->
  Machine.forecast_confidence steps = inr conf
  /\ hz = steps /\ (5 <= length data)%nat
  /\ forecast_loop data (py_range 1 (steps + 1)) [] rng = (rng', inr preds).
Proof.
  unfold Machine.forecast_populations, Machine.forecast_body.
  destruct (Nat.ltb_spec (length data) 5) as [|Hlen]; [discriminate|].
  unfold se_bind at 1.
  destruct (forecast_loop data (py_range 1 (steps + 1)) [] rng)
    as [rng1 [e|forecasts]]; [discriminate|].
  unfold se_bind at 1, se_lift at 1.
  destruct (Machine.forecast_confidence steps) as [e|c]; [discriminate|].
  destruct (5 <=? length data)%nat.
  - unfold se_bind, se_lift, se_ret.
    destruct (trend_of data plants); [discriminate|].
    destruct (trend_of data herbivores); [discriminate|].
    destruct (trend_of data carnivores); [discriminate|].
    intros [= <- <- <- <- <-]. now repeat split.
  - unfold se_bind, se_ret. intros [= <- <- <- <- <-]. now repeat split.
Qed.

Lemma machine_forecast_confidence_raises (data : list snapshot) (steps : Z)
    (rng rng' : RNG) (e : exn) (r : Machine.forecast_response) :
  Machine.forecast_confidence steps = inl e ->
  Machine.forecast_populations data steps rng = (rng', r) ->
  exists msg, r = Machine.ForecastFailure msg.
Proof.
  intros He.
  unfold Machine.forecast_populations, Machine.forecast_body.
  destruct (length data <? 5)%nat.
  { unfold se_lift. intros [= _ <-]. now eexists. }
  unfold se_bind at 1.
  destruct (forecast_loop data (py_range 1 (steps + 1)) [] rng)
    as [rng1 [e1|forecasts]]; [intros [= _ <-]; now eexists|].
  unfold se_bind at 1, se_lift at 1. rewrite He.
  intros [= _ <-]. now eexists.
Qed.

(** C9 (as the code has it).  Every successful forecast over [steps] steps
    reports the confidence 0.8 * (0.9 ** steps) computed in binary64: the
    horizon is converted to a float, the C library's [pow] is applied to
    0.9, and the product with 0.8 is rounded.  The value is the same for
    every history and every state of the random generator.  With a
    correctly rounded [pow], seven steps give 0.38263752000000006, which is
    above the float nearest to 0.38263752.  When the power raises (an
    [OverflowError] for a horizon beyond the range of a float, or from
    [pow]), the forecast is a failure report. *)
Theorem C9_forecast_confidence_in_binary64 (data : list snapshot)
    (steps : Z) (rng rng' : RNG) preds conf tr hz :
  Machine.forecast_populations data steps rng
  = (rng', Machine.ForecastOk preds conf tr hz) ->
  (exists p,
     Machine.float_pow (f64_lit 9 10) (f64_of_Z steps) = inr p
     /\ conf = SFmul 53 1024 (f64_lit 8 10) p)
  /\ Machine.forecast_confidence steps = inr conf
  /\ (forall data2 rng2 rng2' preds2 conf2 tr2 hz2,
        Machine.forecast_populations data2 steps rng2
        = (rng2', Machine.ForecastOk preds2 conf2 tr2 hz2) ->
        conf2 = conf)
  /\ (steps = 7%Z ->
      Machine.float_pow (f64_lit 9 10) (f64_of_Z 7)
      = inr (S754_finite false 8616230962449855 (-54)) ->
      conf = S754_finite false 6892984769959884 (-54)
      /\ SFltb (f64_lit 38263752 100000000) conf = true)
  /\ (forall steps2 e data2 rng2 rng2' r,
        Machine.forecast_confidence steps2 = inl e ->
        Machine.forecast_populations data2 steps2 rng2 = (rng2', r) ->
        exists msg, r = Machine.ForecastFailure msg).
Proof.
  intros Hok. apply machine_forecast_ok in Hok as (Hconf & _ & _ & _).
  pose proof (proj1 (machine_forecast_confidence_spec _ _) Hconf)
    as (y & p & Hy & Hp & Hc).
  apply float_of_int_values in Hy. subst y.
  split; [now exists p|]. split; [exact Hconf|]. split; [|split].
  - intros data2 rng2 rng2' preds2 conf2 tr2 hz2 Hok2.
    apply machine_forecast_ok in Hok2 as (Hconf2 & _). congruence.
  - intros -> Hp7. rewrite Hp7 in Hp. injection Hp as <-. subst conf.
    split; vm_compute; reflexivity.
  - intros steps2 e data2 rng2 rng2' r.
    apply machine_forecast_confidence_raises.
Qed.

(** X18.  The confidence of a successful forecast is never negative, as
    long as the [pow] of a positive base is not: it is a NaN or has a clear
    sign bit, and it may be exactly 0.0.  With [steps <= 0] no prediction is
    made and the random generator is left untouched. *)
Theorem forecast_confidence_is_not_negative (data : list snapshot)
    (steps : Z) (rng rng' : RNG) preds conf tr hz :
  Machine.forecast_populations data steps rng
  = (rng', Machine.ForecastOk preds conf tr hz) ->
  (forall y p, Machine.float_pow (f64_lit 9 10) y = inr p ->
               Machine.sign_bit p = false) ->
  Machine.well_formed conf
  /\ (conf = S754_nan \/ Machine.sign_bit conf = false)
  /\ SFltb conf (f64_of_Z 0) = false
  /\ ((steps <= 0)%Z -> preds = [] /\ rng' = rng).
Proof.
  intros Hok Hpow. apply machine_forecast_ok in Hok as (Hconf & _ & _ & Hloop).
  apply machine_forecast_confidence_spec in Hconf as (y & p & _ & Hp & ->).
  apply Hpow in Hp.
  destruct (SFmul_spec (f64_lit 8 10) p) as [Hwf Hsign].
  rewrite Hp in Hsign.
  change (Machine.sign_bit (f64_lit 8 10)) with false in Hsign.
  cbn [xorb] in Hsign.
  split; [exact Hwf|]. split; [exact Hsign|]. split.
  - destruct Hsign as [->|Hs]; [reflexivity|].
    destruct (SFmul 53 1024 (f64_lit 8 10) p) as [s|s| |s m e];
      cbn [Machine.sign_bit] in Hs; subst; reflexivity.
  - intros Hs. rewrite py_range_from_1 in Hloop.
    replace (Z.to_nat steps) with 0%nat in Hloop by lia.
    cbn in Hloop. unfold se_ret in Hloop. now injection Hloop as <- <-.
Qed.
End MachineForecast.

Lemma C9_forecast_confidence_in_binary64_witness :
  exists rng' preds tr hz,
    @Machine.forecast_populations example_numpy Machine.example_libm
      (flat_history 5) 7 tt
    = (rng', Machine.ForecastOk preds
               (S754_finite false 6892984769959884 (-54)) tr hz)
    /\ SFltb (f64_lit 38263752 100000000)
         (S754_finite false 6892984769959884 (-54)) = true.
Proof.
  exists tt, (map (fun s => Prediction (4 + s) 50 10 5) (py_range 1 8)),
    (Trends Stable Stable Stable), 7%Z.
  assert (Hrun : @Machine.forecast_populations example_numpy
                   Machine.example_libm (flat_history 5) 7 tt
                 = (tt, Machine.ForecastOk
                          (map (fun s => Prediction (4 + s) 50 10 5)
                             (py_range 1 8))
                          (S754_finite false 6892984769959884 (-54))
                          (Trends Stable Stable Stable) 7%Z))
    by (vm_compute; reflexivity).
  split; [exact Hrun|].
  destruct (@C9_forecast_confidence_in_binary64 example_numpy
              Machine.example_libm (flat_history 5) 7 tt tt _ _ _ _ Hrun)
    as (_ & _ & _ & H7 & _).
  apply H7; vm_compute; reflexivity.
Defined.

Lemma forecast_confidence_is_not_negative_witness :
  SFltb (S754_finite false 6892984769959884 (-54)) (f64_of_Z 0) = false.
Proof.
  apply (@forecast_confidence_is_not_negative example_numpy
           Machine.example_libm (flat_history 5) 7 tt tt
           (map (fun s => Prediction (4 + s) 50 10 5) (py_range 1 8))
           (S754_finite false 6892984769959884 (-54))
           (Trends Stable Stable Stable) 7%Z).
  - vm_compute. reflexivity.
  - intros y p. cbn [Machine.float_pow Machine.example_libm].
    change (f64_lit 9 10) with (S754_finite false 8106479329266893 (-53)).
    destruct (Machine.integer_of_float y) as [n|]; [|discriminate].
    destruct (Z.leb_spec 0 n); [|discriminate]. intros [= <-].
    apply binary_normalize_sign. apply Z.pow_pos_nonneg; lia.
Defined.

(** The reported confidences cannot decrease strictly along the horizons 0,
    1, 2, ..., 2^64 + 1, whatever [pow] returns for the positive base 0.9:
    binary64 has fewer than 2^64 non-negative values. *)
Lemma C9_confidence_cannot_decrease_forever :
  ~ exists L : Machine.Libm,
      (forall y p, @Machine.float_pow L (f64_lit 9 10) y = inr p ->
                   Machine.sign_bit p = false)
      /\ forall steps, (0 <= steps <= 2 ^ 64)%Z ->
           exists c c',
             @Machine.forecast_confidence L steps = inr c
             /\ @Machine.forecast_confidence L (steps + 1) = inr c'
             /\ SFltb c' c = true.
Proof.
  intros (L & Hpow & Hdec).
  assert (Hconf : forall steps c,
            @Machine.forecast_confidence L steps = inr c ->
            Machine.well_formed c /\ Machine.sign_bit c = false
            \/ c = S754_nan).
  { intros steps c Hc.
    apply machine_forecast_confidence_spec in Hc as (y & p & _ & Hp & ->).
    apply Hpow in Hp. destruct (SFmul_spec (f64_lit 8 10) p) as [Hwf Hsign].
    rewrite Hp in Hsign. destruct Hsign as [Hn|Hs]; [now right|].
    left. split; [exact Hwf|exact Hs]. }
  assert (Hrank : forall steps, (0 <= steps)%Z -> (steps <= 2 ^ 64 + 1)%Z ->
            forall c, @Machine.forecast_confidence L steps = inr c ->
                      (Machine.rank c + steps <= 2 ^ 64)%Z).
  { intros steps Hs. pattern steps. apply natlike_ind; [| |exact Hs].
    - intros _ c Hc. destruct (Hconf _ _ Hc) as [[Hwf _]| ->].
      + pose proof (rank_bounds c Hwf). lia.
      + cbn. lia.
    - clear steps Hs. intros steps Hs IH Hle c' Hc'.
      destruct (Hdec steps ltac:(lia)) as (c & c2 & Hc & Hc2 & Hlt).
      replace (Z.succ steps) with (steps + 1)%Z in Hc' by lia.
      assert (c2 = c') by congruence. subst c2.
      specialize (IH ltac:(lia) c Hc).
      destruct (Hconf _ _ Hc) as [[Hwf Hsign]| ->];
        [|now destruct c' as [| | |]].
      destruct (Hconf _ _ Hc') as [[Hwf' Hsign']| ->]; [|discriminate].
      pose proof (SFltb_rank c' c Hwf' Hwf Hsign' Hsign Hlt). lia. }
  destruct (Hdec (2 ^ 64)%Z ltac:(lia)) as (c & c' & _ & Hc' & Hlt).
  pose proof (Hrank (2 ^ 64 + 1)%Z ltac:(lia) ltac:(lia) c' Hc') as Hle.
  destruct (Hconf _ _ Hc') as [[Hwf _]| ->]; [|discriminate].
  pose proof (rank_bounds c' Hwf). lia.
Qed.

(** From here on the names of [Machine] are used unqualified. *)
Import Machine.

(** ** Python numbers *)

Lemma float_of_int_raises (z : Z) (e : exn) :
  float_of_int z = inl e ->
  e = OverflowError "int too large to convert to float".
Proof.
  unfold float_of_int.
  destruct (f64_of_Z z); try discriminate. now intros [= <-].
Qed.

(** The conversion of an integer below 2^1023 in magnitude does not
    raise. *)
Lemma float_of_int_in_range (z : Z) :
  (Z.abs z < 2 ^ 1023)%Z -> float_of_int z = inr (f64_of_Z z).
Proof.
  intros Hz. unfold float_of_int.
  pose proof (fun s => f64_of_Z_finite z s Hz) as Hfin.
  destruct (f64_of_Z z) as [s|s| |s m e]; try reflexivity.
  now destruct (Hfin s).
Qed.

Lemma float_of_int_small (z : Z) :
  (Z.abs z < 2 ^ 53)%Z -> float_of_int z = inr (f64_of_Z z).
Proof.
  intros Hz. apply float_of_int_in_range.
  apply Z.lt_trans with (1 := Hz). reflexivity.
Qed.

Lemma to_float_in_range (x : pynum) : in_float_range x -> returns (to_float x).
Proof.
  destruct x as [z|f]; intros Hx; [|now exists f].
  exists (f64_of_Z z). now apply float_of_int_in_range.
Qed.

(** [herbivores * 1.5] is computed for every count in float range. *)
Lemma py_mul_in_range (h : pynum) (f : float64) :
  in_float_range h -> returns (py_mul h (PyFloat f)).
Proof.
  intros Hh. destruct (to_float_in_range h Hh) as [fh Eh].
  destruct h as [z|g]; cbn [py_mul]; unfold float_op; rewrite Eh;
    now eexists.
Qed.

Lemma to_float_raises (x : pynum) (e : exn) :
  to_float x = inl e ->
  e = OverflowError "int too large to convert to float".
Proof. destruct x; [apply float_of_int_raises|discriminate]. Qed.

Lemma small_abs (z : Z) : small z -> (Z.abs z < 2 ^ 53)%Z.
Proof. unfold small. lia. Qed.

Lemma to_float_plain (x : pynum) : plain x -> returns (to_float x).
Proof.
  destruct x as [z|f]; intros Hx; [|now exists f].
  exists (f64_of_Z z). now apply float_of_int_small, small_abs.
Qed.

Lemma float_op_raises op (a b : pynum) (e : exn) :
  float_op op a b = inl e ->
  e = OverflowError "int too large to convert to float".
Proof.
  unfold float_op.
  destruct (to_float a) eqn:Ea; cbn [bind];
    [intros [= <-]; now apply to_float_raises in Ea|].
  destruct (to_float b) eqn:Eb; cbn [bind];
    [intros [= <-]; now apply to_float_raises in Eb|discriminate].
Qed.

Lemma float_op_plain op (a b : pynum) :
  plain a -> plain b -> returns (float_op op a b).
Proof.
  intros Ha Hb. unfold float_op.
  destruct (to_float_plain a Ha) as [fa ->], (to_float_plain b Hb) as [fb ->].
  now eexists.
Qed.

Lemma py_add_raises (a b : pynum) (e : exn) :
  py_add a b = inl e -> is_overflow e = true.
Proof.
  destruct a, b; cbn [py_add]; try discriminate;
    intros E; apply float_op_raises in E; now subst.
Qed.

Lemma py_sub_raises (a b : pynum) (e : exn) :
  py_sub a b = inl e -> is_overflow e = true.
Proof.
  destruct a, b; cbn [py_sub]; try discriminate;
    intros E; apply float_op_raises in E; now subst.
Qed.

Lemma py_mul_raises (a b : pynum) (e : exn) :
  py_mul a b = inl e ->
  e = OverflowError "int too large to convert to float".
Proof.
  destruct a, b; cbn [py_mul]; try discriminate; apply float_op_raises.
Qed.

Lemma int_true_divide_raises (x y : Z) (e : exn) :
  y <> 0%Z -> int_true_divide x y = inl e ->
  e = OverflowError "integer division result too large for a float".
Proof.
  intros Hy. unfold int_true_divide.
  destruct (Z.eqb_spec y 0); [contradiction|].
  destruct ((Z.abs x <? 2 ^ 53)%Z && (Z.abs y <? 2 ^ 53)%Z); [discriminate|].
  destruct (SFdiv 53 1024 (exact_float x) (exact_float y)); try discriminate.
  now intros [= <-].
Qed.

Lemma int_true_divide_small (x y : Z) :
  y <> 0%Z -> (Z.abs x < 2 ^ 53)%Z -> (Z.abs y < 2 ^ 53)%Z ->
  int_true_divide x y = inr (SFdiv 53 1024 (f64_of_Z x) (f64_of_Z y)).
Proof.
  intros Hy Hx Hy'. unfold int_true_divide.
  destruct (Z.eqb_spec y 0); [contradiction|].
  destruct (Z.ltb_spec (Z.abs x) (2 ^ 53)); [|lia].
  now destruct (Z.ltb_spec (Z.abs y) (2 ^ 53)); [|lia].
Qed.

(** A division by a number that is not zero raises [OverflowError] or
    nothing. *)
Lemma py_truediv_raises (a b : pynum) (e : exn) :
  is_zero b = false -> py_truediv a b = inl e -> is_overflow e = true.
Proof.
  intros Hb. destruct a as [x|f], b as [y|g]; cbn [py_truediv].
  - cbn [is_zero] in Hb. apply Z.eqb_neq in Hb.
    destruct (int_true_divide x y) eqn:E; cbn [bind]; [|discriminate].
    intros [= <-]. now rewrite (int_true_divide_raises _ _ _ Hb E).
  - destruct (to_float (PyInt x)) eqn:Ea; cbn [bind to_float ret];
      [intros [= <-]; now rewrite (to_float_raises _ _ Ea)|].
    now rewrite Hb.
  - cbn [to_float ret bind].
    destruct (float_of_int y) eqn:Eb; cbn [bind];
      [intros [= <-]; now rewrite (float_of_int_raises _ _ Eb)|].
    now rewrite Hb.
  - cbn [to_float ret bind]. now rewrite Hb.
Qed.

Lemma py_truediv_plain (a b : pynum) :
  plain a -> plain b -> is_zero b = false -> returns (py_truediv a b).
Proof.
  intros Ha Hb Hz. destruct a as [x|f], b as [y|g]; cbn [py_truediv].
  - cbn [is_zero] in Hz. apply Z.eqb_neq in Hz.
    rewrite int_true_divide_small by (try assumption; now apply small_abs).
    now eexists.
  - destruct (to_float_plain _ Ha) as [fa ->]. cbn [to_float ret bind].
    rewrite Hz. now eexists.
  - destruct (to_float_plain _ Hb) as [fb ->]. cbn [to_float ret bind].
    rewrite Hz. now eexists.
  - cbn [to_float ret bind]. rewrite Hz. now eexists.
Qed.

(** [max(x, 1)] is never zero, and it is 1 when [x] is zero. *)
Lemma py_max2_not_zero (x : pynum) : is_zero (py_max2 x (PyInt 1)) = false.
Proof.
  unfold py_max2, py_gt. destruct x as [z|[s|s| |s m e]]; cbn [py_compare].
  - destruct (Z.compare_spec 1 z); cbn [is_zero]; try reflexivity;
      apply Z.eqb_neq; lia.
  - reflexivity.
  - now destruct (option_map _ _) as [[]|].
  - reflexivity.
  - now destruct (option_map _ _) as [[]|].
Qed.

Lemma py_max2_of_zero (x : pynum) :
  is_zero x = true -> py_max2 x (PyInt 1) = PyInt 1.
Proof.
  unfold py_max2, py_gt. destruct x as [z|[s|s| |s m e]]; cbn [is_zero];
    try discriminate; [|reflexivity].
  intros Hz. apply Z.eqb_eq in Hz. now subst.
Qed.

Lemma py_max2_plain (x : pynum) : plain x -> plain (py_max2 x (PyInt 1)).
Proof.
  intros Hx. unfold py_max2. destruct (py_gt (PyInt 1) x); [|exact Hx].
  cbn. unfold small. lia.
Qed.

Lemma py_sum_raises (a b c : pynum) (e : exn) :
  py_sum [a; b; c] = inl e -> is_overflow e = true.
Proof.
  unfold py_sum. cbn [fold_left bind ret].
  destruct (py_add (PyInt 0) a) as [e1|x] eqn:E1; cbn [bind].
  { intros [= <-]. now apply py_add_raises in E1. }
  destruct (py_add x b) as [e2|y] eqn:E2; cbn [bind].
  { intros [= <-]. now apply py_add_raises in E2. }
  apply py_add_raises.
Qed.

Lemma py_add_returns (a b : pynum) :
  (forall z, a = PyInt z -> (Z.abs z < 2 ^ 53)%Z) ->
  (forall z, b = PyInt z -> (Z.abs z < 2 ^ 53)%Z) ->
  exists r, py_add a b = inr r
    /\ forall z, r = PyInt z ->
         exists x y, a = PyInt x /\ b = PyInt y /\ z = (x + y)%Z.
Proof.
  intros Ha Hb.
  destruct a as [x|f], b as [y|g]; cbn [py_add]; unfold float_op;
    cbn [to_float ret bind];
    rewrite ?float_of_int_small by (first [now apply Ha|now apply Hb]);
    cbn [bind ret]; eexists; (split; [reflexivity|]); intros z [= <-].
  now exists x, y.
Qed.

Lemma py_sum_plain (a b c : pynum) :
  plain a -> plain b -> plain c -> returns (py_sum [a; b; c]).
Proof.
  unfold plain, small. intros Ha Hb Hc.
  unfold py_sum. cbn [fold_left bind ret].
  destruct (py_add_returns (PyInt 0) a) as (r1 & -> & H1).
  { intros z [= <-]. reflexivity. }
  { intros z ->. lia. }
  cbn [bind].
  destruct (py_add_returns r1 b) as (r2 & -> & H2).
  { intros z ->. destruct (H1 z eq_refl) as (x & y & [= <-] & -> & ->). lia. }
  { intros z ->. lia. }
  cbn [bind].
  destruct (py_add_returns r2 c) as (r3 & -> & _).
  { intros z ->. destruct (H2 z eq_refl) as (x & y & -> & -> & ->).
    destruct (H1 x eq_refl) as (x0 & y0 & [= <-] & -> & ->). lia. }
  { intros z ->. lia. }
  now exists r3.
Qed.

(** ** Feature extraction on Python numbers *)

Lemma rate_raises (a b : pynum) (e : exn) :
  rate a b = inl e -> is_overflow e = true.
Proof.
  unfold rate. destruct (py_sub a b) as [e1|d] eqn:E; cbn [bind].
  - intros [= <-]. now apply py_sub_raises in E.
  - now apply py_truediv_raises.
Qed.

Lemma rate_plain (a b : pynum) : plain a -> plain b -> returns (rate a b).
Proof.
  intros Ha Hb. unfold rate.
  destruct a as [x|f], b as [y|g]; cbn [py_sub].
  - cbn [bind ret py_truediv]. unfold plain, small in *.
    rewrite int_true_divide_small by lia. now eexists.
  - destruct (float_op_plain (SFsub 53 1024) (PyInt x) (PyFloat g) Ha Hb)
      as [r E].
    rewrite E. cbn [bind]. unfold float_op in E.
    destruct (to_float (PyInt x)); [discriminate|]. injection E as <-.
    apply py_truediv_plain; [exact I| |reflexivity].
    cbn. unfold small. lia.
  - destruct (float_op_plain (SFsub 53 1024) (PyFloat f) (PyInt y) Ha Hb)
      as [r E].
    rewrite E. cbn [bind]. unfold float_op in E. cbn [to_float ret bind] in E.
    destruct (float_of_int y); [discriminate|]. injection E as <-.
    apply py_truediv_plain; [exact I| |reflexivity].
    cbn. unfold small. lia.
  - unfold float_op. cbn [to_float ret bind].
    apply py_truediv_plain; [exact I| |reflexivity].
    cbn. unfold small. lia.
Qed.

Lemma Zmin_from_step (m x : Z) : (if (x <? m)%Z then x else m) = Z.min m x.
Proof. destruct (Z.ltb_spec x m); lia. Qed.

Lemma Zmax_from_step (m x : Z) : (if (x >? m)%Z then x else m) = Z.max m x.
Proof. rewrite Z.gtb_ltb. destruct (Z.ltb_spec m x); lia. Qed.

Section MachineFeatures.
Context `{NumpyStd}.

Lemma machine_infer_features_five (s1 s2 s3 s4 s5 : snapshot) :
  let col f := [f s1; f s2; f s3; f s4; f s5] in
  let mn f := py_min2 (py_min2 (py_min2 (py_min2 (f s1) (f s2)) (f s3)) (f s4))
                (f s5) in
  let mx f := py_max2 (py_max2 (py_max2 (py_max2 (f s1) (f s2)) (f s3)) (f s4))
                (f s5) in
  infer_features [s1; s2; s3; s4; s5]
  = (t_p <- rate (plants s5) (plants s1) ;;
     t_h <- rate (herbivores s5) (herbivores s1) ;;
     t_c <- rate (carnivores s5) (carnivores s1) ;;
     r_ph <- py_truediv (plants s5) (py_max2 (herbivores s5) (PyInt 1)) ;;
     r_hc <- py_truediv (herbivores s5) (py_max2 (carnivores s5) (PyInt 1)) ;;
     r_ch <- py_truediv (carnivores s5) (py_max2 (herbivores s5) (PyInt 1)) ;;
     total <- py_sum [plants s5; herbivores s5; carnivores s5] ;;
     sd_p <- np_std (col plants) ;;
     sd_h <- np_std (col herbivores) ;;
     sd_c <- np_std (col carnivores) ;;
     ret [ plants s5; herbivores s5; carnivores s5;
           t_p; t_h; t_c; r_ph; r_hc; r_ch; total; sd_p; sd_h; sd_c;
           mn plants; mx plants; mn herbivores; mx herbivores;
           mn carnivores; mx carnivores ]).
Proof. reflexivity. Qed.

Lemma machine_feature_row_five (r1 r2 r3 r4 r5 : row64) :
  let col f := [f r1; f r2; f r3; f r4; f r5] in
  let mn f := Z.min (Z.min (Z.min (Z.min (f r1) (f r2)) (f r3)) (f r4)) (f r5) in
  let mx f := Z.max (Z.max (Z.max (Z.max (f r1) (f r2)) (f r3)) (f r4)) (f r5) in
  feature_row [r1; r2; r3; r4; r5]
  = (sd_p <- np_std (map PyInt (col r_plants)) ;;
     sd_h <- np_std (map PyInt (col r_herbivores)) ;;
     sd_c <- np_std (map PyInt (col r_carnivores)) ;;
     ret [ PyInt (r_plants r5); PyInt (r_herbivores r5);
           PyInt (r_carnivores r5);
           PyFloat (np_true_divide (wrap64 (r_plants r5 - r_plants r1)) 5);
           PyFloat
             (np_true_divide (wrap64 (r_herbivores r5 - r_herbivores r1)) 5);
           PyFloat
             (np_true_divide (wrap64 (r_carnivores r5 - r_carnivores r1)) 5);
           PyFloat
             (np_true_divide (r_plants r5) (max_int64_1 (r_herbivores r5)));
           PyFloat
             (np_true_divide (r_herbivores r5)
                (max_int64_1 (r_carnivores r5)));
           PyFloat
             (np_true_divide (r_carnivores r5)
                (max_int64_1 (r_herbivores r5)));
           PyInt (wrap64 (wrap64 (r_plants r5 + r_herbivores r5)
                          + r_carnivores r5));
           sd_p; sd_h; sd_c;
           PyInt (mn r_plants); PyInt (mx r_plants);
           PyInt (mn r_herbivores); PyInt (mx r_herbivores);
           PyInt (mn r_carnivores); PyInt (mx r_carnivores) ]).
Proof.
  cbv zeta. unfold feature_row, column_by_index.
  cbn [index_last index_first bind ret length seq fold_right index_at
       nth_error map column_min column_max Zmin_from Zmax_from].
  now rewrite !Zmin_from_step, !Zmax_from_step.
Qed.


Lemma machine_infer_features_raises (s1 s2 s3 s4 s5 : snapshot) (e : exn) :
  infer_features [s1; s2; s3; s4; s5] = inl e ->
  is_overflow e = true
  \/ In (inl e)
       [ np_std [plants s1; plants s2; plants s3; plants s4; plants s5];
         np_std [herbivores s1; herbivores s2; herbivores s3; herbivores s4;
                 herbivores s5];
         np_std [carnivores s1; carnivores s2; carnivores s3; carnivores s4;
                 carnivores s5] ].
Proof.
  rewrite machine_infer_features_five. cbv zeta.
  destruct (rate (plants s5) (plants s1)) as [e1|t_p] eqn:E1; cbn [bind];
    [intros [= <-]; left; now apply rate_raises in E1|].
  destruct (rate (herbivores s5) (herbivores s1)) as [e2|t_h] eqn:E2;
    cbn [bind]; [intros [= <-]; left; now apply rate_raises in E2|].
  destruct (rate (carnivores s5) (carnivores s1)) as [e3|t_c] eqn:E3;
    cbn [bind]; [intros [= <-]; left; now apply rate_raises in E3|].
  destruct (py_truediv (plants s5) _) as [e4|r_ph] eqn:E4; cbn [bind];
    [intros [= <-]; left;
     now apply py_truediv_raises in E4; [|apply py_max2_not_zero]|].
  destruct (py_truediv (herbivores s5) _) as [e5|r_hc] eqn:E5; cbn [bind];
    [intros [= <-]; left;
     now apply py_truediv_raises in E5; [|apply py_max2_not_zero]|].
  destruct (py_truediv (carnivores s5) _) as [e6|r_ch] eqn:E6; cbn [bind];
    [intros [= <-]; left;
     now apply py_truediv_raises in E6; [|apply py_max2_not_zero]|].
  destruct (py_sum _) as [e7|total] eqn:E7; cbn [bind];
    [intros [= <-]; left; now apply py_sum_raises in E7|].
  destruct (np_std [plants s1; _; _; _; _]) as [e8|sd_p]; cbn [bind];
    [intros [= <-]; right; now left|].
  destruct (np_std [herbivores s1; _; _; _; _]) as [e9|sd_h]; cbn [bind];
    [intros [= <-]; right; right; now left|].
  destruct (np_std [carnivores s1; _; _; _; _]) as [e10|sd_c]; cbn [bind];
    [intros [= <-]; right; right; right; now left|].
  discriminate.
Qed.


(** C8 (as the code has it).  On a window of five snapshots each ratio is
    divided by max(count, 1), which is never zero and is 1 when the count
    is zero: no ratio raises [ZeroDivisionError].  A ratio can raise
    [OverflowError], and nothing else, when an integer count is beyond the
    range of a float.  When the counts of the window are floats or small
    integers, the three ratios return, and the whole extraction returns as
    soon as [np.std] does on the three columns. *)
Theorem C8_ratios_raise_no_division_by_zero (w : list snapshot)
    (s : snapshot) :
  length w = 5%nat -> index_last w = inr s ->
  let floor_h := py_max2 (herbivores s) (PyInt 1) in
  let floor_c := py_max2 (carnivores s) (PyInt 1) in
  let ratios := [ py_truediv (plants s) floor_h;
                  py_truediv (herbivores s) floor_c;
                  py_truediv (carnivores s) floor_h ] in
  is_zero floor_h = false /\ is_zero floor_c = false
  /\ (is_zero (herbivores s) = true -> floor_h = PyInt 1)
  /\ (is_zero (carnivores s) = true -> floor_c = PyInt 1)
  /\ (forall r, In r ratios ->
        (forall msg, r <> inl (ZeroDivisionError msg))
        /\ (forall e, r = inl e -> is_overflow e = true)
        /\ (plain_snapshot s -> returns r))
  /\ (forall msg,
        infer_features w = inl (ZeroDivisionError msg) ->
        In (inl (ZeroDivisionError msg))
          [ np_std (map plants w); np_std (map herbivores w);
            np_std (map carnivores w) ])
  /\ (Forall plain_snapshot w ->
        returns (np_std (map plants w)) ->
        returns (np_std (map herbivores w)) ->
        returns (np_std (map carnivores w)) ->
        returns (infer_features w)).
Proof.
  intros Hw Hlast. cbv zeta.
  destruct w as [|s1 [|s2 [|s3 [|s4 [|s5 [|]]]]]]; try discriminate.
  cbn [index_last] in Hlast. injection Hlast as ->.
  assert (Hratio : forall a x,
            (forall msg, py_truediv a (py_max2 x (PyInt 1))
                         <> inl (ZeroDivisionError msg))
            /\ (forall e, py_truediv a (py_max2 x (PyInt 1)) = inl e ->
                  is_overflow e = true)
            /\ (plain a -> plain x ->
                  returns (py_truediv a (py_max2 x (PyInt 1))))).
  { intros a x. split; [|split].
    - intros msg E. apply py_truediv_raises in E; [discriminate|].
      apply py_max2_not_zero.
    - intros e. apply py_truediv_raises, py_max2_not_zero.
    - intros Ha Hx. apply py_truediv_plain; [exact Ha| |apply py_max2_not_zero].
      now apply py_max2_plain. }
  split; [apply py_max2_not_zero|]. split; [apply py_max2_not_zero|].
  split; [apply py_max2_of_zero|]. split; [apply py_max2_of_zero|].
  split; [|split].
  - intros r [<-|[<-|[<-|[]]]];
      (split; [apply Hratio|]; split; [apply Hratio|]);
      intros (Hp & Hh & Hc); now apply Hratio.
  - intros msg E.
    now destruct (machine_infer_features_raises _ _ _ _ _ _ E) as [Ho|Hin];
      [discriminate|].
  - intros Hplain [sd_p Ep] [sd_h Eh] [sd_c Ec].
    rewrite machine_infer_features_five. cbv zeta.
    cbn [map] in Ep, Eh, Ec.
    apply Forall_cons_iff in Hplain as [(Hp1 & Hh1 & Hc1) Hplain].
    do 3 apply Forall_cons_iff in Hplain as [_ Hplain].
    apply Forall_cons_iff in Hplain as [(Hp & Hh & Hc) _].
    destruct (rate_plain _ _ Hp Hp1) as [t_p ->].
    destruct (rate_plain _ _ Hh Hh1) as [t_h ->].
    destruct (rate_plain _ _ Hc Hc1) as [t_c ->].
    destruct (proj2 (proj2 (Hratio (plants s) (herbivores s))) Hp Hh)
      as [r_ph ->].
    destruct (proj2 (proj2 (Hratio (herbivores s) (carnivores s))) Hh Hc)
      as [r_hc ->].
    destruct (proj2 (proj2 (Hratio (carnivores s) (herbivores s))) Hc Hh)
      as [r_ch ->].
    destruct (py_sum_plain _ _ _ Hp Hh Hc) as [total ->].
    rewrite Ep, Eh, Ec. now eexists.
Qed.
End MachineFeatures.



Lemma C8_ratios_raise_no_division_by_zero_witness :
  returns
    (@infer_features example_numpy_std
       (map (fun i => Snapshot (Z.of_nat i) (PyInt 5) (PyInt 0)
                        (PyFloat (f64_of_Z 0))) (seq 0 5))).
Proof.
  apply (@C8_ratios_raise_no_division_by_zero example_numpy_std
           (map (fun i => Snapshot (Z.of_nat i) (PyInt 5) (PyInt 0)
                            (PyFloat (f64_of_Z 0))) (seq 0 5))
           (Snapshot 4 (PyInt 5) (PyInt 0) (PyFloat (f64_of_Z 0)))).
  - reflexivity.
  - reflexivity.
  - cbn [map seq]. repeat constructor; cbn; unfold small; lia.
  - vm_compute. now eexists.
  - vm_compute. now eexists.
  - vm_compute. now eexists.
Defined.

(** With no herbivores and plants at 10^400 the ratio plants / max(0, 1)
    raises, although its denominator is 1: the extraction is not total on
    such a window. *)
Lemma C8_ratio_overflows_with_zero_herbivores :
  @infer_features example_numpy_std
    (map (fun i => Snapshot (Z.of_nat i) (PyInt (10 ^ 400)) (PyInt 0)
                     (PyInt 5)) (seq 0 5))
  = inl (OverflowError "integer division result too large for a float")
  /\ py_truediv (PyInt (10 ^ 400)) (py_max2 (PyInt 0) (PyInt 1))
     = inl (OverflowError "integer division result too large for a float").
Proof. split; vm_compute; reflexivity. Qed.

(** ** Training rows and inference vectors *)

Lemma wrap64_small (z : Z) : (- 2 ^ 63 <= z < 2 ^ 63)%Z -> wrap64 z = z.
Proof. intros Hz. unfold wrap64. rewrite Z.mod_small; lia. Qed.

Lemma rate_small (a b : Z) :
  small a -> small b ->
  rate (PyInt a) (PyInt b)
  = inr (PyFloat (np_true_divide (wrap64 (a - b)) 5)).
Proof.
  unfold small. intros Ha Hb. unfold rate, np_true_divide.
  cbn [py_sub bind ret py_truediv].
  rewrite int_true_divide_small by lia. now rewrite wrap64_small by lia.
Qed.

Lemma py_max2_int (a b : Z) : py_max2 (PyInt a) (PyInt b) = PyInt (Z.max a b).
Proof.
  unfold py_max2, py_gt. cbn [py_compare].
  destruct (Z.compare_spec b a); f_equal; lia.
Qed.

Lemma py_min2_int (a b : Z) : py_min2 (PyInt a) (PyInt b) = PyInt (Z.min a b).
Proof.
  unfold py_min2, py_lt. cbn [py_compare].
  destruct (Z.compare_spec b a); f_equal; lia.
Qed.

Lemma max_int64_1_max (h : Z) : max_int64_1 h = Z.max h 1.
Proof. unfold max_int64_1. rewrite Z.gtb_ltb. destruct (Z.ltb_spec h 1); lia. Qed.

Lemma ratio_small (p h : Z) :
  small p -> small h ->
  py_truediv (PyInt p) (py_max2 (PyInt h) (PyInt 1))
  = inr (PyFloat (np_true_divide p (max_int64_1 h))).
Proof.
  unfold small. intros Hp Hh. rewrite py_max2_int, max_int64_1_max.
  cbn [py_truediv]. rewrite int_true_divide_small by lia. reflexivity.
Qed.

Lemma py_sum_small (p h c : Z) :
  small p -> small h -> small c ->
  py_sum [PyInt p; PyInt h; PyInt c]
  = inr (PyInt (wrap64 (wrap64 (p + h) + c))).
Proof.
  unfold small. intros Hp Hh Hc. unfold py_sum.
  cbn [fold_left bind ret py_add].
  rewrite (wrap64_small (p + h)) by lia. now rewrite wrap64_small by lia.
Qed.

Section TrainingRows.
Context `{NumpyStd}.

Lemma feature_row_small (w : list row64) :
  length w = 5%nat -> Forall small_row w ->
  feature_row w = infer_features (map snapshot_of_row w).
Proof.
  intros Hw Hsmall.
  destruct w as [|r1 [|r2 [|r3 [|r4 [|r5 [|]]]]]]; try discriminate.
  apply Forall_cons_iff in Hsmall as [(Hp1 & Hh1 & Hc1) Hsmall].
  do 3 apply Forall_cons_iff in Hsmall as [_ Hsmall].
  apply Forall_cons_iff in Hsmall as [(Hp & Hh & Hc) _].
  rewrite machine_feature_row_five. cbn [map].
  rewrite machine_infer_features_five. cbv zeta.
  cbn [snapshot_of_row plants herbivores carnivores map].
  rewrite !rate_small, !ratio_small, py_sum_small by assumption.
  cbn [bind ret]. now rewrite !py_min2_int, !py_max2_int.
Qed.

Lemma machine_prepare_loop_rows (df : list row64) (idx : list nat) :
  forall fs ts X y,
    prepare_loop df idx fs ts = inr (X, y) ->
    exists rows,
      X = (fs ++ rows)%list
      /\ forall k i, nth_error idx k = Some i ->
           exists row, nth_error rows k = Some row
                       /\ feature_row (slice df (i - 5) i) = inr row.
Proof.
  induction idx as [|i idx IH]; intros fs ts X y; cbn [prepare_loop].
  - intros [= <- <-]. exists []. split; [now rewrite app_nil_r|].
    intros [|k] j; discriminate.
  - destruct (feature_row (slice df (i - 5) i)) as [|row] eqn:Erow;
      cbn [bind]; [discriminate|].
    destruct (index_at df i) as [|next_step]; cbn [bind]; [discriminate|].
    intros Hloop. apply IH in Hloop as (rows & -> & Hrows).
    exists (row :: rows). split; [now rewrite <- app_assoc|].
    intros [|k] j; cbn [nth_error].
    + intros [= <-]. now exists row.
    + apply Hrows.
Qed.

(** X24.  On integer counts below 2^51 in magnitude the two pipelines
    agree: the row that [prepare_features] builds for a window of an int64
    frame is, entry for entry, the vector that [predict_collapse_risk]
    builds from the same five snapshots, and both succeed or fail
    together. *)
Theorem training_and_inference_agree_on_small_counts (w : list row64) :
  length w = 5%nat -> Forall small_row w ->
  feature_row w = infer_features (map snapshot_of_row w)
  /\ forall (history : list row64) (i : nat) X y,
       prepare_features history = inr (X, y) ->
       (5 <= i < length history)%nat ->
       slice history (i - 5) i = w ->
       exists v,
         nth_error X (i - 5) = Some v
         /\ infer_features
              (map snapshot_of_row (last_n 5 (firstn i history))) = inr v.
Proof.
  intros Hw Hsmall. split; [now apply feature_row_small|].
  intros history i X y Hprep Hi Hslice. unfold prepare_features in Hprep.
  destruct (length history <? 10)%nat; [discriminate|].
  apply machine_prepare_loop_rows in Hprep as (rows & -> & Hrows).
  destruct (Hrows (i - 5)%nat i) as (row & Hnth & Hrow).
  { rewrite nth_error_seq.
    destruct (Nat.ltb_spec (i - 5) (length history - 5)); [|lia].
    f_equal. lia. }
  exists row. split; [exact Hnth|].
  assert (Hl : last_n 5 (firstn i history) = w).
  { rewrite <- Hslice. unfold last_n, slice.
    rewrite length_firstn, Nat.min_l by lia.
    rewrite skipn_firstn_comm. reflexivity. }
  rewrite Hl, <- feature_row_small by assumption.
  now rewrite <- Hslice.
Qed.
End TrainingRows.

Lemma training_and_inference_agree_on_small_counts_witness :
  @feature_row example_numpy_std
    (map (fun i => Row64 (Z.of_nat i) 50 10 5) (seq 0 5))
  = @infer_features example_numpy_std
      (map snapshot_of_row
         (map (fun i => Row64 (Z.of_nat i) 50 10 5) (seq 0 5))).
Proof.
  apply (@training_and_inference_agree_on_small_counts example_numpy_std
           (map (fun i => Row64 (Z.of_nat i) 50 10 5) (seq 0 5))).
  - reflexivity.
  - cbn [map seq]. repeat constructor; cbn; unfold small; lia.
Defined.

(** C2, at the failing input.  On the window of five snapshots with every
    count at 2^62, the training row and the inference vector are both
    computed and differ at entry 9, the total biomass: training adds int64
    scalars, which wrap around to -2^62, and inference adds Python
    integers, which give 3 * 2^62. *)
Lemma C2_biomass_wraps_in_training :
  exists v_train v_infer,
    @feature_row example_numpy_std huge_rows = inr v_train
    /\ @infer_features example_numpy_std (map snapshot_of_row huge_rows)
       = inr v_infer
    /\ nth_error v_train 9 = Some (PyInt (- 2 ^ 62))
    /\ nth_error v_infer 9 = Some (PyInt (3 * 2 ^ 62))
    /\ v_train <> v_infer.
Proof.
  eexists _, _. split; [vm_compute; reflexivity|].
  split; [vm_compute; reflexivity|].
  split; [reflexivity|]. split; [reflexivity|]. discriminate.
Qed.

(** ** The heuristic estimator on Python numbers *)

Lemma plant_trend_raises (recent_data : list snapshot)
    (first3 latest : snapshot) (e : exn) :
  plant_trend recent_data first3 latest = inl e -> is_overflow e = true.
Proof.
  unfold plant_trend. destruct (3 <=? length recent_data)%nat; [|discriminate].
  destruct (py_sub (plants latest) (plants first3)) as [e1|d] eqn:E1;
    cbn [bind]; [intros [= <-]; now apply py_sub_raises in E1|].
  destruct (py_truediv d (PyInt 3)) as [e2|q] eqn:E2; cbn [bind];
    [|discriminate].
  intros [= <-]. now apply py_truediv_raises in E2.
Qed.

Lemma plant_trend_plain (recent_data : list snapshot)
    (first3 latest : snapshot) :
  plain (plants latest) -> plain (plants first3) ->
  returns (plant_trend recent_data first3 latest).
Proof.
  intros Ha Hb. unfold plant_trend.
  destruct (3 <=? length recent_data)%nat; [|now eexists].
  assert (H3 : plain (PyInt 3)) by (cbn; unfold small; lia).
  destruct (plants latest) as [x|f], (plants first3) as [y|g]; cbn [py_sub].
  - cbn [bind ret py_truediv]. unfold plain, small in *.
    rewrite int_true_divide_small by lia. now eexists.
  - destruct (float_op_plain (SFsub 53 1024) (PyInt x) (PyFloat g) Ha Hb)
      as [r E].
    rewrite E. cbn [bind]. unfold float_op in E.
    destruct (to_float (PyInt x)); [discriminate|]. injection E as <-.
    destruct (py_truediv_plain (PyFloat (SFsub 53 1024 f g)) (PyInt 3) I H3
                eq_refl) as [q ->].
    now eexists.
  - destruct (float_op_plain (SFsub 53 1024) (PyFloat f) (PyInt y) Ha Hb)
      as [r E].
    rewrite E. cbn [bind]. unfold float_op in E. cbn [to_float ret bind] in E.
    destruct (float_of_int y) as [|fy]; [discriminate|]. injection E as <-.
    destruct (py_truediv_plain (PyFloat (SFsub 53 1024 f fy)) (PyInt 3) I H3
                eq_refl) as [q ->].
    now eexists.
  - unfold float_op. cbn [to_float ret bind].
    destruct (py_truediv_plain (PyFloat (SFsub 53 1024 f g)) (PyInt 3) I H3
                eq_refl) as [q ->].
    now eexists.
Qed.

Lemma machine_heuristic_table (recent_data : list snapshot)
    (latest : snapshot) :
  index_last recent_data = inr latest ->
  heuristic_collapse_prediction recent_data
  = (limit <- py_mul (herbivores latest) (PyFloat (f64_lit 15 10)) ;;
     trend_ <- plant_trend recent_data (hd latest (last_n 3 recent_data))
                 latest ;;
     ret (RiskResult
            (clamped_sum (triggered (heuristic_rules latest limit trend_)))
            (f64_lit 6 10)
            (triggered (heuristic_rules latest limit trend_)) "heuristic")).
Proof.
  intros Hlast. destruct recent_data as [|s0 l]; [discriminate|].
  set (data := s0 :: l) in *.
  assert (Hne : data <> []) by (subst data; congruence).
  unfold heuristic_collapse_prediction. fold data. rewrite Hlast.
  cbn [bind].
  destruct (py_mul (herbivores latest) (PyFloat (f64_lit 15 10)))
    as [e|limit]; cbn [bind]; [reflexivity|].
  unfold plant_trend, heuristic_rules, triggered, clamped_sum.
  destruct (3 <=? length data)%nat eqn:E3.
  - unfold last_n at 1. rewrite index_last_skipn, Hlast
      by (subst data; simpl; lia).
    rewrite (index_first_hd _ latest) by (apply last_n_nonempty; [easy|lia]).
    cbn [bind ret].
    destruct (py_sub (plants latest) (plants (hd latest (last_n 3 data))))
      as [e|d]; cbn [bind]; [reflexivity|].
    destruct (py_truediv d (PyInt 3)) as [e|q]; cbn [bind ret];
      [reflexivity|].
    destruct (py_lt (plants latest) (PyInt 10)),
      (py_lt (plants latest) (PyInt 30)),
      (py_lt (herbivores latest) (PyInt 3)),
      (py_gt (carnivores latest) limit),
      (py_lt q (PyInt (-5))); vm_compute; reflexivity.
  - cbn [bind ret].
    destruct (py_lt (plants latest) (PyInt 10)),
      (py_lt (plants latest) (PyInt 30)),
      (py_lt (herbivores latest) (PyInt 3)),
      (py_gt (carnivores latest) limit); vm_compute; reflexivity.
Qed.

Lemma machine_clamped_sum_le_1 (latest : snapshot) (limit : pynum)
    (trend_ : option pynum) :
  SFleb (clamped_sum (triggered (heuristic_rules latest limit trend_)))
    (f64_of_Z 1) = true.
Proof.
  unfold heuristic_rules, triggered, clamped_sum.
  destruct (py_lt (plants latest) (PyInt 10)),
    (py_lt (plants latest) (PyInt 30)),
    (py_lt (herbivores latest) (PyInt 3)),
    (py_gt (carnivores latest) limit),
    (match trend_ with Some t => py_lt t (PyInt (-5)) | None => false end);
    vm_compute; reflexivity.
Qed.

Lemma machine_heuristic_raises (recent_data : list snapshot) (e : exn) :
  heuristic_collapse_prediction recent_data = inl e ->
  is_overflow e = true /\ recent_data <> [].
Proof.
  destruct recent_data as [|s0 l]; [discriminate|]. intros E.
  split; [|congruence].
  destruct (index_last_total (s0 :: l)) as [latest Hlast]; [congruence|].
  rewrite (machine_heuristic_table _ _ Hlast) in E.
  destruct (py_mul _ _) as [e1|limit] eqn:E1; cbn [bind] in E.
  { injection E as <-. now rewrite (py_mul_raises _ _ _ E1). }
  destruct (plant_trend _ _ _) as [e2|t] eqn:E2; cbn [bind] in E;
    [|discriminate].
  injection E as <-. now apply plant_trend_raises in E2.
Qed.

Lemma machine_heuristic_version (recent_data : list snapshot) :
  version_of (heuristic_collapse_prediction recent_data) <> Some "1.0".
Proof.
  destruct recent_data as [|s0 l]; [discriminate|].
  destruct (index_last_total (s0 :: l)) as [latest Hlast]; [congruence|].
  rewrite (machine_heuristic_table _ _ Hlast).
  destruct (py_mul _ _); cbn [bind]; [discriminate|].
  destruct (plant_trend _ _ _); cbn [bind]; discriminate.
Qed.

Lemma index_last_in {A} (l : list A) (x : A) :
  index_last l = inr x -> In x l.
Proof.
  induction l as [|a l IH]; [discriminate|]. destruct l as [|b l].
  - intros [= <-]. now left.
  - intros Hl. right. now apply IH.
Qed.

Lemma skipn_in {A} (n : nat) (l : list A) (x : A) :
  In x (skipn n l) -> In x l.
Proof.
  revert l. induction n as [|n IH]; intros [|a l]; cbn [skipn In]; try tauto.
  intros Hx. right. now apply IH.
Qed.

Lemma small_in_float_range (x : pynum) : plain x -> in_float_range x.
Proof.
  destruct x as [z|f]; [|exact id]. cbn. unfold small. intros Hz.
  apply Z.lt_trans with (2 ^ 53)%Z; [lia|reflexivity].
Qed.

Lemma machine_heuristic_returns (recent_data : list snapshot)
    (latest : snapshot) :
  index_last recent_data = inr latest ->
  in_float_range (herbivores latest) ->
  plain (plants latest) ->
  plain (plants (hd latest (last_n 3 recent_data))) ->
  returns (heuristic_collapse_prediction recent_data).
Proof.
  intros Hlast Hh Hp Hp3. rewrite (machine_heuristic_table _ _ Hlast).
  destruct (py_mul_in_range (herbivores latest) (f64_lit 15 10) Hh)
    as [limit ->].
  cbn [bind].
  destruct (plant_trend_plain recent_data _ latest Hp Hp3) as [t ->].
  now eexists.
Qed.

Lemma machine_heuristic_plain (recent_data : list snapshot) :
  Forall plain_snapshot recent_data ->
  returns (heuristic_collapse_prediction recent_data).
Proof.
  intros Hplain. destruct recent_data as [|s0 l]; [now eexists|].
  destruct (index_last_total (s0 :: l)) as [latest Hlast]; [congruence|].
  assert (Hin : forall s, In s (s0 :: l) -> plain_snapshot s)
    by now apply List.Forall_forall.
  assert (Hlatest : plain_snapshot latest)
    by now apply Hin, index_last_in.
  assert (Hfirst3 : plain_snapshot (hd latest (last_n 3 (s0 :: l)))).
  { destruct (last_n 3 (s0 :: l)) as [|a d] eqn:El; [exact Hlatest|].
    apply Hin, (skipn_in (length (s0 :: l) - 3)). fold (last_n 3 (s0 :: l)).
    rewrite El. now left. }
  destruct Hlatest as (Hp & Hh & Hc). destruct Hfirst3 as (Hp3 & _ & _).
  apply (machine_heuristic_returns _ latest Hlast); try assumption.
  now apply small_in_float_range.
Qed.

(** C4 (as the code has it).  On a non-empty sequence the heuristic
    estimator first computes herbivores * 1.5 and, with three snapshots or
    more, the plant trend (last - third last) / 3, in Python's arithmetic.
    When both are computed it returns the weights of the triggered rules
    (plants < 10 gives 0.4, otherwise plants < 30 gives 0.2; herbivores < 3
    gives 0.3; carnivores > herbivores * 1.5 gives 0.2; trend < -5 gives
    0.15) added in evaluation order as binary64 numbers from 0.0 and capped
    at 1.0, the confidence 0.6, the version "heuristic" and the triggered
    rules in evaluation order.  It raises exactly when one of the two
    computations raises, which is an [OverflowError] and does not happen on
    a herbivore count in float range (a float, or an integer below 2^1023
    in magnitude) with plant counts that are floats or small integers.  On
    the single snapshot (8, 2, 5) the three weights 0.4, 0.3 and 0.2 add up
    to 0.8999999999999999, the float just below 0.9. *)
Theorem C4_heuristic_estimator_on_python_numbers (recent_data : list snapshot)
    (latest : snapshot) :
  index_last recent_data = inr latest ->
  let first3 := hd latest (last_n 3 recent_data) in
  let limit_ := py_mul (herbivores latest) (PyFloat (f64_lit 15 10)) in
  let trend_ := plant_trend recent_data first3 latest in
  (forall limit t,
     limit_ = inr limit -> trend_ = inr t ->
     let fs := triggered (heuristic_rules latest limit t) in
     heuristic_collapse_prediction recent_data
     = inr (RiskResult (clamped_sum fs) (f64_lit 6 10) fs "heuristic")
     /\ SFleb (clamped_sum fs) (f64_of_Z 1) = true)
  /\ (forall e,
        heuristic_collapse_prediction recent_data = inl e <->
        limit_ = inl e \/ (exists limit, limit_ = inr limit /\ trend_ = inl e))
  /\ (forall e,
        heuristic_collapse_prediction recent_data = inl e ->
        is_overflow e = true)
  /\ (in_float_range (herbivores latest) ->
      plain (plants latest) -> plain (plants first3) ->
        returns (heuristic_collapse_prediction recent_data))
  /\ (forall t,
        heuristic_collapse_prediction
          [Snapshot t (PyInt 8) (PyInt 2) (PyInt 5)]
        = inr (RiskResult (f64_lit 8999999999999999 10000000000000000)
                 (f64_lit 6 10)
                 [ Factor "critically_low_plants" (f64_lit 4 10);
                   Factor "critically_low_herbivores" (f64_lit 3 10);
                   Factor "predator_overload" (f64_lit 2 10) ]
                 "heuristic"))
  /\ f64_lit 8999999999999999 10000000000000000 = SFpred 53 1024 (f64_lit 9 10)
  /\ SFltb (f64_lit 8999999999999999 10000000000000000) (f64_lit 9 10) = true.
Proof.
  intros Hlast. cbv zeta.
  pose proof (machine_heuristic_table _ _ Hlast) as Htable.
  split; [|split; [|split; [|split; [|split; [|split]]]]].
  - intros limit t El Et. rewrite Htable, El. cbn [bind]. rewrite Et.
    cbn [bind ret]. split; [reflexivity|apply machine_clamped_sum_le_1].
  - intros e. rewrite Htable.
    destruct (py_mul _ _) as [e1|limit]; cbn [bind].
    + split; [intros [= <-]; now left|].
      intros [[= <-]|(limit & [=] & _)]. reflexivity.
    + destruct (plant_trend _ _ _) as [e2|t]; cbn [bind ret].
      * split; [intros [= <-]; right; now exists limit|].
        intros [[=]|(limit' & _ & [= <-])]. reflexivity.
      * split; [discriminate|]. intros [[=]|(limit' & _ & [=])].
  - intros e E. now apply machine_heuristic_raises in E.
  - now apply machine_heuristic_returns.
  - intros t. vm_compute. reflexivity.
  - vm_compute. reflexivity.
  - vm_compute. reflexivity.
Qed.

Lemma C4_heuristic_estimator_on_python_numbers_witness :
  returns
    (heuristic_collapse_prediction
       [ Snapshot 0 (PyFloat (f64_lit 153 10)) (PyInt 10) (PyInt 5);
         Snapshot 1 (PyInt 50) (PyInt 10) (PyInt 5);
         Snapshot 2 (PyFloat (f64_lit 3 10)) (PyInt 2) (PyInt 5) ]).
Proof.
  destruct (C4_heuristic_estimator_on_python_numbers
              [ Snapshot 0 (PyFloat (f64_lit 153 10)) (PyInt 10) (PyInt 5);
                Snapshot 1 (PyInt 50) (PyInt 10) (PyInt 5);
                Snapshot 2 (PyFloat (f64_lit 3 10)) (PyInt 2) (PyInt 5) ]
              (Snapshot 2 (PyFloat (f64_lit 3 10)) (PyInt 2) (PyInt 5)))
    as (_ & _ & _ & Hret & _).
  - reflexivity.
  - apply Hret; cbn; unfold small; lia.
Defined.

(** The risk returned on the single snapshot (8, 2, 5) is not the float
    0.9: 0.4 + 0.3 is 0.7, and 0.7 + 0.2 rounds to 0.8999999999999999. *)
Lemma C4_risk_is_not_0_9 :
  risk_of (heuristic_collapse_prediction
             [Snapshot 0 (PyInt 8) (PyInt 2) (PyInt 5)])
  <> Some (f64_lit 9 10).
Proof. vm_compute. discriminate. Qed.

(** Rules decided by rounded arithmetic.  With plants at 15.3, 50 and 0.3
    the trend (0.3 - 15.3) / 3 is not below -5 and only the plant rule
    fires; with 6004799503160661 herbivores and 2^53 carnivores the
    product herbivores * 1.5 rounds up to 2^53 and no rule fires. *)
Example heuristic_on_a_rounded_trend :
  heuristic_collapse_prediction
    [ Snapshot 0 (PyFloat (f64_lit 153 10)) (PyInt 10) (PyInt 5);
      Snapshot 1 (PyInt 50) (PyInt 10) (PyInt 5);
      Snapshot 2 (PyFloat (f64_lit 3 10)) (PyInt 10) (PyInt 5) ]
  = inr (RiskResult (f64_lit 4 10) (f64_lit 6 10)
           [Factor "critically_low_plants" (f64_lit 4 10)] "heuristic").
Proof. vm_compute. reflexivity. Qed.

Example heuristic_on_a_rounded_product :
  heuristic_collapse_prediction
    [Snapshot 0 (PyInt 50) (PyInt 6004799503160661) (PyInt (2 ^ 53))]
  = inr (RiskResult (f64_of_Z 0) (f64_lit 6 10) [] "heuristic").
Proof. vm_compute. reflexivity. Qed.

(** ** Comparisons with integer thresholds *)

Lemma py_lt_int_mono (x : pynum) (a b : Z) :
  (a <= b)%Z -> py_lt x (PyInt a) = true -> py_lt x (PyInt b) = true.
Proof.
  intros Hab. unfold py_lt. destruct x as [z|[s|s| |s m e]]; cbn [py_compare];
    try discriminate.
  - destruct (Z.compare_spec z a); try discriminate.
    destruct (Z.compare_spec z b); try reflexivity; lia.
  - cbn [compare_float_int]. destruct (Z.compare_spec 0 a); try discriminate.
    destruct (Z.compare_spec 0 b); try reflexivity; lia.
  - cbn [compare_float_int]. now destruct s.
  - cbn [compare_float_int]. destruct e as [|k|k].
    + destruct (Z.compare_spec (Z_of_mantissa s m * 2 ^ 0) a);
        try discriminate.
      destruct (Z.compare_spec (Z_of_mantissa s m * 2 ^ 0) b);
        try reflexivity; lia.
    + destruct (Z.compare_spec (Z_of_mantissa s m * 2 ^ Z.pos k) a);
        try discriminate.
      destruct (Z.compare_spec (Z_of_mantissa s m * 2 ^ Z.pos k) b);
        try reflexivity; lia.
    + assert (Hk : (0 < 2 ^ Z.pos k)%Z) by (apply Z.pow_pos_nonneg; lia).
      destruct (Z.compare_spec (Z_of_mantissa s m) (a * 2 ^ Z.pos k));
        try discriminate.
      destruct (Z.compare_spec (Z_of_mantissa s m) (b * 2 ^ Z.pos k));
        try reflexivity; nia.
Qed.

Lemma is_zero_below_3 (x : pynum) :
  is_zero x = true -> py_lt x (PyInt 3) = true.
Proof.
  destruct x as [z|[s|s| |s m e]]; cbn [is_zero]; try discriminate.
  - intros Hz. apply Z.eqb_eq in Hz. now subst.
  - reflexivity.
Qed.

(** A float that is not below 3 has a clear sign bit. *)
Lemma not_below_3_sign (f : float64) :
  py_lt (PyFloat f) (PyInt 3) = false -> sign_bit f = false.
Proof.
  unfold py_lt. destruct f as [s|s| |s m e];
    cbn [py_compare compare_float_int sign_bit]; try discriminate;
    try reflexivity.
  - now destruct s.
  - destruct s; [|reflexivity]. cbn [Z_of_mantissa]. destruct e as [|k|k].
    + discriminate.
    + assert (Hk : (0 < 2 ^ Z.pos k)%Z) by (apply Z.pow_pos_nonneg; lia).
      destruct (Z.compare_spec (Z.neg m * 2 ^ Z.pos k) 3); try discriminate;
        nia.
    + assert (Hk : (0 < 2 ^ Z.pos k)%Z) by (apply Z.pow_pos_nonneg; lia).
      destruct (Z.compare_spec (Z.neg m) (3 * 2 ^ Z.pos k)); try discriminate;
        nia.
Qed.

Lemma f64_of_Z_pos_sign (z : Z) :
  (0 < z)%Z -> f64_of_Z z = S754_nan \/ sign_bit (f64_of_Z z) = false.
Proof.
  intros Hz. destruct z as [|p|p]; try lia.
  unfold f64_of_Z, binary_normalize, binary_round.
  destruct (shl_align _ _ _) as [mz ez].
  apply binary_round_aux_spec.
Qed.

(** The product [herbivores * 1.5] of a count that is not below 3 is a
    NaN or has a clear sign bit. *)
Lemma limit_sign (h limit : pynum) :
  py_lt h (PyInt 3) = false ->
  py_mul h (PyFloat (f64_lit 15 10)) = inr limit ->
  exists g, limit = PyFloat g /\ (g = S754_nan \/ sign_bit g = false).
Proof.
  intros Hlt Hmul.
  assert (Hf : exists f, to_float h = inr f
                         /\ (f = S754_nan \/ sign_bit f = false)
                         /\ limit = PyFloat (SFmul 53 1024 f (f64_lit 15 10))).
  { destruct h as [z|f]; cbn [py_mul] in Hmul; unfold float_op in Hmul.
    - destruct (to_float (PyInt z)) as [|f] eqn:Ef; [discriminate|].
      cbn [bind to_float ret] in Hmul. injection Hmul as <-.
      exists f. split; [reflexivity|]. split; [|reflexivity].
      assert (Hz : (0 < z)%Z).
      { unfold py_lt in Hlt. cbn [py_compare] in Hlt.
        destruct (Z.compare_spec z 3); try discriminate; lia. }
      assert (f = f64_of_Z z) as ->; [|now apply f64_of_Z_pos_sign].
      cbn [to_float] in Ef. unfold float_of_int in Ef.
      destruct (f64_of_Z z); try discriminate; now injection Ef.
    - cbn [bind to_float ret] in Hmul. injection Hmul as <-.
      exists f. split; [reflexivity|]. split; [|reflexivity].
      right. now apply not_below_3_sign. }
  destruct Hf as (f & _ & Hsign & ->). eexists. split; [reflexivity|].
  destruct (SFmul_spec f (f64_lit 15 10)) as [_ [Hn|Hs]]; [now left|].
  destruct Hsign as [->|Hsign]; [now left|].
  right. rewrite Hs, Hsign. reflexivity.
Qed.

(** Zero is not above a float with a clear sign bit. *)
Lemma zero_not_above (c : pynum) (g : float64) :
  is_zero c = true -> g = S754_nan \/ sign_bit g = false ->
  py_gt c (PyFloat g) = false.
Proof.
  intros Hc Hg. unfold py_gt.
  destruct c as [z|[s|s| |s m e]]; cbn [is_zero] in Hc; try discriminate.
  - apply Z.eqb_eq in Hc. subst z. cbn [py_compare].
    destruct Hg as [->|Hg]; [reflexivity|].
    destruct g as [s|s| |s m e]; cbn [sign_bit] in Hg; subst;
      cbn [compare_float_int option_map CompOpp Z_of_mantissa];
      try reflexivity.
    destruct e as [|k|k]; cbn [Z.mul Z.pow]; try reflexivity.
    assert (Hk : (0 < 2 ^ Z.pos k)%Z) by (apply Z.pow_pos_nonneg; lia).
    destruct (Z.compare_spec (Z.pos m * 2 ^ Z.pos k) 0); try reflexivity; nia.
  - cbn [py_compare]. destruct Hg as [->|Hg]; [reflexivity|].
    destruct g as [s'|s'| |s' m e]; cbn [sign_bit] in Hg; subst;
      reflexivity.
Qed.

(** ** The collapse label and the heuristic *)

(** X3.  The heuristic has no rule for missing carnivores.  On a single
    snapshot whose plants are not below 30, whose herbivores are not below
    3 and whose carnivores are 0 (which the training rule labels as a
    collapse), the heuristic estimator computes herbivores * 1.5 and, when
    that does not raise, returns risk 0.0 with no factor; it does not raise
    when the herbivore count is a float or an integer below 2^1023 in
    magnitude. *)
Theorem carnivore_extinction_has_zero_heuristic_risk (s : snapshot) :
  py_lt (plants s) (PyInt 30) = false ->
  py_lt (herbivores s) (PyInt 3) = false ->
  is_zero (carnivores s) = true ->
  (forall r, snapshot_of_row r = s -> collapse r = true)
  /\ heuristic_collapse_prediction [s]
     = (limit <- py_mul (herbivores s) (PyFloat (f64_lit 15 10)) ;;
        ret (RiskResult (f64_of_Z 0) (f64_lit 6 10) [] "heuristic"))
  /\ (in_float_range (herbivores s) ->
        heuristic_collapse_prediction [s]
        = inr (RiskResult (f64_of_Z 0) (f64_lit 6 10) [] "heuristic")).
Proof.
  intros Hp Hh Hc.
  assert (Hp10 : py_lt (plants s) (PyInt 10) = false).
  { destruct (py_lt (plants s) (PyInt 10)) eqn:E; [|reflexivity].
    rewrite (py_lt_int_mono _ 10 30) in Hp by (try assumption; lia).
    discriminate. }
  assert (Heq : heuristic_collapse_prediction [s]
     = (limit <- py_mul (herbivores s) (PyFloat (f64_lit 15 10)) ;;
        ret (RiskResult (f64_of_Z 0) (f64_lit 6 10) [] "heuristic"))).
  { rewrite (machine_heuristic_table [s] s eq_refl).
    destruct (py_mul _ _) as [e|limit] eqn:Emul; cbn [bind]; [reflexivity|].
    destruct (limit_sign _ _ Hh Emul) as (g & -> & Hg).
    unfold plant_trend, heuristic_rules, triggered. cbn [length Nat.leb bind ret].
    rewrite Hp10, Hp, Hh, (zero_not_above _ _ Hc Hg).
    vm_compute. reflexivity. }
  split; [|split; [exact Heq|]].
  - intros r <-. unfold collapse. cbn [snapshot_of_row carnivores is_zero] in Hc.
    rewrite Hc. now rewrite !orb_true_r.
  - intros Hrange. rewrite Heq.
    now destruct (py_mul_in_range (herbivores s) (f64_lit 15 10) Hrange)
      as [limit ->].
Qed.

Lemma carnivore_extinction_has_zero_heuristic_risk_witness :
  heuristic_collapse_prediction [Snapshot 0 (PyInt 50) (PyInt 10) (PyInt 0)]
  = inr (RiskResult (f64_of_Z 0) (f64_lit 6 10) [] "heuristic").
Proof.
  apply (carnivore_extinction_has_zero_heuristic_risk
           (Snapshot 0 (PyInt 50) (PyInt 10) (PyInt 0)));
    reflexivity.
Defined.

(** X4.  The other two causes of a collapse label are seen by the
    heuristic: whenever it returns a result, plants below 5 in the latest
    snapshot put "critically_low_plants" among the factors, and herbivores
    at 0 put "critically_low_herbivores" among them; and it does return a
    result on floats and small integers. *)
Theorem collapse_causes_seen_by_heuristic (recent_data : list snapshot)
    (latest : snapshot) :
  index_last recent_data = inr latest ->
  (forall risk conf factors version,
     heuristic_collapse_prediction recent_data
     = inr (RiskResult risk conf factors version) ->
     (py_lt (plants latest) (PyInt 5) = true ->
        In (Factor "critically_low_plants" (f64_lit 4 10)) factors)
     /\ (is_zero (herbivores latest) = true ->
           In (Factor "critically_low_herbivores" (f64_lit 3 10)) factors))
  /\ (Forall plain_snapshot recent_data ->
        exists risk factors,
          heuristic_collapse_prediction recent_data
          = inr (RiskResult risk (f64_lit 6 10) factors "heuristic")).
Proof.
  intros Hlast. pose proof (machine_heuristic_table _ _ Hlast) as Htable.
  split.
  - intros risk conf factors version. rewrite Htable.
    destruct (py_mul _ _) as [|limit]; cbn [bind]; [discriminate|].
    destruct (plant_trend _ _ _) as [|t]; cbn [bind ret]; [discriminate|].
    intros [= _ _ <- _]. unfold triggered, heuristic_rules. split.
    + intros Hp. rewrite (py_lt_int_mono _ 5 10) by (try assumption; lia).
      now left.
    + intros Hh. rewrite (is_zero_below_3 _ Hh).
      cbn [List.filter fst snd map negb andb].
      destruct (py_lt (plants latest) (PyInt 10));
        cbn [List.filter fst snd map negb andb].
      * right. now left.
      * destruct (py_lt (plants latest) (PyInt 30)); cbn [fst snd map];
          [right|]; now left.
  - intros Hplain. destruct (machine_heuristic_plain _ Hplain) as [r Hr].
    rewrite Htable in Hr. rewrite Htable.
    destruct (py_mul _ _) as [|limit]; cbn [bind] in *; [discriminate|].
    destruct (plant_trend _ _ _) as [|t]; cbn [bind ret] in *; [discriminate|].
    now eexists _, _.
Qed.

Lemma collapse_causes_seen_by_heuristic_witness :
  exists risk factors,
    heuristic_collapse_prediction [Snapshot 0 (PyInt 4) (PyInt 0) (PyInt 1)]
    = inr (RiskResult risk (f64_lit 6 10) factors "heuristic").
Proof.
  apply (collapse_causes_seen_by_heuristic
           [Snapshot 0 (PyInt 4) (PyInt 0) (PyInt 1)]
           (Snapshot 0 (PyInt 4) (PyInt 0) (PyInt 1))).
  - reflexivity.
  - repeat constructor; cbn; unfold small; lia.
Defined.

(** ** Inference and its fallback on Python numbers *)

Section MachineInference.
Context `{NumpyStd} `{Classifier}.

Lemma machine_predict_without_model (self : predictor)
    (recent_data : list snapshot) (steps_ahead : Z) :
  models self !! "collapse" = None ->
  predict_collapse_risk self recent_data steps_ahead
  = heuristic_collapse_prediction recent_data.
Proof.
  intros Hm. unfold predict_collapse_risk, try_except. rewrite Hm.
  now destruct (heuristic_collapse_prediction recent_data).
Qed.

Lemma machine_predict_with_model (self : predictor)
    (recent_data : list snapshot) (steps_ahead : Z) (model : Model) :
  models self !! "collapse" = Some model ->
  predict_collapse_risk self recent_data steps_ahead
  = try_except (classifier_path self recent_data)
      (fun _ => heuristic_collapse_prediction recent_data).
Proof. intros Hm. unfold predict_collapse_risk. now rewrite Hm. Qed.

Lemma machine_classifier_path_version (self : predictor)
    (recent_data : list snapshot) (r : risk_response) :
  classifier_path self recent_data = inr r ->
  version_of (inr r) = Some "1.0".
Proof.
  unfold classifier_path.
  destruct (length recent_data <? 5)%nat; [discriminate|].
  repeat match goal with
         | |- bind ?m _ = _ -> _ => destruct m; cbn [bind]; [discriminate|]
         end.
  intros [= <-]. reflexivity.
Qed.

Lemma machine_predict_fallback (self : predictor)
    (recent_data : list snapshot) (steps_ahead : Z) (model : Model) (e : exn) :
  models self !! "collapse" = Some model ->
  classifier_path self recent_data = inl e ->
  predict_collapse_risk self recent_data steps_ahead
  = heuristic_collapse_prediction recent_data.
Proof.
  intros Hm He. rewrite (machine_predict_with_model _ _ _ model Hm), He.
  reflexivity.
Qed.

Lemma machine_classifier_path_short (self : predictor)
    (recent_data : list snapshot) :
  (length recent_data < 5)%nat ->
  classifier_path self recent_data
  = inl (ValueError "Need at least 5 recent data points").
Proof.
  intros Hlen. unfold classifier_path.
  now destruct (Nat.ltb_spec (length recent_data) 5); [|lia].
Qed.

(** What [predict_collapse_risk] returns or raises: the outcome of the
    classifier path when that returns, the outcome of the heuristic
    estimator otherwise. *)
Lemma machine_predict_cases (self : predictor) (recent_data : list snapshot)
    (steps_ahead : Z) :
  (exists model r,
     models self !! "collapse" = Some model
     /\ classifier_path self recent_data = inr r
     /\ predict_collapse_risk self recent_data steps_ahead = inr r)
  \/ predict_collapse_risk self recent_data steps_ahead
     = heuristic_collapse_prediction recent_data.
Proof.
  destruct (models self !! "collapse") as [model|] eqn:Hm.
  - destruct (classifier_path self recent_data) as [e|r] eqn:Hc.
    + right. now apply (machine_predict_fallback _ _ _ model e).
    + left. exists model, r. repeat split.
      now rewrite (machine_predict_with_model _ _ _ model Hm), Hc.
  - right. now apply machine_predict_without_model.
Qed.

(** C5 (as the code has it).  Without a resident classifier
    [predict_collapse_risk] is the heuristic estimator; when the classifier
    path raises (fewer than five snapshots, a missing or failing scaler, a
    failing prediction, an overflow in the features, ...) the exception is
    caught and the heuristic estimator is called on the same input; a
    result with version "1.0" can only come from a classifier path that
    succeeded.  The call in the handler is not protected: when the
    heuristic estimator raises, [predict_collapse_risk] raises the same
    [OverflowError].  It raises in no other case, and never on floats and
    small integers. *)
Theorem C5_predict_raises_only_with_the_heuristic (self : predictor)
    (recent_data : list snapshot) (steps_ahead : Z) :
  (models self !! "collapse" = None ->
     predict_collapse_risk self recent_data steps_ahead
     = heuristic_collapse_prediction recent_data)
  /\ (forall model e,
        models self !! "collapse" = Some model ->
        classifier_path self recent_data = inl e ->
        predict_collapse_risk self recent_data steps_ahead
        = heuristic_collapse_prediction recent_data)
  /\ (forall model,
        models self !! "collapse" = Some model ->
        (length recent_data < 5)%nat ->
        classifier_path self recent_data
        = inl (ValueError "Need at least 5 recent data points")
        /\ predict_collapse_risk self recent_data steps_ahead
           = heuristic_collapse_prediction recent_data)
  /\ (version_of (predict_collapse_risk self recent_data steps_ahead)
      = Some "1.0" ->
        exists model r,
          models self !! "collapse" = Some model
          /\ classifier_path self recent_data = inr r
          /\ predict_collapse_risk self recent_data steps_ahead = inr r)
  /\ (forall e,
        predict_collapse_risk self recent_data steps_ahead = inl e ->
        heuristic_collapse_prediction recent_data = inl e
        /\ is_overflow e = true)
  /\ (forall e,
        heuristic_collapse_prediction recent_data = inl e ->
        models self !! "collapse" = None
        \/ (exists e', classifier_path self recent_data = inl e') ->
        predict_collapse_risk self recent_data steps_ahead = inl e)
  /\ (Forall plain_snapshot recent_data ->
        returns (predict_collapse_risk self recent_data steps_ahead)).
Proof.
  split; [apply machine_predict_without_model|].
  split; [intros model e; apply machine_predict_fallback|].
  split.
  { intros model Hm Hlen. split; [now apply machine_classifier_path_short|].
    eapply machine_predict_fallback;
      [exact Hm|now apply machine_classifier_path_short]. }
  destruct (machine_predict_cases self recent_data steps_ahead)
    as [(model & r & Hm & Hc & Hp)|Hp].
  - split; [intros _; now exists model, r|].
    split; [intros e; rewrite Hp; discriminate|].
    split.
    + intros e _ [Hnone|[e' He']]; congruence.
    + intros _. now exists r.
  - split.
    { intros Hv. rewrite Hp in Hv. now apply machine_heuristic_version in Hv. }
    split.
    { intros e. rewrite Hp. intros He. split; [exact He|].
      now apply machine_heuristic_raises in He. }
    split; [intros e He _; now rewrite Hp|].
    intros Hplain. rewrite Hp. now apply machine_heuristic_plain.
Qed.

(** C10 (as the code has it).  For a request whose [features.current] is
    present the [/predict/collapse] handler passes one snapshot to
    [predict_collapse_risk]; with a resident classifier the length check
    raises, the exception is caught and the heuristic estimator is called.
    When herbivores * 1.5 is computed, the answer has status 200 and version
    "heuristic"; when it overflows, the [OverflowError] leaves
    [predict_collapse_risk] and the handler answers status 500 with the
    error message.  The version is never "1.0", and the answer is a
    heuristic result with status 200 whenever the herbivore count is a float
    or an integer below 2^1023 in magnitude. *)
Theorem C10_endpoint_never_uses_the_classifier (self : predictor)
    (p h c : pynum) (steps : option Z) :
  let recent_data := [Snapshot 0 p h c] in
  let answer := predict_collapse self (CollapseRequest (Some (p, h, c)) steps) in
  length recent_data = 1%nat
  /\ (forall model,
        models self !! "collapse" = Some model ->
        forall steps_ahead,
          classifier_path self recent_data
          = inl (ValueError "Need at least 5 recent data points")
          /\ predict_collapse_risk self recent_data steps_ahead
             = heuristic_collapse_prediction recent_data)
  /\ (forall limit,
        py_mul h (PyFloat (f64_lit 15 10)) = inr limit ->
        exists risk factors,
          answer = (RiskResult risk (f64_lit 6 10) factors "heuristic", 200%Z)
          /\ heuristic_collapse_prediction recent_data = inr (fst answer))
  /\ (forall e,
        py_mul h (PyFloat (f64_lit 15 10)) = inl e ->
        e = OverflowError "int too large to convert to float"
        /\ answer
           = (RiskFailure "int too large to convert to float", 500%Z))
  /\ (in_float_range h ->
        exists risk factors,
          answer = (RiskResult risk (f64_lit 6 10) factors "heuristic", 200%Z))
  /\ version_of (inr (fst answer)) <> Some "1.0".
Proof.
  cbv zeta.
  set (recent_data := [Snapshot 0 p h c]).
  set (st := match steps with Some s => s | None => 5%Z end).
  assert (Hshort : classifier_path self recent_data
                   = inl (ValueError "Need at least 5 recent data points")).
  { apply machine_classifier_path_short. subst recent_data. simpl. lia. }
  assert (Hpred : forall steps_ahead,
            predict_collapse_risk self recent_data steps_ahead
            = heuristic_collapse_prediction recent_data).
  { intros steps_ahead.
    destruct (models self !! "collapse") as [model|] eqn:Hm.
    - now apply (machine_predict_fallback _ _ _ model _ Hm Hshort).
    - now apply machine_predict_without_model. }
  assert (Hans : predict_collapse self (CollapseRequest (Some (p, h, c)) steps)
                 = match heuristic_collapse_prediction recent_data with
                   | inr result => (result, 200%Z)
                   | inl e => (RiskFailure (str_exn e), 500%Z)
                   end).
  { unfold predict_collapse. cbn [req_current req_steps length Nat.ltb Nat.leb].
    fold recent_data. fold st. now rewrite Hpred. }
  assert (Hheur : heuristic_collapse_prediction recent_data
                  = (limit <- py_mul h (PyFloat (f64_lit 15 10)) ;;
                     ret (RiskResult
                            (clamped_sum
                               (triggered
                                  (heuristic_rules (Snapshot 0 p h c) limit
                                     None)))
                            (f64_lit 6 10)
                            (triggered
                               (heuristic_rules (Snapshot 0 p h c) limit None))
                            "heuristic"))).
  { subst recent_data.
    rewrite (machine_heuristic_table [Snapshot 0 p h c] (Snapshot 0 p h c)
               eq_refl).
    cbn [herbivores]. now destruct (py_mul h _). }
  split; [reflexivity|]. split; [intros model _ steps_ahead; now split|].
  rewrite Hans, Hheur. split; [|split; [|split]].
  - intros limit ->. cbn [bind ret]. now eexists _, _.
  - intros e He. rewrite He. cbn [bind].
    apply py_mul_raises in He. now subst e.
  - intros Hrange.
    destruct (py_mul_in_range h (f64_lit 15 10) Hrange) as [limit ->].
    cbn [bind ret]. now eexists _, _.
  - destruct (py_mul h _); cbn [bind ret]; discriminate.
Qed.
End MachineInference.

Lemma C5_predict_raises_only_with_the_heuristic_witness :
  (@classifier_path example_numpy_std example_classifier
     (resident_predictor 0 0)
     (map (fun i => Snapshot (Z.of_nat i) (PyInt 50) (PyInt 10) (PyInt 5))
        (seq 0 3))
   = inl (ValueError "Need at least 5 recent data points")
   /\ @predict_collapse_risk example_numpy_std example_classifier
        (resident_predictor 0 0)
        (map (fun i => Snapshot (Z.of_nat i) (PyInt 50) (PyInt 10) (PyInt 5))
           (seq 0 3)) 5
      = heuristic_collapse_prediction
          (map (fun i => Snapshot (Z.of_nat i) (PyInt 50) (PyInt 10) (PyInt 5))
             (seq 0 3)))
  /\ returns
       (@predict_collapse_risk example_numpy_std example_classifier
          (resident_predictor 0 0)
          (map (fun i => Snapshot (Z.of_nat i) (PyInt 50) (PyInt 10) (PyInt 5))
             (seq 0 3)) 5).
Proof.
  destruct (@C5_predict_raises_only_with_the_heuristic example_numpy_std
              example_classifier (resident_predictor 0 0)
              (map (fun i => Snapshot (Z.of_nat i) (PyInt 50) (PyInt 10)
                               (PyInt 5)) (seq 0 3)) 5)
    as (_ & _ & Hshort & _ & _ & _ & Hret).
  split.
  - apply (Hshort 0%nat); [reflexivity|simpl; lia].
  - apply Hret. cbn [map seq]. repeat constructor; cbn; unfold small; lia.
Defined.

(** With 10^400 herbivores, [predict_collapse_risk] raises, with or without
    a resident classifier: herbivores * 1.5 overflows in the heuristic
    estimator, also when it is called from the exception handler. *)
Lemma C5_predict_raises_on_a_huge_count :
  @predict_collapse_risk example_numpy_std example_classifier fresh_predictor
    [Snapshot 0 (PyInt 50) (PyInt (10 ^ 400)) (PyInt 5)] 5
  = inl (OverflowError "int too large to convert to float")
  /\ @predict_collapse_risk example_numpy_std example_classifier
       (resident_predictor 0 0)
       [Snapshot 0 (PyInt 50) (PyInt (10 ^ 400)) (PyInt 5)] 5
     = inl (OverflowError "int too large to convert to float").
Proof. split; vm_compute; reflexivity. Qed.

Lemma C10_endpoint_never_uses_the_classifier_witness :
  exists risk factors,
    @predict_collapse example_numpy_std example_classifier
      (resident_predictor 0 0)
      (CollapseRequest (Some (PyInt 8, PyInt 2, PyInt 5)) None)
    = (RiskResult risk (f64_lit 6 10) factors "heuristic", 200%Z).
Proof.
  destruct (@C10_endpoint_never_uses_the_classifier example_numpy_std
              example_classifier (resident_predictor 0 0)
              (PyInt 8) (PyInt 2) (PyInt 5) None)
    as (_ & _ & _ & _ & Hrange & _).
  apply Hrange. cbn. lia.
Defined.

(** With 10^400 herbivores in [features.current] and a resident pair, the
    route answers status 500 with the overflow message, not a heuristic
    result. *)
Lemma C10_endpoint_answers_500_on_a_huge_count :
  @predict_collapse example_numpy_std example_classifier
    (resident_predictor 0 0)
    (CollapseRequest (Some (PyInt 50, PyInt (10 ^ 400), PyInt 5)) None)
  = (RiskFailure "int too large to convert to float", 500%Z).
Proof. vm_compute. reflexivity. Qed.

Example machine_predict_collapse_route :
  @predict_collapse example_numpy_std example_classifier
    (resident_predictor 20 20)
    (CollapseRequest (Some (PyInt 8, PyInt 2, PyInt 5)) None)
  = (RiskResult (f64_lit 8999999999999999 10000000000000000) (f64_lit 6 10)
       [ Factor "critically_low_plants" (f64_lit 4 10);
         Factor "critically_low_herbivores" (f64_lit 3 10);
         Factor "predator_overload" (f64_lit 2 10) ]
       "heuristic", 200%Z).
Proof. vm_compute. reflexivity. Qed.

Example machine_predict_with_resident_model :
  @predict_collapse_risk example_numpy_std example_classifier
    (resident_predictor 20 20)
    (map (fun i => Snapshot (Z.of_nat i) (PyInt 50) (PyInt 10) (PyInt 5))
       (seq 0 5)) 5
  = inr (RiskResult (f64_lit 3 4) (f64_lit 3 4)
           [ Factor "plants" (f64_lit 1 19);
             Factor "herbivores" (f64_lit 1 19);
             Factor "carnivores" (f64_lit 1 19);
             Factor "plant_trend" (f64_lit 1 19);
             Factor "herbivore_trend" (f64_lit 1 19) ]
           "1.0").
Proof. vm_compute. reflexivity. Qed.
